(** * A shallow embedding of the Maelstrom Raft demo (Python)

    The development follows [demo/python/raft.py] and its older twin
    [demo/python.py]: the [Log], the [KVStore] state machine, the [Net]
    console client and the [RaftNode] with its message handlers and its
    periodic actions.  Python objects become records, [self] becomes an
    explicit state, exceptions become a [Raise] result that keeps every
    mutation made before the raising point, and the lines written to
    stdout become a list of messages kept by the [Net] record. *)

From Stdlib Require Import ZArith QArith Qround Lia.
From stdpp Require Import base option list sorting gmap strings pretty.

Local Open Scope string_scope.
Local Open Scope Z_scope.

(** ** Python data *)

(** The exceptions the modelled code can raise. *)
Inductive exn :=
| IndexError | KeyError | TypeError | ValueError
| UnboundLocalError | RuntimeError.

Inductive result (A : Type) :=
| Ok (a : A)
| Raise (e : exn).
Arguments Ok {A} a.
Arguments Raise {A} e.

(** [xs[j]] on a Python list: a negative index counts from the end. *)
Definition py_index {A} (xs : list A) (j : Z) : result A :=
  let n := Z.of_nat (length xs) in
  let k := if j <? 0 then j + n else j in
  if (k <? 0) || (n <=? k) then Raise IndexError
  else match xs !! Z.to_nat k with
       | Some x => Ok x
       | None => Raise IndexError
       end.

(** A slice bound is clamped the way Python does for [xs[a:b]]. *)
Definition py_clamp (n : nat) (j : Z) : nat :=
  Z.to_nat (if j <? 0 then Z.max 0 (j + Z.of_nat n) else Z.min j (Z.of_nat n)).

(** [xs[0:stop]] *)
Definition py_slice_to {A} (xs : list A) (stop : Z) : list A :=
  take (py_clamp (length xs) stop) xs.

(** [xs[start:]] *)
Definition py_slice_from {A} (xs : list A) (start : Z) : list A :=
  drop (py_clamp (length xs) start) xs.

(** JSON scalars as [json.loads] delivers them (floats are left out). *)
Inductive value :=
| VNone
| VBool (b : bool)
| VInt (n : Z)
| VStr (s : string).

Global Instance value_eq_dec : EqDecision value.
Proof. solve_decision. Defined.

(** Python's [bool] is a subclass of [int]: [True == 1] and [False == 0]. *)
Definition value_num (v : value) : option Z :=
  match v with
  | VBool b => Some (Z.b2z b)
  | VInt n => Some n
  | _ => None
  end.

(** Python's [==] on these scalars. *)
Definition py_eqb (a b : value) : bool :=
  match a, b with
  | VNone, VNone => true
  | VStr s, VStr t => bool_decide (s = t)
  | _, _ =>
      match value_num a, value_num b with
      | Some x, Some y => x =? y
      | _, _ => false
      end
  end.

(** [str(v)] *)
Definition py_str (v : value) : string :=
  match v with
  | VNone => "None"
  | VBool true => "True"
  | VBool false => "False"
  | VInt n => pretty n
  | VStr s => s
  end.

(** A dict looks a key up by hash and [==], so [True] and [1] name the
    same slot; [dict_key] picks the representative of a key. *)
Definition dict_key (k : value) : value :=
  match k with
  | VBool b => VInt (Z.b2z b)
  | _ => k
  end.

Definition value_code (v : value) : unit + (bool + (Z + string)) :=
  match v with
  | VNone => inl ()
  | VBool b => inr (inl b)
  | VInt n => inr (inr (inl n))
  | VStr s => inr (inr (inr s))
  end.

Definition value_decode (c : unit + (bool + (Z + string))) : value :=
  match c with
  | inl _ => VNone
  | inr (inl b) => VBool b
  | inr (inr (inl n)) => VInt n
  | inr (inr (inr s)) => VStr s
  end.

Global Instance value_countable : Countable value.
Proof.
  apply (inj_countable' value_code value_decode).
  intros v. destruct v; reflexivity.
Defined.

(** ** Utilities *)

(** [int(math.floor((n / 2.0) + 1))]: a true division, then the floor. *)
Definition majority (n : Z) : Z :=
  Qfloor (Qplus (Qdiv (inject_Z n) (2 # 1)) (1 # 1)).

(** [median]: copy, sort ascending, index at [len(xs) - majority(len(xs))]. *)
Definition median (xs : list Z) : result Z :=
  let xs := merge_sort Z.le xs in
  let len := Z.of_nat (length xs) in
  py_index xs (len - majority len).

(** ** Messages and log entries *)

(** The body of a client request, which is also what a leader stores in
    its log.  [value], [from] and [to] are present or not according to
    the kind of request; [client] is stamped by the leader. *)
Record op := Op {
  op_type : string;
  op_key : value;
  op_value : option value;
  op_from : option value;
  op_to : option value;
  op_msg_id : Z;
  op_client : option string;
}.

(** A log entry, [{'term': t, 'op': o}]; the default entry has no op. *)
Record entry := Entry {
  e_term : Z;
  e_op : option op;
}.

(** Message bodies, one constructor per value of the ['type'] field.  An
    id the sending node fills in from its own [node_id] may be [None]. *)
Inductive body :=
| Init (node_id : string) (node_ids : list string) (msg_id : Z)
| RaftInit (node_id : string) (node_ids : list string) (msg_id : Z)
| InitOk (in_reply_to : Z)
| RaftInitOk (in_reply_to : Z)
| RequestVote (term : Z) (candidate_id : option string)
    (last_log_index last_log_term : Z) (msg_id : Z)
| RequestVoteRes (term : Z) (vote_granted : bool) (in_reply_to : Z)
| AppendEntries (term : Z) (leader_id : option string)
    (prev_log_index prev_log_term : Z) (entries : list entry)
    (leader_commit : Z) (msg_id : Z)
| AppendEntriesRes (term : Z) (success : bool) (in_reply_to : Z)
| KVRequest (o : op)
| ReadOk (v : value) (in_reply_to : Z)
| WriteOk (in_reply_to : Z)
| CasOk (in_reply_to : Z)
| Error (code : Z) (text : string) (in_reply_to : Z).

(** A message read from stdin. *)
Record msg := Msg {
  src : string;
  dest : string;
  mbody : body;
}.

(** A message written to stdout.  [Net.send] fills in the node's own id
    as the source, which is [None] until the node is initialised. *)
Record packet := Packet {
  p_src : option string;
  p_dest : string;
  p_body : body;
}.

(** ** Log *)

(** [Log.__init__]: the log starts with a default entry. *)
Definition Log_init : list entry := [Entry 0 None].

(** [Log.get]: the log is 1-indexed. *)
Definition Log_get (entries : list entry) (i : Z) : result entry :=
  py_index entries (i - 1).

(** [Log.append] *)
Definition Log_append (entries new : list entry) : list entry :=
  entries ++ new.

(** [Log.last] *)
Definition Log_last (entries : list entry) : result entry :=
  py_index entries (-1).

(** [Log.last_term]: every entry is a non-empty dict, hence truthy. *)
Definition Log_last_term (entries : list entry) : result Z :=
  match Log_last entries with
  | Ok l => Ok (e_term l)
  | Raise e => Raise e
  end.

(** [Log.size] *)
Definition Log_size (entries : list entry) : Z :=
  Z.of_nat (length entries).

(** [Log.truncate] *)
Definition Log_truncate (entries : list entry) (size : Z) : list entry :=
  py_slice_to entries size.

(** [Log.from_index]: for [i <= 0] the message ['illegal index ' + i]
    is itself ill-typed, so what is raised is a [TypeError]. *)
Definition Log_from_index (entries : list entry) (i : Z) : result (list entry) :=
  if i <=? 0 then Raise TypeError
  else Ok (py_slice_from entries (i - 1)).

(** ** KVStore *)

(** What [KVStore.apply] returns: [{'dest': ..., 'body': res}]. *)
Record kv_response := KVResponse {
  kv_dest : string;
  kv_body : body;
}.

(** The two files of the demo: demo/python/raft.py and demo/python.py. *)
Inductive pyfile := raft_py | python_py.

(** [KVStore.apply].  The result pairs the state the store is left in
    with what the call returns or raises.  For an op of another type
    [res] is never bound in raft.py and is [None] in python.py, so the
    assignment [res['in_reply_to'] = ...] raises. *)
Definition KVStore_apply (f : pyfile) (st : gmap value value) (o : op)
  : gmap value value * result kv_response :=
  let t := op_type o in
  let k := dict_key (op_key o) in
  let finish (st' : gmap value value) (res : Z -> body) :=
    match op_client o with
    | Some c => (st', Ok (KVResponse c (res (op_msg_id o))))
    | None => (st', Raise KeyError)
    end in
  if bool_decide (t = "read") then
    match st !! k with
    | Some v => finish st (ReadOk v)
    | None => finish st (Error 20 "not found")
    end
  else if bool_decide (t = "write") then
    match op_value o with
    | Some v => finish (<[k := v]> st) WriteOk
    | None => (st, Raise KeyError)
    end
  else if bool_decide (t = "cas") then
    match st !! k with
    | None => finish st (Error 20 "not found")
    | Some cur =>
        match op_from o with
        | None => (st, Raise KeyError)
        | Some from =>
            if negb (py_eqb cur from) then
              finish st (Error 22 ("expected " +:+ py_str from +:+ " but had " +:+ py_str cur))
            else
              match op_to o with
              | Some to => finish (<[k := to]> st) CasOk
              | None => (st, Raise KeyError)
              end
        end
    end
  else
    (st, Raise (match f with raft_py => UnboundLocalError | python_py => TypeError end)).

(** ** Net and RaftNode *)

(** [self.state], one of the strings 'nascent', 'follower', 'candidate'
    and 'leader'. *)
Inductive role := Nascent | Follower | Candidate | Leader.

Global Instance role_eq_dec : EqDecision role.
Proof. solve_decision. Defined.

(** The response handlers are closures.  A closure is kept as a
    reference to the frame of the call that made it, since closures of
    one call share that call's variables: [request_votes] shares the
    set [votes], and [replicate_log] shares the variables its loop
    assigns ([_node], [_ni], [_entries] in raft.py; [node], [ni],
    [entries] in python.py), of which only the length of the entries is
    ever read. *)
Inductive frame :=
| request_votes_frame (votes : gset (option string)) (term : Z)
| replicate_log_frame (cell_node : option string) (cell_ni : option Z)
    (cell_len : option Z) (term : Z).

Inductive callback :=
| request_votes_handle (fr : nat)
| replicate_log_handler (fr : nat).

(** [Net]: the id of the node, the next message id, the handlers of the
    requests that await a response, and the lines written to stdout. *)
Record Net := {
  net_node_id : option string;
  next_msg_id : Z;
  callbacks : gmap Z callback;
  stdout : list packet;
}.

(** [RaftNode], with the frames its closures refer to. *)
Record RaftNode := {
  election_deadline : Q;
  step_down_deadline : Q;
  last_replication : Q;
  node_id : option string;
  node_ids : option (list string);
  state : role;
  current_term : Z;
  voted_for : option string;
  commit_index : Z;
  last_applied : Z;
  leader : option string;
  next_index : option (gmap string Z);
  _match_index : option (gmap string Z);
  net : Net;
  log : list entry;
  state_machine : gmap value value;
  frames : list frame;
}.

(** The three intervals, in seconds; no method assigns them. *)
Definition election_timeout : Q := 2 # 1.
Definition heartbeat_interval : Q := 1 # 1.
Definition min_replication_interval : Q := 5 # 100.

(** [Net.__init__] *)
Definition Net_init : Net :=
  {| net_node_id := None; next_msg_id := 0; callbacks := ∅; stdout := [] |}.

(** [RaftNode.__init__] *)
Definition RaftNode_init : RaftNode :=
  {| election_deadline := 0; step_down_deadline := 0; last_replication := 0;
     node_id := None; node_ids := None;
     state := Nascent; current_term := 0; voted_for := None;
     commit_index := 0; last_applied := 1; leader := None;
     next_index := None; _match_index := None;
     net := Net_init; log := Log_init; state_machine := ∅; frames := [] |}.

(** Assignments to attributes: [with_x v s] is [s] after [self.x = v]. *)

Definition with_election_deadline (v : Q) (s : RaftNode) : RaftNode :=
  {| election_deadline := v; step_down_deadline := step_down_deadline s;
     last_replication := last_replication s; node_id := node_id s;
     node_ids := node_ids s; state := state s;
     current_term := current_term s; voted_for := voted_for s;
     commit_index := commit_index s; last_applied := last_applied s;
     leader := leader s; next_index := next_index s;
     _match_index := _match_index s; net := net s; log := log s;
     state_machine := state_machine s; frames := frames s |}.

Definition with_step_down_deadline (v : Q) (s : RaftNode) : RaftNode :=
  {| election_deadline := election_deadline s; step_down_deadline := v;
     last_replication := last_replication s; node_id := node_id s;
     node_ids := node_ids s; state := state s;
     current_term := current_term s; voted_for := voted_for s;
     commit_index := commit_index s; last_applied := last_applied s;
     leader := leader s; next_index := next_index s;
     _match_index := _match_index s; net := net s; log := log s;
     state_machine := state_machine s; frames := frames s |}.

Definition with_last_replication (v : Q) (s : RaftNode) : RaftNode :=
  {| election_deadline := election_deadline s;
     step_down_deadline := step_down_deadline s; last_replication := v;
     node_id := node_id s; node_ids := node_ids s; state := state s;
     current_term := current_term s; voted_for := voted_for s;
     commit_index := commit_index s; last_applied := last_applied s;
     leader := leader s; next_index := next_index s;
     _match_index := _match_index s; net := net s; log := log s;
     state_machine := state_machine s; frames := frames s |}.

Definition with_node_id (v : option string) (s : RaftNode) : RaftNode :=
  {| election_deadline := election_deadline s;
     step_down_deadline := step_down_deadline s;
     last_replication := last_replication s; node_id := v;
     node_ids := node_ids s; state := state s;
     current_term := current_term s; voted_for := voted_for s;
     commit_index := commit_index s; last_applied := last_applied s;
     leader := leader s; next_index := next_index s;
     _match_index := _match_index s; net := net s; log := log s;
     state_machine := state_machine s; frames := frames s |}.

Definition with_node_ids (v : option (list string)) (s : RaftNode) : RaftNode :=
  {| election_deadline := election_deadline s;
     step_down_deadline := step_down_deadline s;
     last_replication := last_replication s; node_id := node_id s;
     node_ids := v; state := state s; current_term := current_term s;
     voted_for := voted_for s; commit_index := commit_index s;
     last_applied := last_applied s; leader := leader s;
     next_index := next_index s; _match_index := _match_index s;
     net := net s; log := log s; state_machine := state_machine s;
     frames := frames s |}.

Definition with_state (v : role) (s : RaftNode) : RaftNode :=
  {| election_deadline := election_deadline s;
     step_down_deadline := step_down_deadline s;
     last_replication := last_replication s; node_id := node_id s;
     node_ids := node_ids s; state := v; current_term := current_term s;
     voted_for := voted_for s; commit_index := commit_index s;
     last_applied := last_applied s; leader := leader s;
     next_index := next_index s; _match_index := _match_index s;
     net := net s; log := log s; state_machine := state_machine s;
     frames := frames s |}.

Definition with_current_term (v : Z) (s : RaftNode) : RaftNode :=
  {| election_deadline := election_deadline s;
     step_down_deadline := step_down_deadline s;
     last_replication := last_replication s; node_id := node_id s;
     node_ids := node_ids s; state := state s; current_term := v;
     voted_for := voted_for s; commit_index := commit_index s;
     last_applied := last_applied s; leader := leader s;
     next_index := next_index s; _match_index := _match_index s;
     net := net s; log := log s; state_machine := state_machine s;
     frames := frames s |}.

Definition with_voted_for (v : option string) (s : RaftNode) : RaftNode :=
  {| election_deadline := election_deadline s;
     step_down_deadline := step_down_deadline s;
     last_replication := last_replication s; node_id := node_id s;
     node_ids := node_ids s; state := state s;
     current_term := current_term s; voted_for := v;
     commit_index := commit_index s; last_applied := last_applied s;
     leader := leader s; next_index := next_index s;
     _match_index := _match_index s; net := net s; log := log s;
     state_machine := state_machine s; frames := frames s |}.

Definition with_commit_index (v : Z) (s : RaftNode) : RaftNode :=
  {| election_deadline := election_deadline s;
     step_down_deadline := step_down_deadline s;
     last_replication := last_replication s; node_id := node_id s;
     node_ids := node_ids s; state := state s;
     current_term := current_term s; voted_for := voted_for s;
     commit_index := v; last_applied := last_applied s; leader := leader s;
     next_index := next_index s; _match_index := _match_index s;
     net := net s; log := log s; state_machine := state_machine s;
     frames := frames s |}.

Definition with_last_applied (v : Z) (s : RaftNode) : RaftNode :=
  {| election_deadline := election_deadline s;
     step_down_deadline := step_down_deadline s;
     last_replication := last_replication s; node_id := node_id s;
     node_ids := node_ids s; state := state s;
     current_term := current_term s; voted_for := voted_for s;
     commit_index := commit_index s; last_applied := v; leader := leader s;
     next_index := next_index s; _match_index := _match_index s;
     net := net s; log := log s; state_machine := state_machine s;
     frames := frames s |}.

Definition with_leader (v : option string) (s : RaftNode) : RaftNode :=
  {| election_deadline := election_deadline s;
     step_down_deadline := step_down_deadline s;
     last_replication := last_replication s; node_id := node_id s;
     node_ids := node_ids s; state := state s;
     current_term := current_term s; voted_for := voted_for s;
     commit_index := commit_index s; last_applied := last_applied s;
     leader := v; next_index := next_index s; _match_index := _match_index s;
     net := net s; log := log s; state_machine := state_machine s;
     frames := frames s |}.

Definition with_next_index (v : option (gmap string Z)) (s : RaftNode) : RaftNode :=
  {| election_deadline := election_deadline s;
     step_down_deadline := step_down_deadline s;
     last_replication := last_replication s; node_id := node_id s;
     node_ids := node_ids s; state := state s;
     current_term := current_term s; voted_for := voted_for s;
     commit_index := commit_index s; last_applied := last_applied s;
     leader := leader s; next_index := v; _match_index := _match_index s;
     net := net s; log := log s; state_machine := state_machine s;
     frames := frames s |}.

Definition with_match_index (v : option (gmap string Z)) (s : RaftNode) : RaftNode :=
  {| election_deadline := election_deadline s;
     step_down_deadline := step_down_deadline s;
     last_replication := last_replication s; node_id := node_id s;
     node_ids := node_ids s; state := state s;
     current_term := current_term s; voted_for := voted_for s;
     commit_index := commit_index s; last_applied := last_applied s;
     leader := leader s; next_index := next_index s; _match_index := v;
     net := net s; log := log s; state_machine := state_machine s;
     frames := frames s |}.

Definition with_net (v : Net) (s : RaftNode) : RaftNode :=
  {| election_deadline := election_deadline s;
     step_down_deadline := step_down_deadline s;
     last_replication := last_replication s; node_id := node_id s;
     node_ids := node_ids s; state := state s;
     current_term := current_term s; voted_for := voted_for s;
     commit_index := commit_index s; last_applied := last_applied s;
     leader := leader s; next_index := next_index s;
     _match_index := _match_index s; net := v; log := log s;
     state_machine := state_machine s; frames := frames s |}.

Definition with_log (v : list entry) (s : RaftNode) : RaftNode :=
  {| election_deadline := election_deadline s;
     step_down_deadline := step_down_deadline s;
     last_replication := last_replication s; node_id := node_id s;
     node_ids := node_ids s; state := state s;
     current_term := current_term s; voted_for := voted_for s;
     commit_index := commit_index s; last_applied := last_applied s;
     leader := leader s; next_index := next_index s;
     _match_index := _match_index s; net := net s; log := v;
     state_machine := state_machine s; frames := frames s |}.

Definition with_state_machine (v : gmap value value) (s : RaftNode) : RaftNode :=
  {| election_deadline := election_deadline s;
     step_down_deadline := step_down_deadline s;
     last_replication := last_replication s; node_id := node_id s;
     node_ids := node_ids s; state := state s;
     current_term := current_term s; voted_for := voted_for s;
     commit_index := commit_index s; last_applied := last_applied s;
     leader := leader s; next_index := next_index s;
     _match_index := _match_index s; net := net s; log := log s;
     state_machine := v; frames := frames s |}.

Definition with_frames (v : list frame) (s : RaftNode) : RaftNode :=
  {| election_deadline := election_deadline s;
     step_down_deadline := step_down_deadline s;
     last_replication := last_replication s; node_id := node_id s;
     node_ids := node_ids s; state := state s;
     current_term := current_term s; voted_for := voted_for s;
     commit_index := commit_index s; last_applied := last_applied s;
     leader := leader s; next_index := next_index s;
     _match_index := _match_index s; net := net s; log := log s;
     state_machine := state_machine s; frames := v |}.

Definition with_net_node_id (v : option string) (n : Net) : Net :=
  {| net_node_id := v; next_msg_id := next_msg_id n;
     callbacks := callbacks n; stdout := stdout n |}.

Definition with_next_msg_id (v : Z) (n : Net) : Net :=
  {| net_node_id := net_node_id n; next_msg_id := v;
     callbacks := callbacks n; stdout := stdout n |}.

Definition with_callbacks (v : gmap Z callback) (n : Net) : Net :=
  {| net_node_id := net_node_id n; next_msg_id := next_msg_id n;
     callbacks := v; stdout := stdout n |}.

Definition with_stdout (v : list packet) (n : Net) : Net :=
  {| net_node_id := net_node_id n; next_msg_id := next_msg_id n;
     callbacks := callbacks n; stdout := v |}.

(** ** The monad of methods

    A method takes the node and returns what it returns or raises,
    together with the node as the call leaves it. *)

Definition M (A : Type) : Type := RaftNode -> result A * RaftNode.

Definition ret {A} (a : A) : M A := fun s => (Ok a, s).

Definition bind {A B} (m : M A) (k : A -> M B) : M B :=
  fun s => match m s with
           | (Ok a, s') => k a s'
           | (Raise e, s') => (Raise e, s')
           end.

Definition raise {A} (e : exn) : M A := fun s => (Raise e, s).

Definition get : M RaftNode := fun s => (Ok s, s).

Definition modify (f : RaftNode -> RaftNode) : M unit := fun s => (Ok tt, f s).

(** A pure computation that may raise. *)
Definition lift {A} (r : result A) : M A := fun s => (r, s).

Global Instance M_ret : MRet M := @ret.
Global Instance M_bind : MBind M := fun A B k m => bind m k.

(** [for x in xs: acc = body(x, acc)] *)
Fixpoint for_each {A B} (xs : list A) (acc : B) (body : A -> B -> M B) : M B :=
  match xs with
  | [] => ret acc
  | x :: xs' => acc' ← body x acc; for_each xs' acc' body
  end.

(** [x < y] on times *)
Definition Qltb (x y : Q) : bool := negb (Qle_bool y x).

(** The wall clock and the random source as one event reads them:
    [time.time()] and [random.random()]. *)
Record clock := Clock {
  now : Q;
  rnd : Q;
}.

(** ** Net methods *)

(** [Net.set_node_id] *)
Definition Net_set_node_id (id : option string) : M unit :=
  modify (fun s => with_net (with_net_node_id id (net s)) s).

(** [Net.new_msg_id] *)
Definition new_msg_id : M Z :=
  s ← get;
  let id := next_msg_id (net s) in
  modify (fun s => with_net (with_next_msg_id (next_msg_id (net s) + 1) (net s)) s);;
  mret id.

(** [Net.send_msg]: one line on stdout. *)
Definition send_msg (p : packet) : M unit :=
  modify (fun s => with_net (with_stdout (stdout (net s) ++ [p]) (net s)) s).

(** [Net.send] *)
Definition send (dest : string) (b : body) : M unit :=
  s ← get;
  send_msg (Packet (net_node_id (net s)) dest b).

(** [body['msg_id']] *)
Definition body_msg_id (b : body) : result Z :=
  match b with
  | Init _ _ i | RaftInit _ _ i | RequestVote _ _ _ _ i
  | AppendEntries _ _ _ _ _ _ i => Ok i
  | KVRequest o => Ok (op_msg_id o)
  | _ => Raise KeyError
  end.

(** [body['in_reply_to']], when the body has one. *)
Definition body_in_reply_to (b : body) : option Z :=
  match b with
  | InitOk i | RaftInitOk i | RequestVoteRes _ _ i | AppendEntriesRes _ _ i
  | ReadOk _ i | WriteOk i | CasOk i | Error _ _ i => Some i
  | _ => None
  end.

(** [body['term']] *)
Definition body_term (b : body) : result Z :=
  match b with
  | RequestVote t _ _ _ _ | RequestVoteRes t _ _
  | AppendEntries t _ _ _ _ _ _ | AppendEntriesRes t _ _ => Ok t
  | _ => Raise KeyError
  end.

(** [body['vote_granted']] *)
Definition body_vote_granted (b : body) : result bool :=
  match b with
  | RequestVoteRes _ g _ => Ok g
  | _ => Raise KeyError
  end.

(** [body['success']] *)
Definition body_success (b : body) : result bool :=
  match b with
  | AppendEntriesRes _ ok _ => Ok ok
  | _ => Raise KeyError
  end.

(** [Net.reply]: the response body is given up to its [in_reply_to]. *)
Definition reply (req : msg) (res : Z -> body) : M unit :=
  i ← lift (body_msg_id (mbody req));
  send (src req) (res i).

(** [Net.rpc]: the request body is given up to its [msg_id]. *)
Definition rpc (dest : string) (b : Z -> body) (handler : callback) : M unit :=
  msg_id ← new_msg_id;
  modify (fun s =>
    with_net (with_callbacks (<[msg_id := handler]> (callbacks (net s))) (net s)) s);;
  send dest (b msg_id).

(** ** RaftNode methods *)

(** [nodes.remove(x)]: drops the first occurrence, or raises. *)
Fixpoint list_remove (x : string) (l : list string) : result (list string) :=
  match l with
  | [] => Raise ValueError
  | y :: l' =>
      if bool_decide (y = x) then Ok l'
      else match list_remove x l' with
           | Ok r => Ok (y :: r)
           | Raise e => Raise e
           end
  end.

(** [other_nodes] *)
Definition other_nodes : M (list string) :=
  s ← get;
  match node_ids s with
  | None => raise TypeError
  | Some ids =>
      match node_id s with
      | None => raise ValueError
      | Some me => lift (list_remove me ids)
      end
  end.

(** [match_index]: a copy of [_match_index] with an entry for ourselves. *)
Definition match_index : M (gmap (option string) Z) :=
  s ← get;
  match _match_index s with
  | None => raise TypeError
  | Some m => mret (<[node_id s := Log_size (log s)]> (kmap Some m))
  end.

(** [m.values()] *)
Definition dict_values {K} `{Countable K} (m : gmap K Z) : list Z :=
  (map_to_list m).*2.

(** [d[k]] on an attribute that holds a dict or [None]. *)
Definition dict_lookup (d : option (gmap string Z)) (k : string) : result Z :=
  match d with
  | None => Raise TypeError
  | Some m =>
      match m !! k with
      | Some v => Ok v
      | None => Raise KeyError
      end
  end.

(** [set_node_id] *)
Definition set_node_id (id : option string) : M unit :=
  modify (with_node_id id);;
  Net_set_node_id id.

(** [brpc] *)
Definition brpc (b : Z -> body) (handler : callback) : M unit :=
  nodes ← other_nodes;
  for_each nodes tt (fun node _ => rpc node b handler).

(** [reset_election_deadline] *)
Definition reset_election_deadline (c : clock) : M unit :=
  modify (with_election_deadline (now c + election_timeout * (rnd c + 1))%Q).

(** [reset_step_down_deadline] *)
Definition reset_step_down_deadline (c : clock) : M unit :=
  modify (with_step_down_deadline (now c + election_timeout)%Q).

(** [advance_term] *)
Definition advance_term (term : Z) : M unit :=
  s ← get;
  if negb (current_term s <? term) then raise RuntimeError
  else
    modify (with_current_term term);;
    modify (with_voted_for None).

(** [become_follower] *)
Definition become_follower (c : clock) : M unit :=
  modify (with_state Follower);;
  modify (with_next_index None);;
  modify (with_match_index None);;
  modify (with_leader None);;
  reset_election_deadline c.

(** [maybe_step_down] *)
Definition maybe_step_down (c : clock) (remote_term : Z) : M unit :=
  s ← get;
  if current_term s <? remote_term then
    advance_term remote_term;;
    become_follower c
  else mret tt.

(** [become_leader]; only raft.py resets the step-down deadline here. *)
Definition become_leader (f : pyfile) (c : clock) : M unit :=
  s ← get;
  if negb (bool_decide (state s = Candidate)) then raise RuntimeError
  else
    modify (with_state Leader);;
    modify (with_leader None);;
    modify (with_last_replication 0%Q);;
    nodes ← other_nodes;
    modify (with_next_index
              (Some (list_to_map ((fun n => (n, Log_size (log s) + 1)) <$> nodes))));;
    nodes ← other_nodes;
    modify (with_match_index (Some (list_to_map ((fun n => (n, 0)) <$> nodes))));;
    match f with
    | raft_py => reset_step_down_deadline c
    | python_py => mret tt
    end.

(** A new frame for the closures of one call; the result refers to it. *)
Definition new_frame (fr : frame) : M nat :=
  s ← get;
  modify (with_frames (frames s ++ [fr]));;
  mret (length (frames s)).

(** [request_votes]: [votes] and [term] live in the frame of the call,
    shared by the handlers of all the requests it broadcasts. *)
Definition request_votes : M unit :=
  s ← get;
  fr ← new_frame (request_votes_frame {[ node_id s ]} (current_term s));
  last ← lift (Log_last (log s));
  brpc (RequestVote (current_term s) (node_id s) (Log_size (log s)) (e_term last))
       (request_votes_handle fr).

(** [handle], the closure [request_votes] registers for the responses. *)
Definition handle (f : pyfile) (c : clock) (fr : nat) (response : msg) : M unit :=
  reset_step_down_deadline c;;
  let body := mbody response in
  t ← lift (body_term body);
  maybe_step_down c t;;
  s ← get;
  match frames s !! fr with
  | Some (request_votes_frame votes term) =>
      if bool_decide (state s = Candidate) && (current_term s =? term)
         && (t =? current_term s) then
        granted ← lift (body_vote_granted body);
        if granted : bool then
          let votes' := {[ Some (src response) ]} ∪ votes in
          modify (with_frames (<[fr := request_votes_frame votes' term]> (frames s)));;
          match node_ids s with
          | None => raise TypeError
          | Some ids =>
              if majority (Z.of_nat (length ids)) <=? Z.of_nat (size votes')
              then become_leader f c
              else mret tt
          end
        else mret tt
      else mret tt
  | _ => raise UnboundLocalError
  end.

(** [become_candidate]; only raft.py resets the step-down deadline here. *)
Definition become_candidate (f : pyfile) (c : clock) : M unit :=
  modify (with_state Candidate);;
  s ← get;
  advance_term (current_term s + 1);;
  modify (with_voted_for (node_id s));;
  modify (with_leader None);;
  reset_election_deadline c;;
  match f with
  | raft_py => reset_step_down_deadline c
  | python_py => mret tt
  end;;
  request_votes.

(** [advance_state_machine]: the op of the default entry is [None], and
    subscripting [None] raises a [TypeError]. *)
Definition advance_state_machine (f : pyfile) : M bool :=
  s ← get;
  (if last_applied s <? commit_index s then
     modify (with_last_applied (last_applied s + 1));;
     s ← get;
     e ← lift (Log_get (log s) (last_applied s));
     match e_op e with
     | None => raise TypeError
     | Some o =>
         let '(st, r) := KVStore_apply f (state_machine s) o in
         modify (with_state_machine st);;
         res ← lift r;
         if bool_decide (state s = Leader)
         then send (kv_dest res) (kv_body res)
         else mret tt
     end
   else mret tt);;
  mret true.

(** [election] *)
Definition election (f : pyfile) (c : clock) : M bool :=
  s ← get;
  if Qltb (election_deadline s) (now c) then
    (if bool_decide (state s = Follower) || bool_decide (state s = Candidate)
     then become_candidate f c
     else reset_election_deadline c);;
    mret true
  else mret false.

(** [step_down_on_timeout] *)
Definition step_down_on_timeout (c : clock) : M bool :=
  s ← get;
  if bool_decide (state s = Leader) && Qltb (step_down_deadline s) (now c) then
    become_follower c;;
    mret true
  else mret false.

(** [advance_commit_index] (python.py: [leader_advance_commit_index]) *)
Definition advance_commit_index : M bool :=
  s ← get;
  if bool_decide (state s = Leader) then
    m ← match_index;
    n ← lift (median (dict_values m));
    if commit_index s <? n then
      e ← lift (Log_get (log s) n);
      if e_term e =? current_term s then
        modify (with_commit_index n);;
        mret true
      else mret false
    else mret false
  else mret false.

(** An assignment to variables of the frame [fr] of [replicate_log]. *)
Definition assign (fr : nat) (g : frame -> frame) : M unit :=
  modify (fun s =>
    match frames s !! fr with
    | Some x => with_frames (<[fr := g x]> (frames s)) s
    | None => s
    end).

Definition assign_node (node : string) (x : frame) : frame :=
  match x with
  | replicate_log_frame _ ni len term =>
      replicate_log_frame (Some node) ni len term
  | _ => x
  end.

Definition assign_ni (ni : Z) (x : frame) : frame :=
  match x with
  | replicate_log_frame node _ len term =>
      replicate_log_frame node (Some ni) len term
  | _ => x
  end.

Definition assign_entries (entries : list entry) (x : frame) : frame :=
  match x with
  | replicate_log_frame node ni _ term =>
      replicate_log_frame node ni (Some (Z.of_nat (length entries))) term
  | _ => x
  end.

(** [replicate_log].  The handler of the responses reads [_node], [_ni]
    and [_entries] (raft.py) or [node], [ni] and [entries] (python.py)
    from the frame of this call when it runs, so it sees what the loop
    assigned last.  A frame no handler refers to is simply never read. *)
Definition replicate_log (f : pyfile) (c : clock) : M bool :=
  s ← get;
  let elapsed_time := (now c - last_replication s)%Q in
  let term := current_term s in
  fr ← new_frame (replicate_log_frame None None None term);
  replicated ←
    (if bool_decide (state s = Leader) && Qltb min_replication_interval elapsed_time
     then
       nodes ← other_nodes;
       for_each nodes false (fun node replicated =>
         match f with
         | raft_py => mret tt
         | python_py => assign fr (assign_node node)
         end;;
         s ← get;
         ni ← lift (dict_lookup (next_index s) node);
         match f with
         | raft_py => mret tt
         | python_py => assign fr (assign_ni ni)
         end;;
         entries ← lift (Log_from_index (log s) ni);
         match f with
         | raft_py => mret tt
         | python_py => assign fr (assign_entries entries)
         end;;
         if (0 <? Z.of_nat (length entries)) || Qltb heartbeat_interval elapsed_time
         then
           match f with
           | raft_py =>
               assign fr (assign_ni ni);;
               assign fr (assign_entries entries);;
               assign fr (assign_node node)
           | python_py => mret tt
           end;;
           prev ← lift (Log_get (log s) (ni - 1));
           rpc node
               (AppendEntries (current_term s) (node_id s) (ni - 1) (e_term prev)
                              entries (commit_index s))
               (replicate_log_handler fr);;
           mret true
         else mret replicated)
     else mret false);
  if replicated : bool then
    modify (with_last_replication (now c));;
    mret true
  else mret false.

(** [handler], the closure [replicate_log] registers for a response. *)
Definition handler (c : clock) (fr : nat) (res : msg) : M unit :=
  let body := mbody res in
  t ← lift (body_term body);
  maybe_step_down c t;;
  s ← get;
  match frames s !! fr with
  | Some (replicate_log_frame (Some _node) (Some _ni) (Some len_entries) term) =>
      if bool_decide (state s = Leader) && (term =? current_term s) then
        reset_step_down_deadline c;;
        success ← lift (body_success body);
        if success : bool then
          ni ← lift (dict_lookup (next_index s) _node);
          modify (with_next_index
                    (<[_node := Z.max ni (_ni + len_entries)]> <$> next_index s));;
          mi ← lift (dict_lookup (_match_index s) _node);
          modify (with_match_index
                    (<[_node := Z.max mi (_ni - 1 + len_entries)]> <$> _match_index s))
        else
          ni ← lift (dict_lookup (next_index s) _node);
          modify (with_next_index (<[_node := ni - 1]> <$> next_index s))
      else mret tt
  | _ => raise UnboundLocalError
  end.

(** ** Message handlers, as [setup_handlers] registers them *)

(** [raft_init]: registered for 'init' in raft.py and for 'raft_init' in
    python.py, and answered with the matching [*_ok]. *)
Definition raft_init (f : pyfile) (c : clock) (m : msg)
    (id : string) (ids : list string) : M unit :=
  s ← get;
  if negb (bool_decide (state s = Nascent)) then raise RuntimeError
  else
    set_node_id (Some id);;
    modify (with_node_ids (Some ids));;
    become_follower c;;
    reply m (match f with raft_py => InitOk | python_py => RaftInitOk end).

(** [request_vote].  raft.py reads [self.log.last()['term']] where
    python.py calls [self.log.last_term()]; on entries that carry a term
    the two agree. *)
Definition request_vote (c : clock) (m : msg) (term : Z)
    (candidate_id : option string) (last_log_index last_log_term : Z) : M unit :=
  maybe_step_down c term;;
  s ← get;
  grant ←
    (if term <? current_term s then mret false
     else if negb (bool_decide (voted_for s = None)) then mret false
     else
       last ← lift (Log_last (log s));
       if last_log_term <? e_term last then mret false
       else if (last_log_term =? e_term last) && (last_log_index <? Log_size (log s))
       then mret false
       else
         modify (with_voted_for candidate_id);;
         reset_election_deadline c;;
         mret true);
  s ← get;
  reply m (RequestVoteRes (current_term s) grant).

(** [try: e = self.log.get(i) except IndexError: e = None] *)
Definition try_get (entries : list entry) (i : Z) : M (option entry) :=
  match Log_get entries i with
  | Ok e => mret (Some e)
  | Raise IndexError => mret None
  | Raise e => raise e
  end.

(** [append_entries].  For [prev_log_index <= 0] raft.py raises and
    python.py falls through without replying. *)
Definition append_entries (f : pyfile) (c : clock) (m : msg) (term : Z)
    (leader_id : option string) (prev_log_index prev_log_term : Z)
    (entries : list entry) (leader_commit : Z) : M unit :=
  maybe_step_down c term;;
  s ← get;
  let res := AppendEntriesRes (current_term s) in
  if term <? current_term s then reply m (res false)
  else
    modify (with_leader leader_id);;
    reset_election_deadline c;;
    if prev_log_index <=? 0 then
      match f with
      | raft_py => raise RuntimeError
      | python_py => mret tt
      end
    else
      e ← try_get (log s) prev_log_index;
      match e with
      | None => reply m (res false)
      | Some e =>
          if negb (e_term e =? prev_log_term) then reply m (res false)
          else
            modify (fun s => with_log (Log_truncate (log s) prev_log_index) s);;
            modify (fun s => with_log (Log_append (log s) entries) s);;
            s ← get;
            (if commit_index s <? leader_commit
             then modify (with_commit_index (Z.min leader_commit (Log_size (log s))))
             else mret tt);;
            reply m (res true)
      end.

(** Python truthiness of an attribute holding a string or [None]. *)
Definition truthy (x : option string) : bool :=
  match x with
  | Some a => negb (bool_decide (a = ""))
  | None => false
  end.

(** The text of the error a node answers when it knows no leader. *)
Definition not_a_leader (f : pyfile) : string :=
  match f with
  | raft_py => "not a leader"
  | python_py => "not a leader, and don't know who is"
  end.

(** [op['client'] = src] *)
Definition with_client (src : string) (o : op) : op :=
  {| op_type := op_type o; op_key := op_key o; op_value := op_value o;
     op_from := op_from o; op_to := op_to o; op_msg_id := op_msg_id o;
     op_client := Some src |}.

(** [kv_req] (python.py: [add_log_entry]) *)
Definition kv_req (f : pyfile) (m : msg) (body : op) : M unit :=
  s ← get;
  if bool_decide (state s = Leader) then
    let op := with_client (src m) body in
    modify (with_log (Log_append (log s) [Entry (current_term s) (Some op)]))
  else if truthy (leader s) then
    match leader s with
    | Some l => send_msg (Packet (Some (src m)) l (mbody m))
    | None => mret tt
    end
  else reply m (Error 11 (not_a_leader f)).

(** ** Dispatch and the main loop *)

(** A body of a type nobody registered a handler for: raft.py raises a
    [RuntimeError], python.py fails on [self.handlers[...]]. *)
Definition no_handler (f : pyfile) : M unit :=
  match f with
  | raft_py => raise RuntimeError
  | python_py => raise KeyError
  end.

(** [Net.process_msg] on a line that is ready on stdin.  A body with an
    [in_reply_to] goes to the callback stored under that id, which is
    removed before it runs; any other body goes by its type. *)
Definition process_msg (f : pyfile) (c : clock) (m : msg) : M bool :=
  let body := mbody m in
  match body_in_reply_to body with
  | Some k =>
      s ← get;
      match callbacks (net s) !! k with
      | None => raise KeyError
      | Some h =>
          modify (fun s => with_net (with_callbacks (delete k (callbacks (net s))) (net s)) s);;
          match h with
          | request_votes_handle fr => handle f c fr m
          | replicate_log_handler fr => handler c fr m
          end
      end
  | None =>
      match body with
      | Init id ids _ =>
          match f with
          | raft_py => raft_init f c m id ids
          | python_py => no_handler f
          end
      | RaftInit id ids _ =>
          match f with
          | raft_py => no_handler f
          | python_py => raft_init f c m id ids
          end
      | RequestVote term candidate_id last_log_index last_log_term _ =>
          request_vote c m term candidate_id last_log_index last_log_term
      | AppendEntries term leader_id prev_log_index prev_log_term entries
                      leader_commit _ =>
          append_entries f c m term leader_id prev_log_index prev_log_term
                         entries leader_commit
      | KVRequest o =>
          if bool_decide (op_type o = "read") || bool_decide (op_type o = "write")
             || bool_decide (op_type o = "cas")
          then kv_req f m o
          else no_handler f
      | _ => no_handler f
      end
  end;;
  mret true.

(** What the node can do in one step: handle the next message, or one
    of the periodic actions of the main loop. *)
Inductive event :=
| Receive (m : msg) (c : clock)
| StepDownTick (c : clock)
| ReplicateTick (c : clock)
| ElectionTick (c : clock)
| CommitTick
| ApplyTick.

Definition run (f : pyfile) (e : event) : M bool :=
  match e with
  | Receive m c => process_msg f c m
  | StepDownTick c => step_down_on_timeout c
  | ReplicateTick c => replicate_log f c
  | ElectionTick c => election f c
  | CommitTick => advance_commit_index
  | ApplyTick => advance_state_machine f
  end.

(** The main loop logs an exception and goes on: the node stays as the
    failed action left it. *)
Definition step (f : pyfile) (s : RaftNode) (e : event) : RaftNode :=
  snd (run f e s).

Definition exec (f : pyfile) (s : RaftNode) (es : list event) : RaftNode :=
  foldl (step f) s es.

(** [a or b] on actions that return [True] or [None]. *)
Definition or_else (a b : M bool) : M bool :=
  x ← a;
  if x : bool then mret true else b.

(** One pass of the loop of [main]: the first action that did something
    ends it.  [line] is the message waiting on stdin, if any. *)
Definition main_pass (f : pyfile) (line : option msg) (c : clock) : M bool :=
  or_else (match line with
           | Some m => process_msg f c m
           | None => mret false
           end)
  (or_else (step_down_on_timeout c)
  (or_else (replicate_log f c)
  (or_else (election f c)
  (or_else advance_commit_index
           (advance_state_machine f))))).

(** ** The properties of the specification, as predicates on the model *)

(** [majority(k) = floor(k/2)+1] *)
Definition majority_spec (k : Z) : Z := k / 2 + 1.

(** The median under the lower-biased rule: the element of the sorted
    values at the 0-indexed position [len - majority(len)]. *)
Definition median_spec (xs : list Z) : option Z :=
  merge_sort Z.le xs !! Z.to_nat (Z.of_nat (length xs) - majority_spec (Z.of_nat (length xs))).

(** [1 <= last_applied <= commit_index <= log.size()] *)
Definition applied_commit_size (s : RaftNode) : Prop :=
  1 <= last_applied s /\ last_applied s <= commit_index s
  /\ commit_index s <= Log_size (log s).

(** The same with the commit index read as at least 1, the index of the
    default entry the node starts with. *)
Definition applied_commit_size_from_1 (s : RaftNode) : Prop :=
  1 <= last_applied s /\ last_applied s <= Z.max 1 (commit_index s)
  /\ Z.max 1 (commit_index s) <= Log_size (log s).

(** An append_entries request keeps the committed part of the log when
    what it leaves of the log reaches the commit index. *)
Definition keeps_committed (s : RaftNode) (e : event) : bool :=
  match e with
  | Receive (Msg _ _ (AppendEntries _ _ prev_log_index _ entries _ _)) _ =>
      commit_index s <=? prev_log_index + Z.of_nat (length entries)
  | _ => true
  end.

Fixpoint keeps_committed_all (f : pyfile) (s : RaftNode) (es : list event) : bool :=
  match es with
  | [] => true
  | e :: es' => keeps_committed s e && keeps_committed_all f (step f s e) es'
  end.

(** A method keeps a relation when every call relates the node it
    finds to the node it leaves, whether it returns or raises. *)
Definition keeps (R : RaftNode -> RaftNode -> Prop) {A} (m : M A) : Prop :=
  forall s, R s (snd (m s)).

(** The part of the node the properties below are about. *)
Definition same_core (s s' : RaftNode) : Prop :=
  current_term s' = current_term s /\ voted_for s' = voted_for s
  /\ commit_index s' = commit_index s /\ last_applied s' = last_applied s
  /\ log s' = log s /\ state_machine s' = state_machine s.

(** The term does not go back. *)
Definition term_le (s s' : RaftNode) : Prop :=
  current_term s <= current_term s'.

(** The term does not go back; a vote is dropped when the term advances
    and stands while it does not. *)
Definition term_resets_vote (s s' : RaftNode) : Prop :=
  current_term s <= current_term s'
  /\ (current_term s < current_term s' -> voted_for s' = None)
  /\ (current_term s = current_term s' -> voted_for s' = voted_for s).

(** The log and the two indices into it stay as they are. *)
Definition same_log (s s' : RaftNode) : Prop :=
  last_applied s' = last_applied s /\ commit_index s' = commit_index s
  /\ log s' = log s.

(** A follower of term [t], without the maps a leader keeps. *)
Definition follower_of (t : Z) (s : RaftNode) : Prop :=
  state s = Follower /\ current_term s = t
  /\ next_index s = None /\ _match_index s = None.

(** The init message as each file expects it. *)
Definition init_body (f : pyfile) (id : string) (ids : list string) (msg_id : Z)
  : body :=
  match f with
  | raft_py => Init id ids msg_id
  | python_py => RaftInit id ids msg_id
  end.

(** Once a node is no longer nascent it stays so, with the ids it has. *)
Definition settled (s s' : RaftNode) : Prop :=
  state s <> Nascent ->
  state s' <> Nascent /\ node_id s' = node_id s /\ node_ids s' = node_ids s
  /\ net_node_id (net s') = net_node_id (net s).

(** Every pending request has an id below the next id to allocate. *)
Definition ids_in_order (s : RaftNode) : Prop :=
  forall k h, callbacks (net s) !! k = Some h -> k < next_msg_id (net s).

(** The next id does not go back, and the pending ids stay below it. *)
Definition ids_kept (s s' : RaftNode) : Prop :=
  next_msg_id (net s) <= next_msg_id (net s')
  /\ (ids_in_order s -> ids_in_order s').

(** A node that is not leader does not become one. *)
Definition no_new_leader (s s' : RaftNode) : Prop :=
  state s' = Leader -> state s = Leader.

(** A node that is alone in its cluster, or has no cluster yet, is not
    leader and awaits no response. *)
Definition alone (s : RaftNode) : Prop :=
  state s <> Leader /\ callbacks (net s) = ∅
  /\ (node_ids s = None
      \/ exists me, node_id s = Some me /\ node_ids s = Some [me]).

Definition stays_alone (s s' : RaftNode) : Prop := alone s -> alone s'.

(** The init messages of a run all name a cluster of one node. *)
Definition init_alone (e : event) : bool :=
  match e with
  | Receive (Msg _ _ (Init id ids _)) _
  | Receive (Msg _ _ (RaftInit id ids _)) _ => bool_decide (ids = [id])
  | _ => true
  end.

(** The role, the term, the maps of a leader and the ids stay as they are. *)
Definition same_role (s s' : RaftNode) : Prop :=
  state s' = state s /\ current_term s' = current_term s
  /\ next_index s' = next_index s /\ _match_index s' = _match_index s
  /\ node_id s' = node_id s /\ node_ids s' = node_ids s.

(** The network side of the node stays as it is: nothing is sent, no
    id is allocated and no callback is stored or removed. *)
Definition same_net (s s' : RaftNode) : Prop := net s' = net s.

(** The term does not go back, and while it stays a vote once cast
    stays. *)
Definition vote_stands (s s' : RaftNode) : Prop :=
  current_term s <= current_term s'
  /\ (current_term s' = current_term s ->
      forall v, voted_for s = Some v -> voted_for s' = Some v).

(** ** A concrete run

    A node of raft.py is initialised as n1 of a cluster of three and
    receives from n2, leader of term 1, two entries that follow the
    default entry, with a leader commit of 3.  The requests that come
    next are the ones the properties below are tried on. *)

Definition clock0 : clock := Clock 10 (1 # 2).

Definition write_op (k v msg_id : Z) : op :=
  Op "write" (VInt k) (Some (VInt v)) None None msg_id (Some "c1").

Definition init_n1 : event :=
  Receive (Msg "c0" "n1" (Init "n1" ["n1"; "n2"; "n3"] 1)) clock0.

Definition append_two : event :=
  Receive (Msg "n2" "n1"
             (AppendEntries 1 (Some "n2") 1 0
                [Entry 1 (Some (write_op 1 1 5)); Entry 1 (Some (write_op 2 2 6))]
                3 7)) clock0.

(** The node after these two messages: three entries, all committed. *)
Definition follower_committed : RaftNode :=
  exec raft_py RaftNode_init [init_n1; append_two].

(** A request of the same leader and term that matches at index 1,
    carries one entry and a leader commit of 4. *)
Definition append_one_after_1 : event :=
  Receive (Msg "n2" "n1"
             (AppendEntries 1 (Some "n2") 1 0
                [Entry 1 (Some (write_op 1 1 5))] 4 8)) clock0.

(** A heartbeat of the same leader and term that matches at index 1. *)
Definition heartbeat_after_1 : event :=
  Receive (Msg "n2" "n1" (AppendEntries 1 (Some "n2") 1 0 [] 3 9)) clock0.

(** A third run: n1 receives the same two entries from n2 with a leader
    commit of 1, so that it holds three entries of which only the
    default entry is committed. *)
Definition follower_behind : RaftNode :=
  exec raft_py RaftNode_init
    [init_n1;
     Receive (Msg "n2" "n1"
                (AppendEntries 1 (Some "n2") 1 0
                   [Entry 1 (Some (write_op 1 1 5)); Entry 1 (Some (write_op 2 2 6))]
                   1 7)) clock0].

(** A heartbeat of n2 in term 1 that matches at index 1, with a leader
    commit of 1, read at a later time. *)
Definition heartbeat_at_1 : event :=
  Receive (Msg "n2" "n1" (AppendEntries 1 (Some "n2") 1 0 [] 1 9)) (Clock 20 (1 # 2)).

(** A heartbeat of n3 in term 2 that matches at index 3, the end of the
    log, with a leader commit of 1. *)
Definition heartbeat_of_term_2 : event :=
  Receive (Msg "n3" "n1" (AppendEntries 2 (Some "n3") 3 1 [] 1 10)) clock0.

(** A client request to a node that knows no leader. *)
Definition read_request : msg :=
  Msg "c1" "n1" (KVRequest (Op "read" (VInt 1) None None None 4 None)).

(** A second run: n1 is initialised, its election deadline passes, n2
    grants its vote, which makes n1 leader of term 1; a client writes,
    n1 replicates the entry, and n2 acknowledges it. *)
Definition leader_n1 : RaftNode :=
  exec raft_py RaftNode_init
    [init_n1;
     ElectionTick (Clock 100 0);
     Receive (Msg "n2" "n1" (RequestVoteRes 1 true 0)) clock0;
     Receive (Msg "c1" "n1"
                (KVRequest (Op "write" (VInt 1) (Some (VInt 7)) None None 2 None)))
             clock0;
     ReplicateTick (Clock 101 0);
     Receive (Msg "n2" "n1" (AppendEntriesRes 1 true 2)) clock0].

(** * Properties *)

(** ** Python lists *)

Lemma py_index_nonneg {A} (xs : list A) (j : Z) :
  0 <= j ->
  py_index xs j = match xs !! Z.to_nat j with
                  | Some x => Ok x
                  | None => Raise IndexError
                  end.
Proof.
  intros Hj. unfold py_index.
  destruct (Z.ltb_spec j 0) as [?|_]; [lia|].
  destruct (Z.ltb_spec j 0) as [?|_]; [lia|]. simpl.
  destruct (Z.leb_spec (Z.of_nat (length xs)) j) as [Hge|Hlt]; [|reflexivity].
  rewrite lookup_ge_None_2 by lia. reflexivity.
Qed.

Lemma py_index_negative {A} (xs : list A) (j : Z) :
  j < 0 -> - Z.of_nat (length xs) <= j ->
  py_index xs j = match xs !! Z.to_nat (j + Z.of_nat (length xs)) with
                  | Some x => Ok x
                  | None => Raise IndexError
                  end.
Proof.
  intros Hj Hlo. unfold py_index.
  destruct (Z.ltb_spec j 0) as [_|?]; [|lia].
  destruct (Z.ltb_spec (j + Z.of_nat (length xs)) 0) as [?|_]; [lia|].
  destruct (Z.leb_spec (Z.of_nat (length xs)) (j + Z.of_nat (length xs)))
    as [?|_]; [lia|].
  reflexivity.
Qed.

Lemma py_index_too_negative {A} (xs : list A) (j : Z) :
  j < - Z.of_nat (length xs) -> py_index xs j = Raise IndexError.
Proof.
  intros Hj. unfold py_index.
  destruct (Z.ltb_spec j 0) as [_|?]; [|lia].
  destruct (Z.ltb_spec (j + Z.of_nat (length xs)) 0) as [_|?]; [|lia].
  reflexivity.
Qed.

Lemma py_index_too_large {A} (xs : list A) (j : Z) :
  Z.of_nat (length xs) <= j -> py_index xs j = Raise IndexError.
Proof.
  intros Hj. rewrite py_index_nonneg by lia.
  rewrite lookup_ge_None_2 by lia. reflexivity.
Qed.

Lemma py_index_only_IndexError {A} (xs : list A) (j : Z) (e : exn) :
  py_index xs j = Raise e -> e = IndexError.
Proof.
  unfold py_index.
  destruct (_ || _); [congruence|].
  destruct (xs !! _); congruence.
Qed.

Lemma py_index_Ok_nonneg {A} (xs : list A) (j : Z) (x : A) :
  0 <= j -> py_index xs j = Ok x ->
  j < Z.of_nat (length xs) /\ xs !! Z.to_nat j = Some x.
Proof.
  intros Hj. rewrite py_index_nonneg by assumption.
  destruct (xs !! Z.to_nat j) as [y|] eqn:E; [|discriminate].
  intros [= ->]. split; [|reflexivity].
  apply lookup_lt_Some in E. lia.
Qed.

Lemma py_slice_to_take {A} (xs : list A) (n : Z) :
  0 <= n <= Z.of_nat (length xs) -> py_slice_to xs n = take (Z.to_nat n) xs.
Proof.
  intros Hn. unfold py_slice_to, py_clamp.
  destruct (Z.ltb_spec n 0) as [?|_]; [lia|].
  rewrite Z.min_l by lia. reflexivity.
Qed.

Lemma py_slice_to_length {A} (xs : list A) (n : Z) :
  0 <= n <= Z.of_nat (length xs) -> Z.of_nat (length (py_slice_to xs n)) = n.
Proof.
  intros Hn. rewrite py_slice_to_take by assumption.
  rewrite length_take. lia.
Qed.

(** ** majority and median *)

(** The floor of the true division is the integer division. *)
Lemma majority_floor (n : Z) : majority n = majority_spec n.
Proof.
  unfold majority, majority_spec, Qfloor, Qplus, Qdiv, Qmult, Qinv. simpl.
  rewrite !Z.mul_1_r.
  replace (n + 2) with (n + 1 * 2) by lia.
  rewrite Z.div_add by lia. reflexivity.
Qed.

Lemma majority_examples :
  majority 1 = 1 /\ majority 2 = 2 /\ majority 3 = 2
  /\ majority 4 = 3 /\ majority 5 = 3.
Proof. repeat split; reflexivity. Qed.

Lemma median_position (len : Z) :
  1 <= len -> 0 <= len - majority_spec len < len.
Proof.
  intros Hlen. unfold majority_spec.
  assert (0 <= len / 2) by (apply Z.div_pos; lia).
  assert (len / 2 < len) by (apply Z.div_lt; lia).
  lia.
Qed.

(** On a collection that is not empty, [median] returns the element the
    lower-biased rule names. *)
Lemma median_refines (xs : list Z) :
  xs <> [] -> exists n, median_spec xs = Some n /\ median xs = Ok n.
Proof.
  intros Hne. unfold median, median_spec.
  assert (Hlen : length (merge_sort Z.le xs) = length xs).
  { apply Permutation_length, merge_sort_Permutation. }
  rewrite Hlen, majority_floor.
  assert (1 <= Z.of_nat (length xs)) as Hpos.
  { destruct xs; [congruence|]. simpl. lia. }
  pose proof (median_position _ Hpos) as Hrange.
  rewrite py_index_nonneg by lia.
  destruct (merge_sort Z.le xs !! _) as [n|] eqn:E.
  - exists n. split; reflexivity.
  - apply lookup_ge_None_1 in E. lia.
Qed.

Lemma median_examples :
  median [0; 1; 2] = Ok 1 /\ median [0; 0; 2] = Ok 0
  /\ median [2; 2; 3] = Ok 2 /\ median [1; 2; 3; 4; 5] = Ok 3.
Proof. repeat split; reflexivity. Qed.

(** ** Log *)

Lemma Log_get_in_range (entries : list entry) (i : Z) :
  1 <= i <= Log_size entries ->
  exists e, Log_get entries i = Ok e /\ entries !! Z.to_nat (i - 1) = Some e.
Proof.
  intros Hi. unfold Log_get, Log_size in *.
  rewrite py_index_nonneg by lia.
  destruct (entries !! Z.to_nat (i - 1)) as [e|] eqn:E.
  - exists e. split; reflexivity.
  - apply lookup_ge_None_1 in E. lia.
Qed.

Lemma Log_get_Ok_positive (entries : list entry) (i : Z) (e : entry) :
  1 <= i -> Log_get entries i = Ok e ->
  i <= Log_size entries /\ entries !! Z.to_nat (i - 1) = Some e.
Proof.
  intros Hi Hget. unfold Log_get, Log_size in *.
  apply py_index_Ok_nonneg in Hget; [|lia].
  destruct Hget as [Hlt Hlookup]. split; [lia|assumption].
Qed.

(** Above the size of the log, and below minus its size, [Log.get]
    raises. *)
Lemma Log_get_out_of_reach (entries : list entry) (i : Z) :
  Log_size entries < i \/ i <= - Log_size entries ->
  Log_get entries i = Raise IndexError.
Proof.
  unfold Log_get, Log_size. intros [Hi|Hi].
  - apply py_index_too_large. lia.
  - apply py_index_too_negative. lia.
Qed.

(** C9 (where the code departs from it): [Log.get(0)] does not raise.
    The index it passes on is [-1], which Python reads from the end of
    the list, so the call returns the last entry of the log; on the
    log a node starts with that is the default entry.  A negative index
    within reach returns an entry as well. *)
Theorem Log_get_0_returns_last_entry :
  (forall entries, Log_get entries 0 = Log_last entries)
  /\ Log_get Log_init 0 = Ok (Entry 0 None)
  /\ Log_get [Entry 0 None; Entry 1 None; Entry 2 None] (-1) = Ok (Entry 1 None).
Proof. repeat split; reflexivity. Qed.

(** ** KVStore *)

Lemma py_eqb_int (a b : Z) : py_eqb (VInt a) (VInt b) = true <-> a = b.
Proof. simpl. apply Z.eqb_eq. Qed.

Lemma py_eqb_refl (v : value) : py_eqb v v = true.
Proof.
  destruct v as [|b|n|s]; simpl.
  - reflexivity.
  - apply Z.eqb_refl.
  - apply Z.eqb_refl.
  - apply bool_decide_eq_true. reflexivity.
Qed.

(** C6: [KVStore.apply] follows the table of the state machine, for an
    op that carries the client to answer.  A read of a present key
    answers read_ok with the stored value, a read of an absent key
    answers error 20, both leaving the state as it is; a write stores
    the value and answers write_ok; a cas on an absent key answers
    error 20, a cas whose [from] differs from the stored value answers
    error 22, both leaving the state as it is; a cas whose [from] equals
    the stored value stores [to] and answers cas_ok.  Every answer
    carries the op's msg_id as in_reply_to and goes to the op's client. *)
Theorem KVStore_apply_table (f : pyfile) (st : gmap value value) (o : op)
    (c : string) :
  op_client o = Some c ->
  let k := dict_key (op_key o) in
  let answer (b : Z -> body) := Ok (KVResponse c (b (op_msg_id o))) in
  (op_type o = "read" -> forall v, st !! k = Some v ->
     KVStore_apply f st o = (st, answer (ReadOk v)))
  /\ (op_type o = "read" -> st !! k = None ->
     KVStore_apply f st o = (st, answer (Error 20 "not found")))
  /\ (op_type o = "write" -> forall v, op_value o = Some v ->
     KVStore_apply f st o = (<[k := v]> st, answer WriteOk))
  /\ (op_type o = "cas" -> st !! k = None ->
     KVStore_apply f st o = (st, answer (Error 20 "not found")))
  /\ (op_type o = "cas" -> forall cur from,
     st !! k = Some cur -> op_from o = Some from -> py_eqb cur from = false ->
     KVStore_apply f st o =
       (st, answer (Error 22 ("expected " +:+ py_str from +:+ " but had " +:+ py_str cur))))
  /\ (op_type o = "cas" -> forall cur from to,
     st !! k = Some cur -> op_from o = Some from -> op_to o = Some to ->
     py_eqb cur from = true ->
     KVStore_apply f st o = (<[k := to]> st, answer CasOk)).
Proof.
  intros Hc k answer. unfold KVStore_apply. fold k. rewrite Hc.
  repeat split.
  - intros -> v ->. reflexivity.
  - intros -> ->. reflexivity.
  - intros -> v ->. reflexivity.
  - intros -> ->. reflexivity.
  - intros -> cur from -> -> ->. reflexivity.
  - intros -> cur from to -> -> -> ->. reflexivity.
Qed.

Lemma KVStore_apply_table_witness :
  let st : gmap value value := {[ VInt 1 := VInt 5 ]} in
  let o t k v fr to := Op t (VInt k) v fr to 7 (Some "c1") in
  KVStore_apply raft_py st (o "read" 1 None None None)
    = (st, Ok (KVResponse "c1" (ReadOk (VInt 5) 7)))
  /\ KVStore_apply raft_py st (o "read" 2 None None None)
    = (st, Ok (KVResponse "c1" (Error 20 "not found" 7)))
  /\ KVStore_apply raft_py st (o "write" 2 (Some (VInt 9)) None None)
    = (<[VInt 2 := VInt 9]> st, Ok (KVResponse "c1" (WriteOk 7)))
  /\ KVStore_apply raft_py st (o "cas" 2 None (Some (VInt 5)) (Some (VInt 6)))
    = (st, Ok (KVResponse "c1" (Error 20 "not found" 7)))
  /\ KVStore_apply raft_py st (o "cas" 1 None (Some (VInt 4)) (Some (VInt 6)))
    = (st, Ok (KVResponse "c1" (Error 22 "expected 4 but had 5" 7)))
  /\ KVStore_apply raft_py st (o "cas" 1 None (Some (VInt 5)) (Some (VInt 6)))
    = (<[VInt 1 := VInt 6]> st, Ok (KVResponse "c1" (CasOk 7))).
Proof.
  intros st o.
  pose proof (fun t k v fr to =>
                KVStore_apply_table raft_py st (o t k v fr to) "c1" eq_refl) as T.
  split; [|split; [|split; [|split; [|split]]]].
  - destruct (T "read" 1 None None None) as (H & _).
    apply H; reflexivity.
  - destruct (T "read" 2 None None None) as (_ & H & _).
    apply H; reflexivity.
  - destruct (T "write" 2 (Some (VInt 9)) None None) as (_ & _ & H & _).
    apply H; reflexivity.
  - destruct (T "cas" 2 None (Some (VInt 5)) (Some (VInt 6)))
      as (_ & _ & _ & H & _).
    apply H; reflexivity.
  - destruct (T "cas" 1 None (Some (VInt 4)) (Some (VInt 6)))
      as (_ & _ & _ & _ & H & _).
    apply (H eq_refl (VInt 5) (VInt 4)); reflexivity.
  - destruct (T "cas" 1 None (Some (VInt 5)) (Some (VInt 6)))
      as (_ & _ & _ & _ & _ & H).
    apply (H eq_refl (VInt 5) (VInt 5) (VInt 6)); reflexivity.
Defined.

(** C10: on an op whose type is none of read, write and cas,
    [KVStore.apply] raises, returns no response, and leaves the state of
    the store as it was. *)
Theorem KVStore_apply_other_type (f : pyfile) (st : gmap value value) (o : op) :
  op_type o <> "read" -> op_type o <> "write" -> op_type o <> "cas" ->
  exists e, KVStore_apply f st o = (st, Raise e).
Proof.
  intros Hr Hw Hc. unfold KVStore_apply.
  rewrite !bool_decide_eq_false_2 by assumption.
  eexists. reflexivity.
Qed.

Lemma KVStore_apply_other_type_witness :
  exists e,
    KVStore_apply python_py {[ VInt 1 := VInt 5 ]}
      (Op "delete" (VInt 1) None None None 7 (Some "c1"))
    = ({[ VInt 1 := VInt 5 ]}, Raise e).
Proof.
  apply (KVStore_apply_other_type python_py {[ VInt 1 := VInt 5 ]}
           (Op "delete" (VInt 1) None None None 7 (Some "c1")));
    discriminate.
Defined.

(** ** Running methods *)

Ltac unfold_monad :=
  unfold mbind, M_bind, mret, M_ret, bind, ret, raise, get, modify, lift in *.

Lemma bind_Ok {A B} (m : M A) (k : A -> M B) (s s' : RaftNode) (a : A) :
  m s = (Ok a, s') -> (m ≫= k) s = k a s'.
Proof. intros E. unfold_monad. rewrite E. reflexivity. Qed.

Lemma bind_Raise {A B} (m : M A) (k : A -> M B) (s s' : RaftNode) (e : exn) :
  m s = (Raise e, s') -> (m ≫= k) s = (Raise e, s').
Proof. intros E. unfold_monad. rewrite E. reflexivity. Qed.

(** [advance_term] either raises and leaves the node alone, or sets the
    term and clears the vote. *)
Lemma advance_term_eq (term : Z) (s : RaftNode) :
  advance_term term s =
    if current_term s <? term
    then (Ok tt, with_voted_for None (with_current_term term s))
    else (Raise RuntimeError, s).
Proof.
  unfold advance_term. unfold_monad.
  destruct (current_term s <? term); reflexivity.
Qed.

Lemma become_follower_eq (c : clock) (s : RaftNode) :
  become_follower c s =
    (Ok tt,
     with_election_deadline (now c + election_timeout * (rnd c + 1))%Q
       (with_leader None (with_match_index None (with_next_index None
         (with_state Follower s))))).
Proof. reflexivity. Qed.

(** [maybe_step_down] never raises. *)
Lemma maybe_step_down_eq (c : clock) (remote_term : Z) (s : RaftNode) :
  maybe_step_down c remote_term s =
    (Ok tt,
     if current_term s <? remote_term
     then snd (become_follower c
                 (with_voted_for None (with_current_term remote_term s)))
     else s).
Proof.
  unfold maybe_step_down.
  rewrite (bind_Ok _ _ s s s) by reflexivity.
  destruct (current_term s <? remote_term) eqn:E; [|reflexivity].
  erewrite bind_Ok; [reflexivity|].
  rewrite advance_term_eq, E. reflexivity.
Qed.

Lemma maybe_step_down_frame (c : clock) (remote_term : Z) (s : RaftNode) :
  let s1 := snd (maybe_step_down c remote_term s) in
  log s1 = log s /\ commit_index s1 = commit_index s
  /\ last_applied s1 = last_applied s /\ net s1 = net s
  /\ state_machine s1 = state_machine s /\ frames s1 = frames s
  /\ node_id s1 = node_id s /\ node_ids s1 = node_ids s.
Proof.
  rewrite maybe_step_down_eq. simpl.
  destruct (current_term s <? remote_term); repeat split; reflexivity.
Qed.

Lemma maybe_step_down_term (c : clock) (remote_term : Z) (s : RaftNode) :
  current_term (snd (maybe_step_down c remote_term s))
  = Z.max (current_term s) remote_term.
Proof.
  rewrite maybe_step_down_eq. simpl.
  destruct (Z.ltb_spec (current_term s) remote_term); simpl; lia.
Qed.

Lemma Log_last_term_inv (entries : list entry) (t : Z) :
  Log_last_term entries = Ok t ->
  exists last, Log_last entries = Ok last /\ e_term last = t.
Proof.
  unfold Log_last_term. destruct (Log_last entries) as [last|]; [|discriminate].
  intros [= <-]. exists last. split; reflexivity.
Qed.

(** ** request_vote *)

(** C3: after [maybe_step_down(body.term)] has run, the vote is granted
    exactly when the candidate's term is not behind the node's, the
    node has not voted, and the candidate's log is at least as
    up to date as the node's.  A granted vote is recorded in
    [voted_for] and resets the election deadline; granted or not, the
    node answers the sender with its current term and the grant flag. *)
Theorem request_vote_grants (c : clock) (sender receiver : string)
    (term : Z) (candidate_id : option string)
    (last_log_index last_log_term msg_id : Z) (s : RaftNode) (last_term : Z) :
  let m := Msg sender receiver
             (RequestVote term candidate_id last_log_index last_log_term msg_id) in
  let s1 := snd (maybe_step_down c term s) in
  Log_last_term (log s1) = Ok last_term ->
  exists grant : bool,
    (grant = true <->
       current_term s1 <= term
       /\ voted_for s1 = None
       /\ (last_term < last_log_term
           \/ (last_log_term = last_term /\ Log_size (log s1) <= last_log_index)))
    /\ let s2 := if grant
                 then snd (reset_election_deadline c (with_voted_for candidate_id s1))
                 else s1 in
       request_vote c m term candidate_id last_log_index last_log_term s
       = (Ok tt,
          snd (send_msg (Packet (net_node_id (net s1)) sender
                           (RequestVoteRes (current_term s1) grant msg_id)) s2)).
Proof.
  intros m s1 Hlast.
  apply Log_last_term_inv in Hlast as (last & Hlast & <-).
  assert (Hs1 : maybe_step_down c term s = (Ok tt, s1)).
  { subst s1. rewrite maybe_step_down_eq. reflexivity. }
  clearbody s1. unfold request_vote.
  rewrite (bind_Ok _ _ _ _ _ Hs1).
  unfold_monad. simpl.
  destruct (Z.ltb_spec term (current_term s1)) as [Hterm|Hterm].
  { exists false. split; [split; [discriminate|lia]|reflexivity]. }
  destruct (voted_for s1) as [v|] eqn:Hvoted; simpl.
  { exists false. split; [split; [discriminate|]|reflexivity].
    intros (_ & ? & _). discriminate. }
  rewrite Hlast.
  destruct (Z.ltb_spec last_log_term (e_term last)) as [Holder|Holder].
  { exists false. split; [split; [discriminate|lia]|reflexivity]. }
  destruct ((last_log_term =? e_term last) && (last_log_index <? Log_size (log s1)))
    eqn:Hshort.
  { exists false. split; [split; [discriminate|]|reflexivity].
    apply andb_true_iff in Hshort as [?%Z.eqb_eq ?%Z.ltb_lt]. lia. }
  exists true. split; [split; [intros _|reflexivity]|reflexivity].
  split; [lia|]. split; [reflexivity|].
  apply andb_false_iff in Hshort as [?%Z.eqb_neq| ?%Z.ltb_ge]; lia.
Qed.

Lemma request_vote_grants_witness :
  exists grant : bool,
    (grant = true <->
       current_term RaftNode_init <= 0
       /\ voted_for RaftNode_init = None
       /\ (0 < 0 \/ (0 = 0 /\ Log_size (log RaftNode_init) <= 1)))
    /\ request_vote clock0 (Msg "n2" "n1" (RequestVote 0 (Some "n2") 1 0 5))
         0 (Some "n2") 1 0 RaftNode_init
       = (Ok tt,
          snd (send_msg (Packet None "n2" (RequestVoteRes 0 grant 5))
                 (if grant
                  then snd (reset_election_deadline clock0
                              (with_voted_for (Some "n2") RaftNode_init))
                  else RaftNode_init))).
Proof.
  apply (request_vote_grants clock0 "n2" "n1" 0 (Some "n2") 1 0 5 RaftNode_init 0).
  reflexivity.
Defined.

(** ** append_entries *)

(** What [append_entries] does with a request it accepts: the term is
    not behind and the entry at [prev_log_index] has [prev_log_term]. *)
Lemma append_entries_accepts (f : pyfile) (c : clock) (sender receiver : string)
    (term : Z) (leader_id : option string) (prev_log_index prev_log_term : Z)
    (entries : list entry) (leader_commit msg_id : Z) (s : RaftNode) (e : entry) :
  let m := Msg sender receiver
             (AppendEntries term leader_id prev_log_index prev_log_term
                entries leader_commit msg_id) in
  let s1 := snd (maybe_step_down c term s) in
  current_term s1 <= term ->
  1 <= prev_log_index ->
  Log_get (log s1) prev_log_index = Ok e ->
  e_term e = prev_log_term ->
  let log' := (take (Z.to_nat prev_log_index) (log s1) ++ entries)%list in
  let commit' := if commit_index s1 <? leader_commit
                 then Z.min leader_commit (Log_size log')
                 else commit_index s1 in
  append_entries f c m term leader_id prev_log_index prev_log_term entries
    leader_commit s
  = (Ok tt,
     snd (send_msg (Packet (net_node_id (net s1)) sender
                      (AppendEntriesRes (current_term s1) true msg_id))
            (with_commit_index commit'
               (with_log log'
                  (snd (reset_election_deadline c (with_leader leader_id s1))))))).
Proof.
  intros m s1 Hterm Hprev Hget Hmatch log' commit'.
  assert (Hs1 : maybe_step_down c term s = (Ok tt, s1)).
  { subst s1. rewrite maybe_step_down_eq. reflexivity. }
  clearbody s1. unfold append_entries.
  rewrite (bind_Ok _ _ _ _ _ Hs1).
  rewrite (bind_Ok _ _ s1 s1 s1) by reflexivity.
  destruct (Z.ltb_spec term (current_term s1)) as [?|_]; [lia|].
  destruct (Log_get_Ok_positive _ _ _ Hprev Hget) as [Hsize _].
  unfold_monad. simpl.
  destruct (Z.leb_spec prev_log_index 0) as [?|_]; [lia|].
  unfold try_get. rewrite Hget. unfold_monad. simpl.
  rewrite Hmatch, Z.eqb_refl. simpl.
  unfold Log_truncate. rewrite py_slice_to_take by (unfold Log_size in Hsize; lia).
  subst commit' log'.
  destruct (commit_index s1 <? leader_commit); reflexivity.
Qed.

(** A request whose term is behind is answered with [success = False]
    and changes nothing else. *)
Lemma append_entries_rejects_stale (f : pyfile) (c : clock) (sender receiver : string)
    (term : Z) (leader_id : option string) (prev_log_index prev_log_term : Z)
    (entries : list entry) (leader_commit msg_id : Z) (s : RaftNode) :
  let m := Msg sender receiver
             (AppendEntries term leader_id prev_log_index prev_log_term
                entries leader_commit msg_id) in
  term < current_term s ->
  append_entries f c m term leader_id prev_log_index prev_log_term entries
    leader_commit s
  = (Ok tt,
     snd (send_msg (Packet (net_node_id (net s)) sender
                      (AppendEntriesRes (current_term s) false msg_id)) s)).
Proof.
  intros m Hterm. unfold append_entries.
  erewrite bind_Ok by apply maybe_step_down_eq.
  destruct (Z.ltb_spec (current_term s) term) as [?|_]; [lia|].
  rewrite (bind_Ok _ _ s s s) by reflexivity.
  destruct (Z.ltb_spec term (current_term s)) as [_|?]; [|lia].
  reflexivity.
Qed.

(** The commit rule of the code agrees with
    [max(commit_index, min(leader_commit, log.size()))] as long as the
    log is left with at least [commit_index] entries. *)
Lemma commit_rule_max (commit_index leader_commit size : Z) :
  commit_index <= size ->
  (if commit_index <? leader_commit then Z.min leader_commit size else commit_index)
  = Z.max commit_index (Z.min leader_commit size).
Proof.
  intros Hsize. destruct (Z.ltb_spec commit_index leader_commit); lia.
Qed.

(** C1 (where the code departs from it): a follower holds three
    entries, all committed, and accepts a request that matches at
    index 1, carries one entry and a leader commit of 4.  It answers
    [success = True] with its term, and its log is cut to index 1 and
    extended by the entry, as the claim says; but its commit index goes
    from 3 down to 2, where [max(commit_index, min(leader_commit,
    log.size()))] is 3.  In python.py the same requests do the same. *)
Theorem append_entries_commit_index_decreases :
  let s := follower_committed in
  let s' := step raft_py s append_one_after_1 in
  (commit_index s = 3 /\ Log_size (log s) = 3 /\ current_term s = 1)
  /\ Log_get (log s) 1 = Ok (Entry 0 None)
  /\ log s' = [Entry 0 None; Entry 1 (Some (write_op 1 1 5))]
  /\ last (stdout (net s'))
     = Some (Packet (Some "n1") "n2" (AppendEntriesRes 1 true 8))
  /\ commit_index s' = 2
  /\ Z.max (commit_index s) (Z.min 4 (Log_size (log s'))) = 3
  /\ (let r := Msg "c0" "n1" (RaftInit "n1" ["n1"; "n2"; "n3"] 1) in
      let p := exec python_py RaftNode_init [Receive r clock0; append_two] in
      commit_index p = 3
      /\ commit_index (step python_py p append_one_after_1) = 2).
Proof. vm_compute. repeat split; reflexivity. Qed.

(** The entries of a prefix are the entries of the list. *)
Lemma Log_get_take (entries : list entry) (n i : Z) :
  1 <= i <= n -> n <= Log_size entries ->
  Log_get (take (Z.to_nat n) entries) i = Log_get entries i.
Proof.
  intros Hi Hn. unfold Log_get, Log_size in *.
  rewrite !py_index_nonneg by lia.
  rewrite lookup_take_lt by lia. reflexivity.
Qed.

(** C5, amended: a heartbeat -- an append_entries request without
    entries -- that matches at [prev_log_index], on a node whose commit
    index is not above [prev_log_index], leaves every entry up to
    [prev_log_index] as it is, and leaves [last_applied] and the state
    machine alone; the term becomes the greater of the node's and the
    request's.  If the term of the request is behind, the log, the
    commit index and the leader stay as they are.  Otherwise the log is
    cut to [prev_log_index] entries, which leaves it unchanged exactly
    when [prev_log_index] is its size; the commit index becomes
    [max(commit_index, min(leader_commit, prev_log_index))], so that it
    does not go back; and the leader becomes the sender's [leader_id]. *)
Theorem append_entries_heartbeat (f : pyfile) (c : clock) (sender receiver : string)
    (term : Z) (leader_id : option string) (prev_log_index prev_log_term : Z)
    (leader_commit msg_id : Z) (s : RaftNode) (e : entry) :
  let m := Msg sender receiver
             (AppendEntries term leader_id prev_log_index prev_log_term
                [] leader_commit msg_id) in
  let s' := snd (append_entries f c m term leader_id prev_log_index
                   prev_log_term [] leader_commit s) in
  1 <= prev_log_index ->
  Log_get (log s) prev_log_index = Ok e ->
  e_term e = prev_log_term ->
  commit_index s <= prev_log_index ->
  (forall i, 1 <= i <= prev_log_index -> Log_get (log s') i = Log_get (log s) i)
  /\ last_applied s' = last_applied s
  /\ state_machine s' = state_machine s
  /\ current_term s' = Z.max (current_term s) term
  /\ (term < current_term s ->
      log s' = log s /\ commit_index s' = commit_index s
      /\ leader s' = leader s)
  /\ (current_term s <= term ->
      log s' = take (Z.to_nat prev_log_index) (log s)
      /\ Log_size (log s') = prev_log_index
      /\ (log s' = log s <-> prev_log_index = Log_size (log s))
      /\ commit_index s' = Z.max (commit_index s) (Z.min leader_commit prev_log_index)
      /\ commit_index s <= commit_index s'
      /\ leader s' = leader_id).
Proof.
  intros m s' Hprev Hget Hmatch Hcommitted.
  destruct (Log_get_Ok_positive _ _ _ Hprev Hget) as [Hsize _].
  destruct (maybe_step_down_frame c term s) as (Hlog & Hcommit & Happlied & _ & Hsm & _).
  pose proof (maybe_step_down_term c term s) as Hterm.
  destruct (Z.lt_ge_cases term (current_term s)) as [Hstale|Hfresh].
  - assert (Hs' : s' = snd (send_msg (Packet (net_node_id (net s)) sender
                      (AppendEntriesRes (current_term s) false msg_id)) s)).
    { subst s' m. rewrite append_entries_rejects_stale by assumption. reflexivity. }
    rewrite Hs'. simpl.
    split; [reflexivity|]. split; [reflexivity|]. split; [reflexivity|].
    split; [lia|]. split; [repeat split; reflexivity|lia].
  - assert (Hlen : length (take (Z.to_nat prev_log_index) (log s)) = Z.to_nat prev_log_index).
    { rewrite length_take. unfold Log_size in Hsize. lia. }
    assert (Hs' : log s' = take (Z.to_nat prev_log_index) (log s)
                  /\ last_applied s' = last_applied s
                  /\ state_machine s' = state_machine s
                  /\ commit_index s' =
                       (if commit_index s <? leader_commit
                        then Z.min leader_commit prev_log_index
                        else commit_index s)
                  /\ current_term s' = Z.max (current_term s) term
                  /\ leader s' = leader_id).
    { subst s' m. rewrite (append_entries_accepts f c sender receiver term leader_id
                           prev_log_index prev_log_term [] leader_commit msg_id s e)
        by (rewrite ?Hlog; try assumption; lia).
      simpl. rewrite Hlog, Hcommit, Happlied, Hsm, Hterm, app_nil_r.
      unfold Log_size. rewrite Hlen, Z2Nat.id by lia.
      repeat split; reflexivity. }
    destruct Hs' as (Hlog' & Happlied' & Hsm' & Hcommit' & Hterm' & Hleader').
    rewrite commit_rule_max in Hcommit' by exact Hcommitted.
    split; [|split; [assumption|split; [assumption|split;
      [assumption|split; [lia|intros _]]]]].
    + intros i Hi. rewrite Hlog'. apply Log_get_take; assumption.
    + split; [assumption|].
      split; [unfold Log_size; rewrite Hlog', Hlen; lia|].
      split; [|split; [assumption|split; [lia|assumption]]].
      rewrite Hlog'. split.
      * intros Heq. unfold Log_size. rewrite <- Heq at 1. rewrite Hlen. lia.
      * intros ->. unfold Log_size. rewrite Nat2Z.id. apply firstn_all.
Qed.

Lemma append_entries_heartbeat_witness :
  let s := follower_behind in
  let s' := snd (append_entries raft_py clock0
                   (Msg "n2" "n1" (AppendEntries 1 (Some "n2") 3 1 [] 3 9))
                   1 (Some "n2") 3 1 [] 3 s) in
  (forall i, 1 <= i <= 3 -> Log_get (log s') i = Log_get (log s) i)
  /\ last_applied s' = last_applied s
  /\ state_machine s' = state_machine s
  /\ current_term s' = Z.max (current_term s) 1
  /\ (1 < current_term s ->
      log s' = log s /\ commit_index s' = commit_index s
      /\ leader s' = leader s)
  /\ (current_term s <= 1 ->
      log s' = take (Z.to_nat 3) (log s)
      /\ Log_size (log s') = 3
      /\ (log s' = log s <-> 3 = Log_size (log s))
      /\ commit_index s' = Z.max (commit_index s) (Z.min 3 3)
      /\ commit_index s <= commit_index s'
      /\ leader s' = Some "n2").
Proof.
  apply (append_entries_heartbeat raft_py clock0 "n2" "n1" 1 (Some "n2") 3 1 3 9
           follower_behind (Entry 1 (Some (write_op 2 2 6)))).
  - lia.
  - vm_compute. reflexivity.
  - reflexivity.
  - vm_compute. discriminate.
Defined.

(** C5 as stated fails, on both counts.  A follower holds three entries
    of which the first is committed.  A heartbeat of its leader that
    matches at index 1 cuts its log down to that entry; the commit index
    stays at 1, and the election deadline moves.  A heartbeat of another
    leader, in the next term, that matches at the end of the log leaves
    the log and the commit index as they are, and changes the term and
    the leader. *)
Lemma heartbeat_cuts_the_log :
  let s := follower_behind in
  let s1 := step raft_py s heartbeat_at_1 in
  let s2 := step raft_py s heartbeat_of_term_2 in
  (Log_size (log s) = 3 /\ commit_index s = 1
   /\ current_term s = 1 /\ leader s = Some "n2")
  /\ (Log_get (log s) 1 = Ok (Entry 0 None)
      /\ Log_size (log s1) = 1 /\ log s1 <> log s
      /\ commit_index s1 = 1
      /\ ~ (election_deadline s1 == election_deadline s)%Q)
  /\ (Log_get (log s) 3 = Ok (Entry 1 (Some (write_op 2 2 6)))
      /\ log s2 = log s /\ commit_index s2 = 1
      /\ current_term s2 = 2 /\ leader s2 = Some "n3").
Proof.
  vm_compute. repeat split; try reflexivity; discriminate.
Qed.

(** ** Client requests *)

(** C8, amended: a leader stamps the body of a read, write or cas with
    the client and appends it to its log under the current term, and
    sends nothing; a node that is no leader and knows one forwards the
    message as it is, to the leader; a node that is no leader and knows
    none answers the client with error 11, whose text is "not a leader"
    in raft.py and "not a leader, and don't know who is" in python.py. *)
Theorem kv_req_routes (f : pyfile) (sender receiver : string) (o : op)
    (s : RaftNode) :
  let m := Msg sender receiver (KVRequest o) in
  (state s = Leader ->
     kv_req f m o s
     = (Ok tt,
        with_log (log s ++ [Entry (current_term s) (Some (with_client sender o))]) s))
  /\ (state s <> Leader -> forall l, leader s = Some l -> l <> "" ->
     kv_req f m o s
     = (Ok tt, snd (send_msg (Packet (Some sender) l (KVRequest o)) s)))
  /\ (state s <> Leader -> truthy (leader s) = false ->
     kv_req f m o s
     = (Ok tt,
        snd (send_msg (Packet (net_node_id (net s)) sender
                         (Error 11 (not_a_leader f) (op_msg_id o))) s)))
  /\ not_a_leader raft_py = "not a leader"
  /\ not_a_leader python_py = "not a leader, and don't know who is".
Proof.
  intros m. unfold kv_req.
  rewrite (bind_Ok _ _ s s s) by reflexivity.
  split; [|split; [|split; [|split; reflexivity]]].
  - intros ->. reflexivity.
  - intros Hrole l Hl Hne.
    rewrite bool_decide_eq_false_2 by assumption.
    rewrite Hl. simpl. rewrite bool_decide_eq_false_2 by assumption.
    reflexivity.
  - intros Hrole Hunknown.
    rewrite bool_decide_eq_false_2 by assumption.
    rewrite Hunknown. reflexivity.
Qed.

Lemma kv_req_routes_witness :
  let o := Op "write" (VInt 1) (Some (VInt 7)) None None 2 None in
  let m := Msg "c1" "n1" (KVRequest o) in
  let s_leader := with_state Leader follower_committed in
  let s_follower := follower_committed in
  let s_alone := RaftNode_init in
  kv_req raft_py m o s_leader
  = (Ok tt,
     with_log (log s_leader ++ [Entry 1 (Some (with_client "c1" o))]) s_leader)
  /\ kv_req raft_py m o s_follower
     = (Ok tt, snd (send_msg (Packet (Some "c1") "n2" (KVRequest o)) s_follower))
  /\ kv_req raft_py m o s_alone
     = (Ok tt,
        snd (send_msg (Packet None "c1" (Error 11 "not a leader" 2)) s_alone)).
Proof.
  intros o m s_leader s_follower s_alone.
  split; [|split].
  - destruct (kv_req_routes raft_py "c1" "n1" o s_leader) as (H & _).
    apply H. reflexivity.
  - destruct (kv_req_routes raft_py "c1" "n1" o s_follower) as (_ & H & _).
    apply H; [discriminate|reflexivity|discriminate].
  - destruct (kv_req_routes raft_py "c1" "n1" o s_alone) as (_ & _ & H & _).
    apply H; [discriminate|reflexivity].
Defined.

(** C8 as stated fails in python.py: a node that knows no leader answers
    with another text than "not a leader". *)
Lemma python_py_not_a_leader_text :
  let s' := step python_py RaftNode_init (Receive read_request clock0) in
  stdout (net s')
  = [Packet None "c1" (Error 11 "not a leader, and don't know who is" 4)]
  /\ stdout (net s') <> [Packet None "c1" (Error 11 "not a leader" 4)].
Proof. vm_compute. split; [reflexivity|discriminate]. Qed.

(** ** Commit advancement *)

Lemma match_index_eq (s : RaftNode) (m : gmap string Z) :
  _match_index s = Some m ->
  match_index s = (Ok (<[node_id s := Log_size (log s)]> (kmap Some m)), s).
Proof. intros Hm. unfold match_index. unfold_monad. rewrite Hm. reflexivity. Qed.

Lemma dict_values_insert_nonempty (m : gmap (option string) Z)
    (k : option string) (v : Z) :
  dict_values (<[k := v]> m) <> [].
Proof.
  unfold dict_values. intros Hnil.
  apply fmap_nil_inv, map_to_list_empty_iff in Hnil.
  exact (insert_non_empty _ _ _ Hnil).
Qed.

(** A leader without match indices -- a state [become_leader] never
    leaves behind when it returns -- fails the tick and stays as it is. *)
Lemma advance_commit_index_no_match_index (s : RaftNode) :
  state s = Leader -> _match_index s = None ->
  advance_commit_index s = (Raise TypeError, s).
Proof.
  intros Hrole Hm. unfold advance_commit_index, match_index. unfold_monad.
  rewrite bool_decide_eq_true_2 by assumption. rewrite Hm. reflexivity.
Qed.

(** A node that is no leader does nothing on the tick. *)
Lemma advance_commit_index_not_leader (s : RaftNode) :
  state s <> Leader -> advance_commit_index s = (Ok false, s).
Proof.
  intros Hrole. unfold advance_commit_index. unfold_monad.
  rewrite bool_decide_eq_false_2 by assumption. reflexivity.
Qed.

(** C2: on a commit-advancement tick of a leader, let [n] be the
    lower-biased median of the match indices of all nodes -- the stored
    match index of every other node, and the size of the log for the
    leader itself.  The tick sets [commit_index] to [n] when [n] is
    above [commit_index] and the entry at [n] is of the current term,
    and leaves the node as it is otherwise. *)
Theorem advance_commit_index_median (s : RaftNode) (m : gmap string Z) :
  state s = Leader ->
  _match_index s = Some m ->
  exists (all : gmap (option string) Z) (n : Z),
    all !! node_id s = Some (Log_size (log s))
    /\ (forall k, node_id s <> Some k -> all !! Some k = m !! k)
    /\ (node_id s <> None -> all !! None = None)
    /\ median_spec (dict_values all) = Some n
    /\ ((commit_index s < n
         /\ exists e, Log_get (log s) n = Ok e /\ e_term e = current_term s) ->
        advance_commit_index s = (Ok true, with_commit_index n s))
    /\ (~ (commit_index s < n
           /\ exists e, Log_get (log s) n = Ok e /\ e_term e = current_term s) ->
        snd (advance_commit_index s) = s).
Proof.
  intros Hrole Hm.
  set (all := <[node_id s := Log_size (log s)]> (kmap Some m) : gmap (option string) Z).
  destruct (median_refines (dict_values all)) as (n & Hspec & Hmedian).
  { apply dict_values_insert_nonempty. }
  exists all, n.
  split; [apply lookup_insert_eq|].
  split; [intros k Hk; unfold all;
          rewrite lookup_insert_ne by assumption; apply (lookup_kmap Some)|].
  split.
  { intros Hk. unfold all. rewrite lookup_insert_ne by assumption.
    apply (lookup_kmap_None Some). intros i Hi. discriminate. }
  split; [assumption|].
  assert (Hrun : advance_commit_index s =
            if commit_index s <? n then
              match Log_get (log s) n with
              | Ok e => if e_term e =? current_term s
                        then (Ok true, with_commit_index n s)
                        else (Ok false, s)
              | Raise x => (Raise x, s)
              end
            else (Ok false, s)).
  { unfold advance_commit_index.
    rewrite (bind_Ok _ _ s s s) by reflexivity.
    rewrite bool_decide_eq_true_2 by assumption.
    rewrite (bind_Ok _ _ _ _ _ (match_index_eq s m Hm)).
    fold all. unfold_monad. rewrite Hmedian.
    destruct (commit_index s <? n); [|reflexivity].
    destruct (Log_get (log s) n) as [e|x]; [|reflexivity].
    destruct (e_term e =? current_term s); reflexivity. }
  rewrite Hrun. split.
  - intros (Hlt & e & -> & He).
    destruct (Z.ltb_spec (commit_index s) n); [|lia].
    rewrite He, Z.eqb_refl. reflexivity.
  - intros Hnot.
    destruct (Z.ltb_spec (commit_index s) n) as [Hlt|]; [|reflexivity].
    destruct (Log_get (log s) n) as [e|x]; [|reflexivity].
    destruct (Z.eqb_spec (e_term e) (current_term s)) as [He|]; [|reflexivity].
    exfalso. apply Hnot. split; [assumption|]. exists e. split; [reflexivity|assumption].
Qed.

Lemma advance_commit_index_median_witness :
  exists (all : gmap (option string) Z) (n : Z),
    all !! node_id leader_n1 = Some (Log_size (log leader_n1))
    /\ (forall k, node_id leader_n1 <> Some k ->
        all !! Some k = ({[ "n2" := 0; "n3" := 2 ]} : gmap string Z) !! k)
    /\ (node_id leader_n1 <> None -> all !! None = None)
    /\ median_spec (dict_values all) = Some n
    /\ ((commit_index leader_n1 < n
         /\ exists e, Log_get (log leader_n1) n = Ok e
                      /\ e_term e = current_term leader_n1) ->
        advance_commit_index leader_n1 = (Ok true, with_commit_index n leader_n1))
    /\ (~ (commit_index leader_n1 < n
           /\ exists e, Log_get (log leader_n1) n = Ok e
                        /\ e_term e = current_term leader_n1) ->
        snd (advance_commit_index leader_n1) = leader_n1).
Proof.
  apply (advance_commit_index_median leader_n1 {[ "n2" := 0; "n3" := 2 ]}).
  - vm_compute. reflexivity.
  - vm_compute. reflexivity.
Defined.

(** In that run the tick of the leader commits the entry it holds at
    index 2: the match indices are 0, 2 and 2, whose median is 2. *)
Lemma leader_n1_commits :
  commit_index leader_n1 = 0
  /\ commit_index (step raft_py leader_n1 CommitTick) = 2.
Proof. vm_compute. split; reflexivity. Qed.

(** ** Relations every method keeps *)

Create HintDb keeps.

Section keeps.

Variable R : RaftNode -> RaftNode -> Prop.
Hypothesis R_refl : forall s, R s s.
Hypothesis R_trans : forall s1 s2 s3, R s1 s2 -> R s2 s3 -> R s1 s3.
Hypothesis R_core : forall s s', same_core s s' -> R s s'.
Hypothesis R_advance_term : forall term, keeps R (advance_term term).
Hypothesis R_voted_for : forall v s, R s (with_voted_for v s).
Hypothesis R_log : forall v s, R s (with_log v s).
Hypothesis R_commit_index : forall v s, R s (with_commit_index v s).
Hypothesis R_last_applied : forall v s, R s (with_last_applied v s).
Hypothesis R_state_machine : forall v s, R s (with_state_machine v s).

Lemma keeps_ret {A} (a : A) : keeps R (mret a).
Proof. intros s. apply R_refl. Qed.

Lemma keeps_raise {A} (e : exn) : keeps R (@raise A e).
Proof. intros s. apply R_refl. Qed.

Lemma keeps_get : keeps R get.
Proof. intros s. apply R_refl. Qed.

Lemma keeps_lift {A} (r : result A) : keeps R (lift r).
Proof. intros s. apply R_refl. Qed.

Lemma keeps_modify (g : RaftNode -> RaftNode) :
  (forall s, R s (g s)) -> keeps R (modify g).
Proof. intros Hg s. apply Hg. Qed.

Lemma keeps_bind {A B} (m : M A) (k : A -> M B) :
  keeps R m -> (forall a, keeps R (k a)) -> keeps R (m ≫= k).
Proof.
  intros Hm Hk s. unfold_monad.
  specialize (Hm s). destruct (m s) as [[a|e] s1]; simpl in *.
  - eapply R_trans; [exact Hm|]. apply Hk.
  - exact Hm.
Qed.

Lemma keeps_for_each {A B} (xs : list A) (acc : B) (body : A -> B -> M B) :
  (forall x a, keeps R (body x a)) -> keeps R (for_each xs acc body).
Proof.
  intros Hbody. revert acc.
  induction xs as [|x xs IH]; intros acc; simpl.
  - apply keeps_ret.
  - apply keeps_bind; [apply Hbody|]. intros a. apply IH.
Qed.

Ltac keeps_side :=
  intros;
  first [ apply R_core; repeat split; reflexivity
        | apply R_voted_for | apply R_log | apply R_commit_index
        | apply R_last_applied | apply R_state_machine ].

Ltac keeps_step :=
  lazymatch goal with
  | |- keeps _ (mbind _ _) => apply keeps_bind; [|intros ?]
  | |- keeps _ (mret _) => apply keeps_ret
  | |- keeps _ (raise _) => apply keeps_raise
  | |- keeps _ get => apply keeps_get
  | |- keeps _ (lift _) => apply keeps_lift
  | |- keeps _ (modify _) => apply keeps_modify; keeps_side
  | |- keeps _ (for_each _ _ _) => apply keeps_for_each; intros ? ?
  | |- keeps _ (if ?b then _ else _) => destruct b
  | |- keeps _ (match ?x with _ => _ end) => destruct x
  end.

Ltac keeps_auto := repeat first [ solve [auto with keeps] | keeps_step ].

Lemma keeps_send_msg (p : packet) : keeps R (send_msg p).
Proof. unfold send_msg. keeps_auto. Qed.
#[local] Hint Resolve keeps_send_msg : keeps.

Lemma keeps_send (d : string) (b : body) : keeps R (send d b).
Proof. unfold send. keeps_auto. Qed.
#[local] Hint Resolve keeps_send : keeps.

Lemma keeps_reply (req : msg) (res : Z -> body) : keeps R (reply req res).
Proof. unfold reply. keeps_auto. Qed.
#[local] Hint Resolve keeps_reply : keeps.

Lemma keeps_new_msg_id : keeps R new_msg_id.
Proof. unfold new_msg_id. keeps_auto. Qed.
#[local] Hint Resolve keeps_new_msg_id : keeps.

Lemma keeps_rpc (d : string) (b : Z -> body) (h : callback) : keeps R (rpc d b h).
Proof. unfold rpc. keeps_auto. Qed.
#[local] Hint Resolve keeps_rpc : keeps.

Lemma keeps_other_nodes : keeps R other_nodes.
Proof. unfold other_nodes. keeps_auto. Qed.
#[local] Hint Resolve keeps_other_nodes : keeps.

Lemma keeps_match_index : keeps R match_index.
Proof. unfold match_index. keeps_auto. Qed.
#[local] Hint Resolve keeps_match_index : keeps.

Lemma keeps_set_node_id (id : option string) : keeps R (set_node_id id).
Proof. unfold set_node_id, Net_set_node_id. keeps_auto. Qed.
#[local] Hint Resolve keeps_set_node_id : keeps.

Lemma keeps_brpc (b : Z -> body) (h : callback) : keeps R (brpc b h).
Proof. unfold brpc. keeps_auto. Qed.
#[local] Hint Resolve keeps_brpc : keeps.

Lemma keeps_reset_election_deadline (c : clock) :
  keeps R (reset_election_deadline c).
Proof. unfold reset_election_deadline. keeps_auto. Qed.
#[local] Hint Resolve keeps_reset_election_deadline : keeps.

Lemma keeps_reset_step_down_deadline (c : clock) :
  keeps R (reset_step_down_deadline c).
Proof. unfold reset_step_down_deadline. keeps_auto. Qed.
#[local] Hint Resolve keeps_reset_step_down_deadline : keeps.

Lemma keeps_become_follower (c : clock) : keeps R (become_follower c).
Proof. unfold become_follower. keeps_auto. Qed.
#[local] Hint Resolve keeps_become_follower : keeps.

Lemma keeps_become_leader (f : pyfile) (c : clock) : keeps R (become_leader f c).
Proof. unfold become_leader. keeps_auto. Qed.
#[local] Hint Resolve keeps_become_leader : keeps.

Lemma keeps_new_frame (fr : frame) : keeps R (new_frame fr).
Proof. unfold new_frame. keeps_auto. Qed.
#[local] Hint Resolve keeps_new_frame : keeps.

Lemma keeps_request_votes : keeps R request_votes.
Proof. unfold request_votes. keeps_auto. Qed.
#[local] Hint Resolve keeps_request_votes : keeps.

Lemma keeps_assign (fr : nat) (g : frame -> frame) : keeps R (assign fr g).
Proof.
  unfold assign. apply keeps_modify. intros s.
  destruct (frames s !! fr); [keeps_side|apply R_refl].
Qed.
#[local] Hint Resolve keeps_assign : keeps.

Lemma keeps_step_down_on_timeout (c : clock) : keeps R (step_down_on_timeout c).
Proof. unfold step_down_on_timeout. keeps_auto. Qed.

Lemma keeps_replicate_log (f : pyfile) (c : clock) : keeps R (replicate_log f c).
Proof. unfold replicate_log. keeps_auto. Qed.

Lemma keeps_raft_init (f : pyfile) (c : clock) (m : msg) (id : string)
    (ids : list string) :
  keeps R (raft_init f c m id ids).
Proof. unfold raft_init. keeps_auto. Qed.

Lemma keeps_maybe_step_down (c : clock) (remote_term : Z) :
  keeps R (maybe_step_down c remote_term).
Proof. unfold maybe_step_down. keeps_auto. Qed.
#[local] Hint Resolve keeps_maybe_step_down : keeps.

Lemma keeps_handle (f : pyfile) (c : clock) (fr : nat) (response : msg) :
  keeps R (handle f c fr response).
Proof. unfold handle. keeps_auto. Qed.

Lemma keeps_handler (c : clock) (fr : nat) (res : msg) : keeps R (handler c fr res).
Proof. unfold handler. keeps_auto. Qed.

Lemma keeps_become_candidate (f : pyfile) (c : clock) :
  keeps R (become_candidate f c).
Proof. unfold become_candidate. keeps_auto. Qed.
#[local] Hint Resolve keeps_become_candidate : keeps.

Lemma keeps_election (f : pyfile) (c : clock) : keeps R (election f c).
Proof. unfold election. keeps_auto. Qed.

Lemma keeps_request_vote (c : clock) (m : msg) (term : Z)
    (candidate_id : option string) (last_log_index last_log_term : Z) :
  keeps R (request_vote c m term candidate_id last_log_index last_log_term).
Proof. unfold request_vote. keeps_auto. Qed.

Lemma keeps_append_entries (f : pyfile) (c : clock) (m : msg) (term : Z)
    (leader_id : option string) (prev_log_index prev_log_term : Z)
    (entries : list entry) (leader_commit : Z) :
  keeps R (append_entries f c m term leader_id prev_log_index prev_log_term
             entries leader_commit).
Proof. unfold append_entries, try_get. keeps_auto. Qed.

Lemma keeps_kv_req (f : pyfile) (m : msg) (o : op) : keeps R (kv_req f m o).
Proof. unfold kv_req. keeps_auto. Qed.

Lemma keeps_advance_commit_index : keeps R advance_commit_index.
Proof. unfold advance_commit_index. keeps_auto. Qed.

Lemma keeps_advance_state_machine (f : pyfile) : keeps R (advance_state_machine f).
Proof.
  unfold advance_state_machine. keeps_auto.
Qed.

(** [process_msg] keeps what the handlers of the three kinds of requests
    keep on the message at hand. *)
Lemma keeps_process_msg (f : pyfile) (c : clock) (m : msg) :
  (forall term candidate_id last_log_index last_log_term msg_id,
     mbody m = RequestVote term candidate_id last_log_index last_log_term msg_id ->
     keeps R (request_vote c m term candidate_id last_log_index last_log_term)) ->
  (forall term leader_id prev_log_index prev_log_term entries leader_commit msg_id,
     mbody m = AppendEntries term leader_id prev_log_index prev_log_term entries
                 leader_commit msg_id ->
     keeps R (append_entries f c m term leader_id prev_log_index prev_log_term
                entries leader_commit)) ->
  (forall o, mbody m = KVRequest o -> keeps R (kv_req f m o)) ->
  keeps R (process_msg f c m).
Proof.
  intros Hvote Happend Hkv. unfold process_msg, no_handler.
  pose proof keeps_handle. pose proof keeps_handler. pose proof keeps_raft_init.
  destruct (mbody m) eqn:Hbody; simpl.
  all: keeps_auto.
  - eapply Hvote. reflexivity.
  - eapply Happend. reflexivity.
Qed.

End keeps.

(** ** The term and the vote *)

Lemma same_core_refl (s : RaftNode) : same_core s s.
Proof. repeat split; reflexivity. Qed.

Lemma term_le_advance_term (term : Z) : keeps term_le (advance_term term).
Proof.
  intros s. rewrite advance_term_eq. unfold term_le.
  destruct (Z.ltb_spec (current_term s) term); simpl; lia.
Qed.

Ltac term_le_side :=
  first [ exact term_le_advance_term
        | intros; unfold term_le, same_core in *; simpl; lia ].

(** No step of the node takes the term back. *)
Lemma term_le_run (f : pyfile) (e : event) : keeps term_le (run f e).
Proof.
  destruct e as [m c|c|c|c| |]; simpl.
  - apply keeps_process_msg; try term_le_side; intros.
    + apply keeps_request_vote; term_le_side.
    + apply keeps_append_entries; term_le_side.
    + apply keeps_kv_req; term_le_side.
  - apply keeps_step_down_on_timeout; term_le_side.
  - apply keeps_replicate_log; term_le_side.
  - apply keeps_election; term_le_side.
  - apply keeps_advance_commit_index; term_le_side.
  - apply keeps_advance_state_machine; term_le_side.
Qed.

Lemma term_le_exec (f : pyfile) (es : list event) (s : RaftNode) :
  term_le s (exec f s es).
Proof.
  revert s. induction es as [|e es IH]; intros s; simpl.
  - unfold term_le. lia.
  - pose proof (term_le_run f e s) as Hstep. specialize (IH (step f s e)).
    unfold term_le, step in *. lia.
Qed.

Lemma term_resets_vote_trans (s1 s2 s3 : RaftNode) :
  term_resets_vote s1 s2 -> term_resets_vote s2 s3 -> term_resets_vote s1 s3.
Proof.
  unfold term_resets_vote. intros (Hle1 & Hlt1 & Heq1) (Hle2 & Hlt2 & Heq2).
  split; [lia|]. split.
  - intros Hlt.
    destruct (Z.eq_dec (current_term s2) (current_term s3)) as [Heq|Hne].
    + rewrite Heq2 by assumption. apply Hlt1. lia.
    + apply Hlt2. lia.
  - intros Heq. rewrite Heq2, Heq1 by lia. reflexivity.
Qed.

Lemma term_resets_vote_advance_term (term : Z) :
  keeps term_resets_vote (advance_term term).
Proof.
  intros s. rewrite advance_term_eq. unfold term_resets_vote.
  destruct (Z.ltb_spec (current_term s) term); simpl.
  - split; [lia|]. split; [reflexivity|lia].
  - split; [lia|]. split; [lia|reflexivity].
Qed.

Ltac term_resets_vote_side :=
  first [ exact term_resets_vote_trans
        | exact term_resets_vote_advance_term
        | intros; unfold term_resets_vote, same_core in *; simpl;
          intuition (congruence || lia) ].

Lemma same_core_trans (s1 s2 s3 : RaftNode) :
  same_core s1 s2 -> same_core s2 s3 -> same_core s1 s3.
Proof. unfold same_core. intuition congruence. Qed.

Lemma same_core_request_votes : keeps same_core request_votes.
Proof.
  apply keeps_request_votes;
    [exact same_core_refl|exact same_core_trans|auto].
Qed.

(** [become_candidate] moves to the next term and votes for the node
    itself, and then asks for the votes of the others. *)
Lemma become_candidate_eq (f : pyfile) (c : clock) (s : RaftNode) :
  exists s1,
    become_candidate f c s = request_votes s1
    /\ current_term s1 = current_term s + 1
    /\ voted_for s1 = node_id s
    /\ commit_index s1 = commit_index s /\ last_applied s1 = last_applied s
    /\ log s1 = log s /\ state_machine s1 = state_machine s.
Proof.
  unfold become_candidate.
  erewrite bind_Ok by reflexivity.
  erewrite bind_Ok by reflexivity.
  erewrite bind_Ok.
  2:{ rewrite advance_term_eq. simpl.
      destruct (Z.ltb_spec (current_term s) (current_term s + 1)) as [_|?];
        [reflexivity|lia]. }
  destruct f; eexists; (split; [reflexivity|]); simpl; repeat split; reflexivity.
Qed.

(** An election tick leaves the term and the vote alone, or starts a
    candidacy: the next term, and a vote for the node itself. *)
Lemma election_vote (f : pyfile) (c : clock) (s : RaftNode) :
  let s' := snd (election f c s) in
  same_core s s'
  \/ (current_term s' = current_term s + 1 /\ voted_for s' = node_id s).
Proof.
  simpl. unfold election.
  rewrite (bind_Ok _ _ s s s) by reflexivity.
  destruct (Qltb (election_deadline s) (now c)); [|left; apply same_core_refl].
  destruct (bool_decide (state s = Follower) || bool_decide (state s = Candidate)).
  - right. destruct (become_candidate_eq f c s) as (s1 & Hrun & Hterm & Hvote & _).
    pose proof (same_core_request_votes s1) as (Hterm' & Hvote' & _).
    unfold_monad. rewrite Hrun.
    destruct (request_votes s1) as [[[]|x] s2]; simpl in *; split; congruence.
  - left. repeat split; reflexivity.
Qed.

(** [request_vote] leaves the term its [maybe_step_down] set, and
    either leaves the vote as well or gives it to the candidate. *)
Lemma request_vote_vote (c : clock) (m : msg) (term : Z)
    (candidate_id : option string) (last_log_index last_log_term : Z)
    (s : RaftNode) :
  let s1 := snd (maybe_step_down c term s) in
  let s' := snd (request_vote c m term candidate_id last_log_index last_log_term s) in
  current_term s' = current_term s1
  /\ (voted_for s' = voted_for s1 \/ voted_for s' = candidate_id).
Proof.
  intros s1 s'. subst s'.
  assert (Hs1 : maybe_step_down c term s = (Ok tt, s1)).
  { subst s1. rewrite maybe_step_down_eq. reflexivity. }
  clearbody s1. unfold request_vote.
  rewrite (bind_Ok _ _ _ _ _ Hs1).
  unfold reply, send, send_msg, reset_election_deadline. unfold_monad. simpl.
  destruct (term <? current_term s1); simpl.
  { destruct (body_msg_id (mbody m)); simpl; auto. }
  destruct (voted_for s1) as [v|] eqn:Hvoted; simpl.
  { destruct (body_msg_id (mbody m)); simpl; auto. }
  destruct (Log_last (log s1)) as [last|x]; simpl; [|auto].
  destruct (last_log_term <? e_term last); simpl.
  { destruct (body_msg_id (mbody m)); simpl; auto. }
  destruct ((last_log_term =? e_term last) && (last_log_index <? Log_size (log s1)));
    simpl; destruct (body_msg_id (mbody m)); simpl; auto.
Qed.

(** Every step but a vote request and an election tick drops the vote
    when it advances the term, and keeps it otherwise. *)
Lemma term_resets_vote_run (f : pyfile) (e : event) :
  match e with
  | Receive (Msg _ _ (RequestVote _ _ _ _ _)) _ | ElectionTick _ => True
  | _ => keeps term_resets_vote (run f e)
  end.
Proof.
  destruct e as [m c|c|c|c| |]; simpl.
  - destruct m as [sender receiver b].
    assert (keeps term_resets_vote (process_msg f c (Msg sender receiver b))
            \/ exists t cid lli llt mid, b = RequestVote t cid lli llt mid) as [H|H].
    { destruct b; try (right; repeat eexists; fail); left.
      all: apply keeps_process_msg; try term_resets_vote_side; simpl; intros.
      all: try discriminate.
      all: first [ apply keeps_append_entries; term_resets_vote_side
                 | apply keeps_kv_req; term_resets_vote_side ]. }
    + destruct b; try exact H; exact I.
    + destruct H as (t & cid & lli & llt & mid & ->). exact I.
  - apply keeps_step_down_on_timeout; term_resets_vote_side.
  - apply keeps_replicate_log; term_resets_vote_side.
  - exact I.
  - apply keeps_advance_commit_index; term_resets_vote_side.
  - apply keeps_advance_state_machine; term_resets_vote_side.
Qed.

Lemma snd_then_ret {A B} (m : M A) (b : B) (s : RaftNode) :
  snd ((m ≫= fun _ => mret b) s) = snd (m s).
Proof. unfold_monad. destruct (m s) as [[a|e] s']; reflexivity. Qed.

(** C7: the term of a node never goes back, and whenever it advances
    the vote is reset.  [advance_term], the one place that writes the
    term, raises unless the new term is strictly greater, and sets
    [voted_for] to [None] together with the term.  Hence no step takes
    the term back, nor does any run; and after a step in which the term
    advanced [voted_for] is [None], unless the vote was cast after the
    reset, in the new term and by the same step: by a candidate for
    itself, or by the handler of a vote request for the candidate. *)
Theorem current_term_never_goes_back (f : pyfile) :
  (forall term s,
     (current_term s < term ->
      advance_term term s = (Ok tt, with_voted_for None (with_current_term term s)))
     /\ (term <= current_term s ->
         advance_term term s = (Raise RuntimeError, s)))
  /\ (forall e s, current_term s <= current_term (step f s e))
  /\ (forall es s, current_term s <= current_term (exec f s es))
  /\ (forall e s,
        current_term s < current_term (step f s e) ->
        voted_for (step f s e) = None
        \/ (exists c, e = ElectionTick c /\ voted_for (step f s e) = node_id s)
        \/ (exists c sender receiver term candidate_id last_log_index
                   last_log_term msg_id,
              e = Receive (Msg sender receiver
                             (RequestVote term candidate_id last_log_index
                                last_log_term msg_id)) c
              /\ voted_for (step f s e) = candidate_id)).
Proof.
  split; [|split; [|split]].
  - intros term s. rewrite advance_term_eq.
    split; intros H; destruct (Z.ltb_spec (current_term s) term); (reflexivity || lia).
  - intros e s. apply (term_le_run f e s).
  - intros es s. apply (term_le_exec f es s).
  - intros e s Hadv.
    pose proof (term_resets_vote_run f e) as Hrun.
    destruct e as [[sender receiver b] c|c|c|c| |].
    2,3,5,6: left; apply (Hrun s); exact Hadv.
    + assert (Hother : (forall t cid lli llt mid, b <> RequestVote t cid lli llt mid) ->
                       voted_for (step f s (Receive (Msg sender receiver b) c)) = None).
      { intros Hb. destruct b; try (apply (Hrun s); exact Hadv).
        exfalso. eapply Hb. reflexivity. }
      destruct b; try (left; apply Hother; discriminate).
      clear Hother Hrun. revert Hadv. unfold step. simpl run.
      change (process_msg f c _)
        with (request_vote c
                (Msg sender receiver
                   (RequestVote term candidate_id last_log_index
                      last_log_term msg_id))
                term candidate_id last_log_index last_log_term
              ≫= fun _ => mret true).
      rewrite snd_then_ret.
      match goal with
      | |- context [request_vote c ?m _ _ _ _ s] =>
          destruct (request_vote_vote c m term candidate_id last_log_index
                      last_log_term s) as (Hterm & Hvote)
      end.
      pose proof (keeps_maybe_step_down term_resets_vote
                    ltac:(term_resets_vote_side) term_resets_vote_trans
                    ltac:(term_resets_vote_side) term_resets_vote_advance_term
                    c term s) as (_ & Hreset & _).
      intros Hadv. rewrite Hterm in Hadv.
      destruct Hvote as [Hvote|Hvote].
      * left. rewrite Hvote. apply Hreset. exact Hadv.
      * right. right.
        exists c, sender, receiver, term, candidate_id, last_log_index,
               last_log_term, msg_id.
        split; [reflexivity|exact Hvote].
    + destruct (election_vote f c s) as [Hsame|[_ Hvote]].
      * exfalso. destruct Hsame as (Hterm & _).
        unfold step in Hadv. simpl run in Hadv. lia.
      * right. left. exists c. split; [reflexivity|exact Hvote].
Qed.

Lemma current_term_never_goes_back_witness :
  (advance_term 5 follower_committed
   = (Ok tt, with_voted_for None (with_current_term 5 follower_committed))
   /\ advance_term 1 follower_committed = (Raise RuntimeError, follower_committed))
  /\ (let e := Receive (Msg "n3" "n1" (AppendEntries 5 (Some "n3") 3 1 [] 3 2)) clock0 in
      let s' := step raft_py follower_committed e in
      voted_for s' = None
      \/ (exists c, e = ElectionTick c /\ voted_for s' = node_id follower_committed)
      \/ (exists c sender receiver term candidate_id last_log_index
                 last_log_term msg_id,
            e = Receive (Msg sender receiver
                           (RequestVote term candidate_id last_log_index
                              last_log_term msg_id)) c
            /\ voted_for s' = candidate_id)).
Proof.
  destruct (current_term_never_goes_back raft_py) as (Hadvance & _ & _ & Hvote).
  split; [split|].
  - apply (Hadvance 5 follower_committed). vm_compute. reflexivity.
  - apply (Hadvance 1 follower_committed). vm_compute. discriminate.
  - apply (Hvote (Receive (Msg "n3" "n1" (AppendEntries 5 (Some "n3") 3 1 [] 3 2))
                    clock0) follower_committed).
    vm_compute. reflexivity.
Defined.


(** ** The log and the indices into it *)

Lemma same_log_refl (s : RaftNode) : same_log s s.
Proof. repeat split; reflexivity. Qed.

Lemma same_log_trans (s1 s2 s3 : RaftNode) :
  same_log s1 s2 -> same_log s2 s3 -> same_log s1 s3.
Proof. unfold same_log. intuition congruence. Qed.

Lemma same_log_advance_term (term : Z) : keeps same_log (advance_term term).
Proof.
  intros s. rewrite advance_term_eq.
  destruct (current_term s <? term); repeat split; reflexivity.
Qed.

Ltac same_log_side :=
  first [ exact same_log_refl | exact same_log_trans | exact same_log_advance_term
        | intros; unfold same_log, same_core in *; simpl; intuition congruence ].

(** What [append_entries] can do to the log and the indices: nothing,
    or cut the log at [prev_log_index], extend it by the entries and
    set the commit index by the commit rule. *)
Lemma append_entries_log (f : pyfile) (c : clock) (m : msg) (term : Z)
    (leader_id : option string) (prev_log_index prev_log_term : Z)
    (entries : list entry) (leader_commit : Z) (s : RaftNode) :
  let s' := snd (append_entries f c m term leader_id prev_log_index
                   prev_log_term entries leader_commit s) in
  same_log s s'
  \/ (1 <= prev_log_index <= Log_size (log s)
      /\ last_applied s' = last_applied s
      /\ log s' = (take (Z.to_nat prev_log_index) (log s) ++ entries)%list
      /\ commit_index s' =
           if commit_index s <? leader_commit
           then Z.min leader_commit (Log_size (log s'))
           else commit_index s).
Proof.
  intros s'. subst s'.
  destruct (maybe_step_down_frame c term s) as (Hlog & Hcommit & Happlied & _).
  assert (Hs1 : maybe_step_down c term s = (Ok tt, snd (maybe_step_down c term s))).
  { rewrite maybe_step_down_eq. reflexivity. }
  revert Hlog Hcommit Happlied Hs1.
  generalize (snd (maybe_step_down c term s)). intros s1 Hlog Hcommit Happlied Hs1.
  unfold append_entries.
  rewrite (bind_Ok _ _ _ _ _ Hs1).
  unfold reply, send, send_msg, reset_election_deadline, try_get.
  unfold_monad. simpl.
  destruct (term <? current_term s1); simpl.
  { left. destruct (body_msg_id (mbody m)); simpl; repeat split; assumption. }
  destruct (Z.leb_spec prev_log_index 0) as [|Hprev]; simpl.
  { left. destruct f; simpl; repeat split; assumption. }
  destruct (Log_get (log s1) prev_log_index) as [e|x] eqn:Hget; simpl.
  2:{ left. destruct x; simpl; try (repeat split; assumption).
      destruct (body_msg_id (mbody m)); simpl; repeat split; assumption. }
  destruct (e_term e =? prev_log_term); simpl.
  2:{ left. destruct (body_msg_id (mbody m)); simpl; repeat split; assumption. }
  right.
  apply Log_get_Ok_positive in Hget as [Hsize _]; [|lia].
  unfold Log_truncate. rewrite py_slice_to_take by (unfold Log_size in Hsize; lia).
  rewrite <- Hlog, <- Hcommit.
  split; [lia|].
  destruct (commit_index s1 <? leader_commit); simpl;
    destruct (body_msg_id (mbody m)); simpl; repeat split; assumption.
Qed.

Lemma kv_req_log (f : pyfile) (m : msg) (o : op) (s : RaftNode) :
  let s' := snd (kv_req f m o s) in
  last_applied s' = last_applied s /\ commit_index s' = commit_index s
  /\ (log s' = log s \/ exists e, log s' = (log s ++ [e])%list).
Proof.
  simpl. unfold kv_req, reply, send, send_msg. unfold_monad. simpl.
  destruct (bool_decide (state s = Leader)); simpl.
  { repeat split. right. eexists. reflexivity. }
  destruct (truthy (leader s)); simpl.
  { destruct (leader s); simpl; repeat split; left; reflexivity. }
  destruct (body_msg_id (mbody m)); simpl; repeat split; left; reflexivity.
Qed.

Lemma advance_commit_index_log (s : RaftNode) :
  let s' := snd (advance_commit_index s) in
  last_applied s' = last_applied s /\ log s' = log s
  /\ (commit_index s' = commit_index s
      \/ (commit_index s < commit_index s'
          /\ exists e, Log_get (log s) (commit_index s') = Ok e)).
Proof.
  simpl. unfold advance_commit_index, match_index. unfold_monad. simpl.
  destruct (bool_decide (state s = Leader)); simpl; [|auto].
  destruct (_match_index s) as [mi|]; simpl; [|auto].
  destruct (median _) as [n|x]; simpl; [|auto].
  destruct (Z.ltb_spec (commit_index s) n); simpl; [|auto].
  destruct (Log_get (log s) n) as [e|x] eqn:Hget; simpl; [|auto].
  destruct (e_term e =? current_term s); simpl; [|auto].
  repeat split. right. split; [assumption|]. exists e. assumption.
Qed.

Lemma advance_state_machine_log (f : pyfile) (s : RaftNode) :
  let s' := snd (advance_state_machine f s) in
  commit_index s' = commit_index s /\ log s' = log s
  /\ (last_applied s' = last_applied s
      \/ (last_applied s < commit_index s
          /\ last_applied s' = last_applied s + 1)).
Proof.
  simpl. unfold advance_state_machine, send, send_msg. unfold_monad. simpl.
  destruct (Z.ltb_spec (last_applied s) (commit_index s)); simpl; [|auto].
  destruct (Log_get (log s) (last_applied s + 1)) as [e|x]; simpl; [|auto].
  destruct (e_op e) as [o|]; simpl; [|auto].
  destruct (KVStore_apply f (state_machine s) o) as [st [res|x]]; simpl; [|auto].
  destruct (bool_decide (state s = Leader)); simpl; auto.
Qed.

(** What one step can do to the log and the indices into it. *)
Lemma step_log (f : pyfile) (e : event) (s : RaftNode) :
  let s' := step f s e in
  same_log s s'
  \/ (exists sender receiver term leader_id prev_log_index prev_log_term entries
             leader_commit msg_id c,
        e = Receive (Msg sender receiver
                       (AppendEntries term leader_id prev_log_index prev_log_term
                          entries leader_commit msg_id)) c
        /\ 1 <= prev_log_index <= Log_size (log s)
        /\ last_applied s' = last_applied s
        /\ log s' = (take (Z.to_nat prev_log_index) (log s) ++ entries)%list
        /\ commit_index s' =
             if commit_index s <? leader_commit
             then Z.min leader_commit (Log_size (log s'))
             else commit_index s)
  \/ (last_applied s' = last_applied s /\ commit_index s' = commit_index s
      /\ exists x, log s' = (log s ++ [x])%list)
  \/ (last_applied s' = last_applied s /\ log s' = log s
      /\ commit_index s < commit_index s'
      /\ exists x, Log_get (log s) (commit_index s') = Ok x)
  \/ (commit_index s' = commit_index s /\ log s' = log s
      /\ last_applied s < commit_index s
      /\ last_applied s' = last_applied s + 1).
Proof.
  intros s'. subst s'. unfold step.
  destruct e as [[sender receiver b] c|c|c|c| |]; simpl run.
  - destruct b.
    7:{ change (process_msg f c _)
          with (append_entries f c
                  (Msg sender receiver
                     (AppendEntries term leader_id prev_log_index prev_log_term
                        entries leader_commit msg_id))
                  term leader_id prev_log_index prev_log_term entries leader_commit
                ≫= fun _ => mret true).
        rewrite snd_then_ret.
        match goal with
        | |- context [append_entries f c ?m _ _ _ _ _ _ s] =>
            destruct (append_entries_log f c m term leader_id prev_log_index
                        prev_log_term entries leader_commit s) as [H|H]
        end.
        - left. exact H.
        - right. left.
          exists sender, receiver, term, leader_id, prev_log_index, prev_log_term,
                 entries, leader_commit, msg_id, c.
          split; [reflexivity|exact H]. }
    8:{ change (process_msg f c _)
          with ((if bool_decide (op_type o = "read")
                    || bool_decide (op_type o = "write")
                    || bool_decide (op_type o = "cas")
                 then kv_req f (Msg sender receiver (KVRequest o)) o
                 else no_handler f)
                ≫= fun _ => mret true).
        rewrite snd_then_ret.
        destruct (_ || _).
        - destruct (kv_req_log f (Msg sender receiver (KVRequest o)) o s)
            as (Happlied & Hcommit & [Hlog|Hlog]).
          + left. repeat split; assumption.
          + right. right. left. repeat split; assumption.
        - left. destruct f; apply same_log_refl. }
    all: left; apply keeps_process_msg; try same_log_side; simpl; intros.
    all: try discriminate.
    all: apply keeps_request_vote; same_log_side.
  - left. apply keeps_step_down_on_timeout; same_log_side.
  - left. apply keeps_replicate_log; same_log_side.
  - left. apply keeps_election; same_log_side.
  - destruct (advance_commit_index_log s) as (Happlied & Hlog & [Hcommit|Hcommit]).
    + left. repeat split; assumption.
    + right. right. right. left. repeat split; tauto.
  - destruct (advance_state_machine_log f s) as (Hcommit & Hlog & [Happlied|Happlied]).
    + left. repeat split; assumption.
    + right. right. right. right. repeat split; tauto.
Qed.

(** A step that keeps the committed part of the log keeps the bounds. *)
Lemma applied_commit_size_step (f : pyfile) (e : event) (s : RaftNode) :
  applied_commit_size_from_1 s ->
  keeps_committed s e = true ->
  applied_commit_size_from_1 (step f s e).
Proof.
  intros (Hone & Happlied & Hsize) Hkeeps.
  unfold applied_commit_size_from_1.
  destruct (step_log f e s)
    as [(Ha & Hc & Hl)
       |[(sender & receiver & term & leader_id & prev & prev_term & entries
            & leader_commit & msg_id & c & -> & Hprev & Ha & Hl & Hc)
        |[(Ha & Hc & x & Hl)
         |[(Ha & Hl & Hc & x & Hget)
          |(Hc & Hl & Hlt & Ha)]]]].
  - rewrite Ha, Hc, Hl. auto.
  - simpl in Hkeeps. apply Z.leb_le in Hkeeps.
    assert (Hlen : Log_size (log (step f s
                     (Receive (Msg sender receiver
                        (AppendEntries term leader_id prev prev_term entries
                           leader_commit msg_id)) c)))
                   = prev + Z.of_nat (length entries)).
    { rewrite Hl. unfold Log_size in *. rewrite length_app, length_take. lia. }
    rewrite Hlen in *. rewrite Ha, Hc.
    destruct (Z.ltb_spec (commit_index s) leader_commit); lia.
  - rewrite Ha, Hc, Hl. unfold Log_size in *. rewrite length_app. simpl. lia.
  - rewrite Ha, Hl.
    destruct (Z.le_gt_cases 1 (commit_index (step f s e))) as [Hpos|Hneg].
    + apply Log_get_Ok_positive in Hget; [|assumption]. lia.
    + lia.
  - rewrite Ha, Hc, Hl. lia.
Qed.

(** C4, amended: the node starts with [last_applied = 1] above
    [commit_index = 0].  From there on -- in every state reached by
    handling messages and ticks none of which is an append_entries
    request that leaves the log shorter than the commit index --
    [1 <= last_applied <= max(1, commit_index) <= log.size()], which is
    the chain [1 <= last_applied <= commit_index <= log.size()] as soon
    as the commit index has reached 1. *)
Theorem applied_commit_size_invariant (f : pyfile) (es : list event) :
  keeps_committed_all f RaftNode_init es = true ->
  let s := exec f RaftNode_init es in
  applied_commit_size_from_1 s
  /\ (1 <= commit_index s -> applied_commit_size s).
Proof.
  intros Hkeeps s.
  assert (Hinv : applied_commit_size_from_1 s).
  { subst s.
    assert (Hinit : applied_commit_size_from_1 RaftNode_init).
    { repeat split; vm_compute; discriminate. }
    revert Hkeeps Hinit. generalize RaftNode_init.
    induction es as [|e es IH]; intros s0 Hkeeps Hinit; simpl in *.
    - exact Hinit.
    - apply andb_true_iff in Hkeeps as [He Hes].
      apply IH; [exact Hes|].
      apply applied_commit_size_step; assumption. }
  split; [exact Hinv|].
  intros Hcommit. destruct Hinv as (Hone & Happlied & Hsize).
  unfold applied_commit_size. lia.
Qed.

Lemma applied_commit_size_invariant_witness :
  let s := exec raft_py RaftNode_init [init_n1; append_two; ApplyTick; ApplyTick] in
  applied_commit_size_from_1 s
  /\ (1 <= commit_index s -> applied_commit_size s).
Proof.
  apply (applied_commit_size_invariant raft_py
           [init_n1; append_two; ApplyTick; ApplyTick]).
  vm_compute. reflexivity.
Defined.

(** C4 as stated fails in the state a node is constructed in, where
    [last_applied] is 1 and [commit_index] is 0. *)
Lemma initial_state_breaks_the_chain :
  last_applied RaftNode_init = 1 /\ commit_index RaftNode_init = 0
  /\ ~ applied_commit_size RaftNode_init.
Proof.
  split; [reflexivity|]. split; [reflexivity|].
  intros (_ & Happlied & _). vm_compute in Happlied. apply Happlied. reflexivity.
Qed.

(** What the side condition of the invariant leaves out: a request that
    cuts the log below the commit index leaves the commit index above
    the size of the log. *)
Lemma commit_index_above_the_log :
  let s' := step raft_py follower_committed heartbeat_after_1 in
  commit_index s' = 3 /\ Log_size (log s') = 1.
Proof. vm_compute. split; reflexivity. Qed.

(** ** The main loop *)

Lemma or_else_snd (a b : M bool) (s : RaftNode) :
  snd (or_else a b s) = snd (a s)
  \/ snd (or_else a b s) = snd (b (snd (a s))).
Proof.
  unfold or_else. unfold_monad.
  destruct (a s) as [[[|]|x] s1]; simpl; auto.
Qed.

Lemma or_else_exec (f : pyfile) (a b : M bool) (e : event) :
  (forall s, snd (a s) = step f s e) ->
  (forall s, exists es, snd (b s) = exec f s es) ->
  forall s, exists es, snd (or_else a b s) = exec f s es.
Proof.
  intros Ha Hb s. destruct (or_else_snd a b s) as [H|H]; rewrite H.
  - exists [e]. simpl. apply Ha.
  - destruct (Hb (snd (a s))) as (es & Hes).
    exists (e :: es). simpl. rewrite Hes, Ha. reflexivity.
Qed.

(** A pass of the main loop is a run of steps: the states the loop goes
    through are states a sequence of events reaches. *)
Lemma main_pass_exec (f : pyfile) (line : option msg) (c : clock) (s : RaftNode) :
  exists es, snd (main_pass f line c s) = exec f s es.
Proof.
  assert (Hticks : forall s, exists es,
            snd (or_else (step_down_on_timeout c)
                  (or_else (replicate_log f c)
                  (or_else (election f c)
                  (or_else advance_commit_index
                           (advance_state_machine f)))) s) = exec f s es).
  { apply (or_else_exec f _ _ (StepDownTick c)); [reflexivity|].
    apply (or_else_exec f _ _ (ReplicateTick c)); [reflexivity|].
    apply (or_else_exec f _ _ (ElectionTick c)); [reflexivity|].
    apply (or_else_exec f _ _ CommitTick); [reflexivity|].
    intros s0. exists [ApplyTick]. reflexivity. }
  unfold main_pass. destruct line as [m|].
  - revert s. apply (or_else_exec f _ _ (Receive m c)); [reflexivity|].
    exact Hticks.
  - apply Hticks.
Qed.

(** ** More on the log of a running node *)

(** An accepted append_entries request does not take the commit index
    back when it leaves the log at least as long as the commit index. *)
Lemma append_entries_commit_monotone (f : pyfile) (c : clock) (m : msg) (term : Z)
    (leader_id : option string) (prev_log_index prev_log_term : Z)
    (entries : list entry) (leader_commit : Z) (s : RaftNode) :
  let s' := snd (append_entries f c m term leader_id prev_log_index
                   prev_log_term entries leader_commit s) in
  commit_index s <= prev_log_index + Z.of_nat (length entries) ->
  commit_index s <= commit_index s'.
Proof.
  intros s' Hkeeps.
  destruct (append_entries_log f c m term leader_id prev_log_index prev_log_term
              entries leader_commit s) as [(_ & Hc & _)|(Hprev & _ & Hl & Hc)];
    fold s' in Hc |- *.
  - lia.
  - fold s' in Hl.
    assert (Hlen : Log_size (log s') = prev_log_index + Z.of_nat (length entries)).
    { rewrite Hl. unfold Log_size in *. rewrite length_app, length_take. lia. }
    rewrite Hc, Hlen.
    destruct (Z.ltb_spec (commit_index s) leader_commit); lia.
Qed.

(** The default entry stays at index 1 whatever the node handles, so
    the log is never empty. *)
Lemma default_entry_stays (f : pyfile) (es : list event) :
  head (log (exec f RaftNode_init es)) = Some (Entry 0 None).
Proof.
  assert (Hinit : head (log RaftNode_init) = Some (Entry 0 None)) by reflexivity.
  revert Hinit. generalize RaftNode_init.
  induction es as [|e es IH]; intros s Hhead; simpl; [exact Hhead|].
  apply IH.
  destruct (log s) as [|x l] eqn:Hlog; [discriminate|].
  destruct (step_log f e s)
    as [(_ & _ & Hl)
       |[(sender & receiver & term & leader_id & prev & prev_term & entries
            & leader_commit & msg_id & c & _ & Hprev & _ & Hl & _)
        |[(_ & _ & y & Hl)
         |[(_ & Hl & _)
          |(_ & Hl & _)]]]];
    rewrite Hl, ?Hlog; try exact Hhead.
  destruct (Z.to_nat prev) as [|n] eqn:Hn; [lia|]. exact Hhead.
Qed.

Lemma log_never_empty (f : pyfile) (es : list event) :
  let s := exec f RaftNode_init es in
  1 <= Log_size (log s)
  /\ Log_get (log s) 1 = Ok (Entry 0 None)
  /\ exists t, Log_last_term (log s) = Ok t.
Proof.
  simpl. pose proof (default_entry_stays f es) as Hhead.
  destruct (log (exec f RaftNode_init es)) as [|x l] eqn:Hlog; [discriminate|].
  injection Hhead as ->.
  split; [unfold Log_size; simpl; lia|]. split; [reflexivity|].
  unfold Log_last_term, Log_last.
  rewrite py_index_negative by (simpl; lia).
  destruct (_ !! _) as [y|] eqn:Hy.
  - exists (e_term y). reflexivity.
  - apply lookup_ge_None_1 in Hy. simpl in Hy. lia.
Qed.

(** * Further properties of the code *)

(** ** The operations of the log *)

Lemma py_slice_from_drop {A} (xs : list A) (start : Z) :
  0 <= start -> py_slice_from xs start = drop (Z.to_nat start) xs.
Proof.
  intros Hstart. unfold py_slice_from, py_clamp.
  destruct (Z.ltb_spec start 0) as [?|_]; [lia|].
  destruct (Z.le_gt_cases start (Z.of_nat (length xs))) as [Hle|Hgt].
  - rewrite Z.min_l by lia. reflexivity.
  - rewrite Z.min_r by lia. rewrite Nat2Z.id.
    rewrite !drop_ge by lia. reflexivity.
Qed.

Lemma py_slice_to_negative {A} (xs : list A) (stop : Z) :
  stop < 0 ->
  py_slice_to xs stop = take (length xs - Z.to_nat (- stop)) xs.
Proof.
  intros Hstop. unfold py_slice_to, py_clamp.
  destruct (Z.ltb_spec stop 0) as [_|?]; [|lia].
  f_equal. lia.
Qed.

Lemma py_slice_to_beyond {A} (xs : list A) (stop : Z) :
  Z.of_nat (length xs) <= stop -> py_slice_to xs stop = xs.
Proof.
  intros Hstop. unfold py_slice_to, py_clamp.
  destruct (Z.ltb_spec stop 0) as [?|_]; [lia|].
  rewrite Z.min_r by lia. rewrite Nat2Z.id. apply firstn_all.
Qed.

(** X1: cutting the log before index [i] and appending what
    [from_index(i)] returned gives the log back, for every [i] from 1 to
    one past the end; [from_index(i)] returns the [size - i + 1]
    entries from index [i] on, so that [get] finds the same entries in
    it, shifted by [i - 1]. *)
Theorem Log_truncate_from_index_rejoin (entries : list entry) (i : Z) :
  1 <= i <= Log_size entries + 1 ->
  exists rest,
    Log_from_index entries i = Ok rest
    /\ Log_append (Log_truncate entries (i - 1)) rest = entries
    /\ Log_size rest = Log_size entries - i + 1
    /\ forall j, 1 <= j <= Log_size rest ->
         Log_get rest j = Log_get entries (i - 1 + j).
Proof.
  intros Hi. unfold Log_from_index, Log_size in *.
  destruct (Z.leb_spec i 0) as [?|_]; [lia|].
  exists (py_slice_from entries (i - 1)).
  rewrite py_slice_from_drop by lia.
  split; [reflexivity|].
  unfold Log_append, Log_truncate. rewrite py_slice_to_take by lia.
  split; [apply take_drop|].
  assert (Hlen : Z.of_nat (length (drop (Z.to_nat (i - 1)) entries))
                 = Z.of_nat (length entries) - i + 1).
  { rewrite length_drop. lia. }
  split; [exact Hlen|].
  intros j Hj. unfold Log_get. rewrite !py_index_nonneg by lia.
  rewrite lookup_drop.
  replace (Z.to_nat (i - 1 + j - 1))
    with (Z.to_nat (i - 1) + Z.to_nat (j - 1))%nat by lia.
  reflexivity.
Qed.

Lemma Log_truncate_from_index_rejoin_witness :
  exists rest,
    Log_from_index (log follower_committed) 2 = Ok rest
    /\ Log_append (Log_truncate (log follower_committed) (2 - 1)) rest
       = log follower_committed
    /\ Log_size rest = Log_size (log follower_committed) - 2 + 1
    /\ forall j, 1 <= j <= Log_size rest ->
         Log_get rest j = Log_get (log follower_committed) (2 - 1 + j).
Proof.
  apply (Log_truncate_from_index_rejoin (log follower_committed) 2).
  vm_compute. split; discriminate.
Defined.

(** X2: [from_index] raises for every index that is not positive, and
    for no other: at index 1 it returns the whole log, and past the end
    of the log it returns the empty list where [get] raises. *)
Theorem Log_from_index_edges (entries : list entry) (i : Z) :
  (i <= 0 -> exists e, Log_from_index entries i = Raise e)
  /\ (0 < i -> exists rest, Log_from_index entries i = Ok rest)
  /\ (i = 1 -> Log_from_index entries i = Ok entries)
  /\ (Log_size entries < i ->
      Log_from_index entries i = Ok [] /\ Log_get entries i = Raise IndexError).
Proof.
  unfold Log_from_index.
  split; [|split; [|split]].
  - intros Hi. destruct (Z.leb_spec i 0); [eexists; reflexivity|lia].
  - intros Hi. destruct (Z.leb_spec i 0); [lia|eexists; reflexivity].
  - intros ->. simpl. rewrite py_slice_from_drop by lia. reflexivity.
  - intros Hi. assert (0 <= Log_size entries) by (unfold Log_size; lia).
    destruct (Z.leb_spec i 0); [lia|].
    split.
    + rewrite py_slice_from_drop by lia.
      rewrite drop_ge by (unfold Log_size in *; lia). reflexivity.
    + apply Log_get_out_of_reach. left. assumption.
Qed.

Lemma Log_from_index_edges_witness :
  (exists e, Log_from_index Log_init 0 = Raise e)
  /\ (exists rest, Log_from_index Log_init 2 = Ok rest)
  /\ Log_from_index Log_init 1 = Ok Log_init
  /\ (Log_from_index Log_init 5 = Ok [] /\ Log_get Log_init 5 = Raise IndexError).
Proof.
  split; [|split; [|split]].
  - destruct (Log_from_index_edges Log_init 0) as (H & _). apply H. lia.
  - destruct (Log_from_index_edges Log_init 2) as (_ & H & _). apply H. lia.
  - destruct (Log_from_index_edges Log_init 1) as (_ & _ & H & _).
    apply H. reflexivity.
  - destruct (Log_from_index_edges Log_init 5) as (_ & _ & _ & H).
    apply H. vm_compute. reflexivity.
Defined.

(** X3: [truncate(size)] keeps the first [size] entries, each at its
    index, when [size] is between 0 and the size of the log, and all of
    them when [size] is larger.  [truncate(0)] leaves no entry at all,
    not even the default one, after which [last] raises.  A negative
    [size] counts from the end, as Python slices do: [truncate(-k)]
    drops the last [k] entries and keeps the rest. *)
Theorem Log_truncate_edges (entries : list entry) (size : Z) :
  (0 <= size <= Log_size entries ->
     Log_size (Log_truncate entries size) = size
     /\ forall i, 1 <= i <= size ->
          Log_get (Log_truncate entries size) i = Log_get entries i)
  /\ (Log_size entries <= size -> Log_truncate entries size = entries)
  /\ (size = 0 ->
      Log_truncate entries size = []
      /\ Log_last (Log_truncate entries size) = Raise IndexError)
  /\ (- Log_size entries <= size < 0 ->
      Log_size (Log_truncate entries size) = Log_size entries + size
      /\ Log_truncate entries size
         = take (Z.to_nat (Log_size entries + size)) entries).
Proof.
  unfold Log_truncate, Log_size.
  split; [|split; [|split]].
  - intros Hsize. split; [apply py_slice_to_length; assumption|].
    intros i Hi. rewrite py_slice_to_take by assumption.
    apply Log_get_take; [assumption|unfold Log_size; lia].
  - apply py_slice_to_beyond.
  - intros ->.
    assert (Hnil : py_slice_to entries 0 = []).
    { rewrite py_slice_to_take by lia. reflexivity. }
    rewrite Hnil. split; reflexivity.
  - intros Hsize. rewrite py_slice_to_negative by lia.
    replace (length entries - Z.to_nat (- size))%nat
      with (Z.to_nat (Z.of_nat (length entries) + size)) by lia.
    split; [|reflexivity]. rewrite length_take. lia.
Qed.

Lemma Log_truncate_edges_witness :
  let entries := log follower_committed in
  (Log_size (Log_truncate entries 2) = 2
   /\ forall i, 1 <= i <= 2 ->
        Log_get (Log_truncate entries 2) i = Log_get entries i)
  /\ Log_truncate entries 7 = entries
  /\ (Log_truncate entries 0 = []
      /\ Log_last (Log_truncate entries 0) = Raise IndexError)
  /\ (Log_size (Log_truncate entries (-1)) = Log_size entries + -1
      /\ Log_truncate entries (-1)
         = take (Z.to_nat (Log_size entries + -1)) entries).
Proof.
  intros entries.
  split; [|split; [|split]].
  - destruct (Log_truncate_edges entries 2) as (H & _).
    apply H. vm_compute. split; discriminate.
  - destruct (Log_truncate_edges entries 7) as (_ & H & _).
    apply H. vm_compute. discriminate.
  - destruct (Log_truncate_edges entries 0) as (_ & _ & H & _).
    apply H. reflexivity.
  - destruct (Log_truncate_edges entries (-1)) as (_ & _ & _ & H).
    apply H. vm_compute. split; [discriminate|reflexivity].
Defined.

(** X4: on a log that is not empty [last()] is the entry [get] finds at
    index [size()], and [last_term()] is its term; on an empty log both
    raise an [IndexError] -- [last_term] does not fall back to 0 there,
    since its call of [last] raises first. *)
Theorem Log_last_is_get_size (entries : list entry) :
  (entries <> [] ->
     exists e, Log_last entries = Ok e
               /\ Log_get entries (Log_size entries) = Ok e
               /\ Log_last_term entries = Ok (e_term e))
  /\ (entries = [] ->
      Log_last entries = Raise IndexError
      /\ Log_last_term entries = Raise IndexError).
Proof.
  split.
  - intros Hne.
    assert (1 <= Log_size entries) as Hsize.
    { destruct entries; [congruence|]. unfold Log_size. simpl. lia. }
    destruct (Log_get_in_range entries (Log_size entries)) as (e & Hget & Hlookup);
      [lia|].
    exists e.
    assert (Hlast : Log_last entries = Ok e).
    { unfold Log_last, Log_size in *. rewrite py_index_negative by lia.
      replace (Z.to_nat (-1 + Z.of_nat (length entries)))
        with (Z.to_nat (Z.of_nat (length entries) - 1)) by lia.
      rewrite Hlookup. reflexivity. }
    split; [exact Hlast|]. split; [exact Hget|].
    unfold Log_last_term. rewrite Hlast. reflexivity.
  - intros ->. split; reflexivity.
Qed.

Lemma Log_last_is_get_size_witness :
  (exists e, Log_last Log_init = Ok e
             /\ Log_get Log_init (Log_size Log_init) = Ok e
             /\ Log_last_term Log_init = Ok (e_term e))
  /\ (Log_last [] = Raise IndexError /\ Log_last_term [] = Raise IndexError).
Proof.
  split.
  - destruct (Log_last_is_get_size Log_init) as (H & _). apply H. discriminate.
  - destruct (Log_last_is_get_size []) as (_ & H). apply H. reflexivity.
Defined.

(** ** Quorums *)

(** X5: a majority of [n] nodes is more than half of them and, for a
    cluster that is not empty, no more than all of them; so two sets of
    nodes of one cluster that each hold a majority share a node. *)
Theorem majority_quorums_meet (n : Z) :
  0 <= n ->
  n < 2 * majority n
  /\ 2 * majority n <= n + 2
  /\ (1 <= n -> majority n <= n)
  /\ forall cluster a b : gset string,
       Z.of_nat (size cluster) = n -> a ⊆ cluster -> b ⊆ cluster ->
       majority n <= Z.of_nat (size a) -> majority n <= Z.of_nat (size b) ->
       exists node, node ∈ a /\ node ∈ b.
Proof.
  intros Hn. rewrite majority_floor. unfold majority_spec.
  pose proof (Z.div_mod n 2 ltac:(lia)) as Hdiv.
  pose proof (Z.mod_pos_bound n 2 ltac:(lia)) as Hmod.
  split; [lia|]. split; [lia|]. split; [lia|].
  intros cluster a b Hsize Ha Hb Hma Hmb.
  destruct (decide (a ∩ b = ∅)) as [Hdisjoint|Hmeet].
  - exfalso.
    assert (Hunion : size (a ∪ b) = (size a + size b)%nat).
    { apply size_union. apply disjoint_intersection_L. exact Hdisjoint. }
    assert (Hsub : (size (a ∪ b) <= size cluster)%nat).
    { apply subseteq_size. apply union_least; assumption. }
    lia.
  - apply set_choose_L in Hmeet as (node & Hnode).
    exists node. set_solver.
Qed.

Lemma majority_quorums_meet_witness :
  3 < 2 * majority 3
  /\ 2 * majority 3 <= 3 + 2
  /\ (1 <= 3 -> majority 3 <= 3)
  /\ forall cluster a b : gset string,
       Z.of_nat (size cluster) = 3 -> a ⊆ cluster -> b ⊆ cluster ->
       majority 3 <= Z.of_nat (size a) -> majority 3 <= Z.of_nat (size b) ->
       exists node, node ∈ a /\ node ∈ b.
Proof. apply (majority_quorums_meet 3). lia. Defined.

Lemma length_filter_Forall {A} (P : A -> Prop) `{forall x, Decision (P x)}
    (l : list A) :
  Forall P l -> length (filter P l) = length l.
Proof.
  induction 1 as [|x l Hx Hl IH]; [reflexivity|].
  rewrite filter_cons_True by assumption. simpl. congruence.
Qed.

Lemma length_filter_none {A} (P : A -> Prop) `{forall x, Decision (P x)}
    (l : list A) :
  Forall (fun x => ~ P x) l -> length (filter P l) = 0%nat.
Proof.
  induction 1 as [|x l Hx Hl IH]; [reflexivity|].
  rewrite filter_cons_False by assumption. exact IH.
Qed.

(** In a sorted list, the entries from a position on are at least the
    entry at that position, and only entries after it can exceed it. *)
Lemma sorted_counts (l : list Z) (p : nat) (n : Z) :
  StronglySorted Z.le l -> l !! p = Some n ->
  (length l - p <= length (filter (fun x => (n <= x)%Z) l))%nat
  /\ (length (filter (fun x => (n < x)%Z) l) <= length l - p - 1)%nat.
Proof.
  intros Hsorted Hp.
  pose proof (lookup_lt_Some _ _ _ Hp) as Hlt.
  rewrite <- (take_drop_middle l p n Hp) in Hsorted |- *.
  apply StronglySorted_app in Hsorted as (Hcross & _ & Htail).
  apply StronglySorted_cons in Htail as (Hafter & _).
  rewrite !filter_app, !length_app.
  assert (Hlow : length (filter (fun x => n < x) (take p l)) = 0%nat).
  { apply length_filter_none. apply Forall_forall. intros x Hx.
    specialize (Hcross x n Hx ltac:(left)). lia. }
  assert (Hhigh : length (filter (fun x => n <= x) (n :: drop (S p) l))
                  = length (n :: drop (S p) l)).
  { apply length_filter_Forall. constructor; [lia|exact Hafter]. }
  rewrite Hlow, Hhigh.
  rewrite (filter_cons_False (fun x => n < x)) by lia.
  pose proof (length_filter (fun x => n < x) (drop (S p) l)) as Hdrop.
  simpl. rewrite length_take, length_drop in *. lia.
Qed.

(** X6: the median of a collection that is not empty is one of its
    values, at least a majority of the values are greater than or equal
    to it, and fewer than a majority are greater: it is the highest
    index a majority of the nodes have reached. *)
Theorem median_reached_by_majority (xs : list Z) :
  xs <> [] ->
  exists n,
    median xs = Ok n
    /\ n ∈ xs
    /\ majority (Z.of_nat (length xs))
       <= Z.of_nat (length (filter (fun x => n <= x) xs))
    /\ Z.of_nat (length (filter (fun x => n < x) xs))
       < majority (Z.of_nat (length xs)).
Proof.
  intros Hne.
  destruct (median_refines xs Hne) as (n & Hspec & Hmedian).
  exists n. split; [exact Hmedian|].
  unfold median_spec in Hspec.
  pose proof (merge_sort_Permutation Z.le xs) as Hperm.
  pose proof (StronglySorted_merge_sort Z.le xs) as Hsorted.
  pose proof (Permutation_length Hperm) as Hlen.
  assert (1 <= Z.of_nat (length xs)) as Hpos.
  { destruct xs; [congruence|]. simpl. lia. }
  pose proof (median_position _ Hpos) as Hrange.
  destruct (sorted_counts _ _ _ Hsorted Hspec) as (Hge & Hgt).
  rewrite majority_floor.
  rewrite <- (Permutation_length (filter_Permutation (fun x => n <= x) _ _ Hperm)).
  rewrite <- (Permutation_length (filter_Permutation (fun x => n < x) _ _ Hperm)).
  rewrite Hlen in Hge, Hgt.
  split; [|split; lia].
  rewrite <- Hperm. eapply list_elem_of_lookup_2. exact Hspec.
Qed.

Lemma median_reached_by_majority_witness :
  exists n,
    median [0; 2; 2] = Ok n
    /\ n ∈ [0; 2; 2]
    /\ majority (Z.of_nat (length [0; 2; 2]))
       <= Z.of_nat (length (filter (fun x => n <= x) [0; 2; 2]))
    /\ Z.of_nat (length (filter (fun x => n < x) [0; 2; 2]))
       < majority (Z.of_nat (length [0; 2; 2])).
Proof. apply (median_reached_by_majority [0; 2; 2]). discriminate. Defined.

(** ** The key-value store across several operations *)

(** Two keys name the same slot of the dict exactly when they are equal
    for Python. *)
Lemma dict_key_py_eqb (a b : value) :
  dict_key a = dict_key b <-> py_eqb a b = true.
Proof.
  destruct a as [|x|x|x], b as [|y|y|y]; simpl;
    rewrite ?Z.eqb_eq, ?bool_decide_eq_true;
    split; intros H; try congruence; try discriminate.
  all: try (injection H as H; exact H).
Qed.

Lemma KVStore_apply_write_state (f : pyfile) (st : gmap value value) (o : op)
    (v : value) :
  op_type o = "write" -> op_value o = Some v ->
  fst (KVStore_apply f st o) = <[dict_key (op_key o) := v]> st.
Proof.
  intros Ht Hv. unfold KVStore_apply. rewrite Ht, Hv. simpl.
  destruct (op_client o); reflexivity.
Qed.

Lemma KVStore_apply_read (f : pyfile) (st : gmap value value) (o : op)
    (c : string) :
  op_type o = "read" -> op_client o = Some c ->
  KVStore_apply f st o
  = (st, Ok (KVResponse c
               (match st !! dict_key (op_key o) with
                | Some v => ReadOk v (op_msg_id o)
                | None => Error 20 "not found" (op_msg_id o)
                end))).
Proof.
  intros Ht Hc. unfold KVStore_apply. rewrite Ht, Hc. simpl.
  destruct (st !! dict_key (op_key o)); reflexivity.
Qed.

(** X7: a read that follows a write of an equal key -- equal for
    Python, so that [True] reads what [1] wrote -- returns the written
    value; a read of any other key is answered as it was before the
    write.  The write is in the store even when its own response could
    not be built for want of a client. *)
Theorem KVStore_read_after_write (f : pyfile) (st : gmap value value)
    (w r : op) (v : value) (c : string) :
  op_type w = "write" -> op_value w = Some v ->
  op_type r = "read" -> op_client r = Some c ->
  let st' := fst (KVStore_apply f st w) in
  (py_eqb (op_key r) (op_key w) = true ->
     KVStore_apply f st' r = (st', Ok (KVResponse c (ReadOk v (op_msg_id r)))))
  /\ (py_eqb (op_key r) (op_key w) = false ->
      snd (KVStore_apply f st' r) = snd (KVStore_apply f st r)).
Proof.
  intros Hw Hv Hr Hc st'.
  assert (Hst : st' = <[dict_key (op_key w) := v]> st).
  { apply KVStore_apply_write_state; assumption. }
  rewrite !(KVStore_apply_read f _ r c) by assumption. rewrite Hst.
  split.
  - intros Hkey. apply dict_key_py_eqb in Hkey. rewrite Hkey.
    rewrite lookup_insert_eq. reflexivity.
  - intros Hkey. rewrite lookup_insert_ne; [reflexivity|].
    intros Heq. symmetry in Heq. apply dict_key_py_eqb in Heq. congruence.
Qed.

Lemma KVStore_read_after_write_witness :
  let w := Op "write" (VInt 1) (Some (VStr "a")) None None 5 None in
  let st' := fst (KVStore_apply raft_py ∅ w) in
  KVStore_apply raft_py st' (Op "read" (VBool true) None None None 6 (Some "c1"))
  = (st', Ok (KVResponse "c1" (ReadOk (VStr "a") 6)))
  /\ snd (KVStore_apply raft_py st' (Op "read" (VInt 2) None None None 7 (Some "c1")))
     = snd (KVStore_apply raft_py ∅ (Op "read" (VInt 2) None None None 7 (Some "c1"))).
Proof.
  intros w st'. split.
  - destruct (KVStore_read_after_write raft_py ∅ w
                (Op "read" (VBool true) None None None 6 (Some "c1"))
                (VStr "a") "c1" eq_refl eq_refl eq_refl eq_refl) as (H & _).
    apply H. reflexivity.
  - destruct (KVStore_read_after_write raft_py ∅ w
                (Op "read" (VInt 2) None None None 7 (Some "c1"))
                (VStr "a") "c1" eq_refl eq_refl eq_refl eq_refl) as (_ & H).
    apply H. reflexivity.
Defined.

(** X8: after a cas on a key that holds a value, a read of that key
    returns [to] when [from] was equal to the value, and the old value
    when it was not; a cas on an absent key leaves it absent. *)
Theorem KVStore_read_after_cas (f : pyfile) (st : gmap value value)
    (o r : op) (from to : value) (c : string) :
  op_type o = "cas" -> op_from o = Some from -> op_to o = Some to ->
  op_type r = "read" -> op_client r = Some c ->
  py_eqb (op_key r) (op_key o) = true ->
  let st' := fst (KVStore_apply f st o) in
  let answer b := (st', Ok (KVResponse c (b (op_msg_id r)))) in
  (forall cur, st !! dict_key (op_key o) = Some cur -> py_eqb cur from = true ->
     KVStore_apply f st' r = answer (ReadOk to))
  /\ (forall cur, st !! dict_key (op_key o) = Some cur -> py_eqb cur from = false ->
      st' = st /\ KVStore_apply f st' r = answer (ReadOk cur))
  /\ (st !! dict_key (op_key o) = None ->
      st' = st /\ KVStore_apply f st' r = answer (Error 20 "not found")).
Proof.
  intros Ho Hfrom Hto Hr Hc Hkey st' answer. subst answer.
  apply dict_key_py_eqb in Hkey.
  rewrite (KVStore_apply_read f _ r c) by assumption. rewrite Hkey.
  subst st'. unfold KVStore_apply. rewrite Ho, Hfrom, Hto. simpl.
  split; [|split].
  - intros cur Hcur Heq. rewrite Hcur, Heq. simpl.
    destruct (op_client o); simpl; rewrite lookup_insert_eq; reflexivity.
  - intros cur Hcur Heq. rewrite Hcur, Heq. simpl.
    destruct (op_client o); simpl; rewrite Hcur; split; reflexivity.
  - intros Hcur. rewrite Hcur.
    destruct (op_client o); simpl; rewrite Hcur; split; reflexivity.
Qed.

Lemma KVStore_read_after_cas_witness :
  let st : gmap value value := {[ VInt 1 := VInt 5 ]} in
  let r := Op "read" (VInt 1) None None None 9 (Some "c1") in
  let cas k from to := Op "cas" (VInt k) None (Some (VInt from)) (Some (VInt to)) 8
                          (Some "c1") in
  (let st' := fst (KVStore_apply raft_py st (cas 1 5 6)) in
   KVStore_apply raft_py st' r = (st', Ok (KVResponse "c1" (ReadOk (VInt 6) 9))))
  /\ (let st' := fst (KVStore_apply raft_py st (cas 1 4 6)) in
      st' = st
      /\ KVStore_apply raft_py st' r = (st', Ok (KVResponse "c1" (ReadOk (VInt 5) 9))))
  /\ (let st' := fst (KVStore_apply raft_py ∅ (cas 1 5 6)) in
      st' = ∅
      /\ KVStore_apply raft_py st' r
         = (st', Ok (KVResponse "c1" (Error 20 "not found" 9)))).
Proof.
  intros st r cas.
  split; [|split].
  - destruct (KVStore_read_after_cas raft_py st (cas 1 5 6) r (VInt 5) (VInt 6) "c1"
                eq_refl eq_refl eq_refl eq_refl eq_refl eq_refl) as (H & _).
    apply (H (VInt 5)); reflexivity.
  - destruct (KVStore_read_after_cas raft_py st (cas 1 4 6) r (VInt 4) (VInt 6) "c1"
                eq_refl eq_refl eq_refl eq_refl eq_refl eq_refl) as (_ & H & _).
    apply (H (VInt 5)); reflexivity.
  - destruct (KVStore_read_after_cas raft_py ∅ (cas 1 5 6) r (VInt 5) (VInt 6) "c1"
                eq_refl eq_refl eq_refl eq_refl eq_refl eq_refl) as (_ & _ & H).
    apply H. reflexivity.
Defined.

(** X9: whatever the op, a response of [KVStore.apply] goes to the
    client of the op and carries its msg_id as in_reply_to; it is one of
    read_ok, write_ok, cas_ok, error 20 and error 22; and the store is
    changed only under a write_ok or a cas_ok: a read_ok or an error
    means the store is as it was. *)
Theorem KVStore_apply_responses (f : pyfile) (st st' : gmap value value)
    (o : op) (res : kv_response) :
  KVStore_apply f st o = (st', Ok res) ->
  op_client o = Some (kv_dest res)
  /\ ((exists v, kv_body res = ReadOk v (op_msg_id o) /\ st' = st
                 /\ st !! dict_key (op_key o) = Some v)
      \/ (exists v, kv_body res = WriteOk (op_msg_id o)
                    /\ op_value o = Some v
                    /\ st' = <[dict_key (op_key o) := v]> st)
      \/ (exists to, kv_body res = CasOk (op_msg_id o)
                     /\ op_to o = Some to
                     /\ st' = <[dict_key (op_key o) := to]> st)
      \/ (exists text, kv_body res = Error 20 text (op_msg_id o) /\ st' = st
                       /\ st !! dict_key (op_key o) = None)
      \/ (exists text, kv_body res = Error 22 text (op_msg_id o) /\ st' = st)).
Proof.
  unfold KVStore_apply.
  destruct (op_client o) as [c|] eqn:Hc.
  2:{ repeat (case_bool_decide || case_match); intros [= ]. }
  repeat case_bool_decide.
  - destruct (st !! dict_key (op_key o)) as [v|] eqn:Hv; intros [= <- <-]; simpl;
      (split; [reflexivity|]).
    + left. exists v. auto.
    + right. right. right. left. eexists. auto.
  - destruct (op_value o) as [v|]; [|intros [= ]].
    intros [= <- <-]. simpl. split; [reflexivity|].
    right. left. exists v. auto.
  - destruct (st !! dict_key (op_key o)) as [cur|] eqn:Hcur.
    + destruct (op_from o) as [from|]; [|intros [= ]].
      destruct (py_eqb cur from); simpl.
      * destruct (op_to o) as [to|]; [|intros [= ]].
        intros [= <- <-]. simpl. split; [reflexivity|].
        right. right. left. exists to. auto.
      * intros [= <- <-]. simpl. split; [reflexivity|].
        right. right. right. right. eexists. auto.
    + intros [= <- <-]. simpl. split; [reflexivity|].
      right. right. right. left. eexists. auto.
  - intros [= ].
Qed.

Lemma KVStore_apply_responses_witness :
  let o := Op "cas" (VInt 1) None (Some (VInt 4)) (Some (VInt 6)) 8 (Some "c1") in
  let st : gmap value value := {[ VInt 1 := VInt 5 ]} in
  let res := KVResponse "c1" (Error 22 "expected 4 but had 5" 8) in
  op_client o = Some (kv_dest res)
  /\ ((exists v, kv_body res = ReadOk v (op_msg_id o) /\ st = st
                 /\ st !! dict_key (op_key o) = Some v)
      \/ (exists v, kv_body res = WriteOk (op_msg_id o)
                    /\ op_value o = Some v
                    /\ st = <[dict_key (op_key o) := v]> st)
      \/ (exists to, kv_body res = CasOk (op_msg_id o)
                     /\ op_to o = Some to
                     /\ st = <[dict_key (op_key o) := to]> st)
      \/ (exists text, kv_body res = Error 20 text (op_msg_id o) /\ st = st
                       /\ st !! dict_key (op_key o) = None)
      \/ (exists text, kv_body res = Error 22 text (op_msg_id o) /\ st = st)).
Proof.
  intros o st res.
  apply (KVStore_apply_responses raft_py st st o res). reflexivity.
Defined.

(** ** Relations the methods keep, assignment by assignment

    The rules of the section [keeps] above, with one premise for each
    assignment a method makes and for each method that writes to the
    [Net], so that they also serve relations that look at the role, the
    ids or the network side of the node. *)

Create HintDb kept.

Section kept.

Variable R : RaftNode -> RaftNode -> Prop.
Hypothesis R_refl : forall s, R s s.
Hypothesis R_trans : forall s1 s2 s3, R s1 s2 -> R s2 s3 -> R s1 s3.
Hypothesis H_election_deadline : forall v s, R s (with_election_deadline v s).
Hypothesis H_step_down_deadline : forall v s, R s (with_step_down_deadline v s).
Hypothesis H_last_replication : forall v s, R s (with_last_replication v s).
Hypothesis H_node_id : forall v s, R s (with_node_id v s).
Hypothesis H_node_ids : forall v s, R s (with_node_ids v s).
Hypothesis H_Follower : forall s, R s (with_state Follower s).
Hypothesis H_Candidate : forall s, R s (with_state Candidate s).
Hypothesis H_Leader : forall s, R s (with_state Leader s).
Hypothesis H_current_term : forall v s, R s (with_current_term v s).
Hypothesis H_voted_for : forall v s, R s (with_voted_for v s).
Hypothesis H_commit_index : forall v s, R s (with_commit_index v s).
Hypothesis H_last_applied : forall v s, R s (with_last_applied v s).
Hypothesis H_leader : forall v s, R s (with_leader v s).
Hypothesis H_next_index : forall v s, R s (with_next_index v s).
Hypothesis H_match_index : forall v s, R s (with_match_index v s).
Hypothesis H_log : forall v s, R s (with_log v s).
Hypothesis H_state_machine : forall v s, R s (with_state_machine v s).
Hypothesis H_frames : forall v s, R s (with_frames v s).
Hypothesis H_net_node_id :
  forall v s, R s (with_net (with_net_node_id v (net s)) s).
Hypothesis H_delete_callback :
  forall k s, R s (with_net (with_callbacks (delete k (callbacks (net s))) (net s)) s).
Hypothesis H_send_msg : forall p, keeps R (send_msg p).
Hypothesis H_rpc : forall d b h, keeps R (rpc d b h).

Ltac kept_side :=
  intros;
  first [ apply H_election_deadline | apply H_step_down_deadline
        | apply H_last_replication | apply H_node_id | apply H_node_ids
        | apply H_Follower | apply H_Candidate | apply H_Leader
        | apply H_current_term | apply H_voted_for | apply H_commit_index
        | apply H_last_applied | apply H_leader | apply H_next_index
        | apply H_match_index | apply H_log | apply H_state_machine
        | apply H_frames | apply H_net_node_id | apply H_delete_callback ].

Ltac kept_step :=
  lazymatch goal with
  | |- keeps _ (mbind _ _) => apply keeps_bind; [exact R_trans| |intros ?]
  | |- keeps _ (mret _) => apply keeps_ret; exact R_refl
  | |- keeps _ (raise _) => apply keeps_raise; exact R_refl
  | |- keeps _ get => apply keeps_get; exact R_refl
  | |- keeps _ (lift _) => apply keeps_lift; exact R_refl
  | |- keeps _ (modify _) => apply keeps_modify; kept_side
  | |- keeps _ (for_each _ _ _) =>
      apply keeps_for_each; [exact R_refl|exact R_trans|intros ? ?]
  | |- keeps _ (if ?b then _ else _) => destruct b
  | |- keeps _ (match ?x with _ => _ end) => destruct x
  end.

Ltac kept_auto := repeat first [ solve [auto with kept] | kept_step ].

Lemma kept_send (d : string) (b : body) : keeps R (send d b).
Proof. unfold send. kept_auto. Qed.
#[local] Hint Resolve kept_send : kept.

Lemma kept_reply (req : msg) (res : Z -> body) : keeps R (reply req res).
Proof. unfold reply. kept_auto. Qed.
#[local] Hint Resolve kept_reply : kept.

Lemma kept_other_nodes : keeps R other_nodes.
Proof. unfold other_nodes. kept_auto. Qed.
#[local] Hint Resolve kept_other_nodes : kept.

Lemma kept_match_index : keeps R match_index.
Proof. unfold match_index. kept_auto. Qed.
#[local] Hint Resolve kept_match_index : kept.

Lemma kept_set_node_id (id : option string) : keeps R (set_node_id id).
Proof. unfold set_node_id, Net_set_node_id. kept_auto. Qed.
#[local] Hint Resolve kept_set_node_id : kept.

Lemma kept_brpc_by_rpc (b : Z -> body) (h : callback) : keeps R (brpc b h).
Proof. unfold brpc. kept_auto. Qed.

Lemma kept_reset_election_deadline (c : clock) :
  keeps R (reset_election_deadline c).
Proof. unfold reset_election_deadline. kept_auto. Qed.
#[local] Hint Resolve kept_reset_election_deadline : kept.

Lemma kept_reset_step_down_deadline (c : clock) :
  keeps R (reset_step_down_deadline c).
Proof. unfold reset_step_down_deadline. kept_auto. Qed.
#[local] Hint Resolve kept_reset_step_down_deadline : kept.

Lemma kept_advance_term (term : Z) : keeps R (advance_term term).
Proof. unfold advance_term. kept_auto. Qed.
#[local] Hint Resolve kept_advance_term : kept.

Lemma kept_become_follower (c : clock) : keeps R (become_follower c).
Proof. unfold become_follower. kept_auto. Qed.
#[local] Hint Resolve kept_become_follower : kept.

Lemma kept_maybe_step_down (c : clock) (remote_term : Z) :
  keeps R (maybe_step_down c remote_term).
Proof. unfold maybe_step_down. kept_auto. Qed.
#[local] Hint Resolve kept_maybe_step_down : kept.

Lemma kept_become_leader_by_fields (f : pyfile) (c : clock) :
  keeps R (become_leader f c).
Proof. unfold become_leader. kept_auto. Qed.

Lemma kept_new_frame (fr : frame) : keeps R (new_frame fr).
Proof. unfold new_frame. kept_auto. Qed.
#[local] Hint Resolve kept_new_frame : kept.

Lemma kept_assign (fr : nat) (g : frame -> frame) : keeps R (assign fr g).
Proof.
  unfold assign. apply keeps_modify. intros s.
  destruct (frames s !! fr); [kept_side|apply R_refl].
Qed.
#[local] Hint Resolve kept_assign : kept.

Lemma kept_step_down_on_timeout (c : clock) : keeps R (step_down_on_timeout c).
Proof. unfold step_down_on_timeout. kept_auto. Qed.

Lemma kept_replicate_log (f : pyfile) (c : clock) : keeps R (replicate_log f c).
Proof. unfold replicate_log. kept_auto. Qed.

Lemma kept_raft_init (f : pyfile) (c : clock) (m : msg) (id : string)
    (ids : list string) :
  keeps R (raft_init f c m id ids).
Proof. unfold raft_init. kept_auto. Qed.

Lemma kept_handler (c : clock) (fr : nat) (res : msg) : keeps R (handler c fr res).
Proof. unfold handler. kept_auto. Qed.

Lemma kept_request_vote (c : clock) (m : msg) (term : Z)
    (candidate_id : option string) (last_log_index last_log_term : Z) :
  keeps R (request_vote c m term candidate_id last_log_index last_log_term).
Proof. unfold request_vote. kept_auto. Qed.

Lemma kept_append_entries (f : pyfile) (c : clock) (m : msg) (term : Z)
    (leader_id : option string) (prev_log_index prev_log_term : Z)
    (entries : list entry) (leader_commit : Z) :
  keeps R (append_entries f c m term leader_id prev_log_index prev_log_term
             entries leader_commit).
Proof. unfold append_entries, try_get. kept_auto. Qed.

Lemma kept_kv_req (f : pyfile) (m : msg) (o : op) : keeps R (kv_req f m o).
Proof. unfold kv_req. kept_auto. Qed.

Lemma kept_advance_commit_index : keeps R advance_commit_index.
Proof. unfold advance_commit_index. kept_auto. Qed.

Lemma kept_advance_state_machine (f : pyfile) : keeps R (advance_state_machine f).
Proof. unfold advance_state_machine. kept_auto. Qed.

(** The methods above [brpc] and [become_leader] take what these two
    keep as given. *)
Hypothesis H_brpc : forall b h, keeps R (brpc b h).
Hypothesis H_become_leader : forall f c, keeps R (become_leader f c).

Lemma kept_request_votes : keeps R request_votes.
Proof. unfold request_votes. kept_auto. Qed.
#[local] Hint Resolve kept_request_votes : kept.

Lemma kept_become_candidate (f : pyfile) (c : clock) :
  keeps R (become_candidate f c).
Proof. unfold become_candidate. kept_auto. Qed.
#[local] Hint Resolve kept_become_candidate : kept.

Lemma kept_election (f : pyfile) (c : clock) : keeps R (election f c).
Proof. unfold election. kept_auto. Qed.

Lemma kept_handle (f : pyfile) (c : clock) (fr : nat) (response : msg) :
  keeps R (handle f c fr response).
Proof. unfold handle. kept_auto. Qed.

(** [process_msg], given what the handlers keep on the message at hand. *)
Lemma kept_process_msg (f : pyfile) (c : clock) (m : msg) :
  (forall fr, keeps R (handle f c fr m)) ->
  (forall fr, keeps R (handler c fr m)) ->
  (forall id ids, keeps R (raft_init f c m id ids)) ->
  (forall term candidate_id last_log_index last_log_term msg_id,
     mbody m = RequestVote term candidate_id last_log_index last_log_term msg_id ->
     keeps R (request_vote c m term candidate_id last_log_index last_log_term)) ->
  (forall term leader_id prev_log_index prev_log_term entries leader_commit msg_id,
     mbody m = AppendEntries term leader_id prev_log_index prev_log_term entries
                 leader_commit msg_id ->
     keeps R (append_entries f c m term leader_id prev_log_index prev_log_term
                entries leader_commit)) ->
  (forall o, mbody m = KVRequest o -> keeps R (kv_req f m o)) ->
  keeps R (process_msg f c m).
Proof.
  intros Hhandle Hhandler Hinit Hvote Happend Hkv. unfold process_msg, no_handler.
  destruct (mbody m) eqn:Hbody; simpl.
  all: kept_auto.
  - eapply Hvote. reflexivity.
  - eapply Happend. reflexivity.
Qed.

End kept.

(** ** A higher term *)

Lemma maybe_step_down_higher (c : clock) (t : Z) (s : RaftNode) :
  current_term s < t ->
  let s1 := snd (maybe_step_down c t s) in
  follower_of t s1 /\ voted_for s1 = None /\ leader s1 = None
  /\ node_id s1 = node_id s /\ node_ids s1 = node_ids s.
Proof.
  intros Hlt. rewrite maybe_step_down_eq. simpl.
  destruct (Z.ltb_spec (current_term s) t); [|lia].
  unfold follower_of. simpl. repeat split; reflexivity.
Qed.

Lemma maybe_step_down_run (c : clock) (t : Z) (s : RaftNode) :
  maybe_step_down c t s = (Ok tt, snd (maybe_step_down c t s)).
Proof. rewrite maybe_step_down_eq. reflexivity. Qed.

(** The steps of a method, for a reflexive and transitive relation whose
    conditions on the assignments the tactic [side] proves. *)
Ltac keeps_by R_refl R_trans side :=
  repeat lazymatch goal with
  | |- keeps _ (mbind _ _) => apply keeps_bind; [exact R_trans| |intros ?]
  | |- keeps _ (mret _) => apply keeps_ret; exact R_refl
  | |- keeps _ (raise _) => apply keeps_raise; exact R_refl
  | |- keeps _ get => apply keeps_get; exact R_refl
  | |- keeps _ (lift _) => apply keeps_lift; exact R_refl
  | |- keeps _ (modify _) => apply keeps_modify; intros; side
  | |- keeps _ (for_each _ _ _) =>
      apply keeps_for_each; [exact R_refl|exact R_trans|intros ? ?]
  | |- keeps _ (if ?b then _ else _) => destruct b
  | |- keeps _ (match ?x with _ => _ end) => destruct x
  end.

Lemma same_role_refl (s : RaftNode) : same_role s s.
Proof. repeat split; reflexivity. Qed.

Lemma same_role_trans (s1 s2 s3 : RaftNode) :
  same_role s1 s2 -> same_role s2 s3 -> same_role s1 s3.
Proof. unfold same_role. intuition congruence. Qed.

Ltac same_role_auto :=
  unfold reply, send, send_msg, reset_election_deadline,
    reset_step_down_deadline, try_get;
  keeps_by same_role_refl same_role_trans ltac:(repeat split; reflexivity).

Lemma same_role_follower (t : Z) (s s' : RaftNode) :
  same_role s s' -> follower_of t s -> follower_of t s'.
Proof. unfold same_role, follower_of. intuition congruence. Qed.

(** What runs after [maybe_step_down] in a method, on the node it leaves. *)
Ltac after_maybe_step_down c t s s1 H :=
  pose proof (maybe_step_down_run c t s) as H;
  revert H; generalize (snd (maybe_step_down c t s)); intros s1 H.

Lemma request_vote_follower (c : clock) (m : msg) (term : Z)
    (candidate_id : option string) (last_log_index last_log_term : Z)
    (s : RaftNode) :
  current_term s < term ->
  let s' := snd (request_vote c m term candidate_id last_log_index last_log_term s) in
  follower_of term s' /\ node_id s' = node_id s /\ node_ids s' = node_ids s.
Proof.
  intros Hlt. simpl.
  destruct (maybe_step_down_higher c term s Hlt) as (Hf & _ & _ & Hid & Hids).
  revert Hf Hid Hids. after_maybe_step_down c term s s1 Hrun. intros Hf Hid Hids.
  unfold request_vote. rewrite (bind_Ok _ _ _ _ _ Hrun).
  match goal with
  | |- context [snd (?k s1)] => assert (Hk : keeps same_role k) by same_role_auto
  end.
  specialize (Hk s1). split; [eapply same_role_follower; eassumption|].
  destruct Hk as (_ & _ & _ & _ & Hid' & Hids'). split; congruence.
Qed.

Lemma append_entries_follower (f : pyfile) (c : clock) (m : msg) (term : Z)
    (leader_id : option string) (prev_log_index prev_log_term : Z)
    (entries : list entry) (leader_commit : Z) (s : RaftNode) :
  current_term s < term ->
  let s' := snd (append_entries f c m term leader_id prev_log_index
                   prev_log_term entries leader_commit s) in
  follower_of term s' /\ node_id s' = node_id s /\ node_ids s' = node_ids s.
Proof.
  intros Hlt. simpl.
  destruct (maybe_step_down_higher c term s Hlt) as (Hf & _ & _ & Hid & Hids).
  revert Hf Hid Hids. after_maybe_step_down c term s s1 Hrun. intros Hf Hid Hids.
  unfold append_entries. rewrite (bind_Ok _ _ _ _ _ Hrun).
  match goal with
  | |- context [snd (?k s1)] => assert (Hk : keeps same_role k) by same_role_auto
  end.
  specialize (Hk s1). split; [eapply same_role_follower; eassumption|].
  destruct Hk as (_ & _ & _ & _ & Hid' & Hids'). split; congruence.
Qed.

(** A response with a higher term: the node steps down, and a follower
    is neither the candidate [handle] counts votes for nor the leader
    [handler] updates the indices of. *)
Lemma handle_follower (f : pyfile) (c : clock) (fr : nat) (m : msg) (t : Z)
    (s : RaftNode) :
  body_term (mbody m) = Ok t -> current_term s < t ->
  let s' := snd (handle f c fr m s) in
  follower_of t s' /\ node_id s' = node_id s /\ node_ids s' = node_ids s.
Proof.
  intros Hbody Hlt. simpl. unfold handle. rewrite Hbody.
  unfold reset_step_down_deadline.
  erewrite bind_Ok; [|reflexivity]. erewrite bind_Ok; [|reflexivity].
  set (s0 := with_step_down_deadline _ s).
  destruct (maybe_step_down_higher c t s0 Hlt) as (Hf & _ & _ & Hid & Hids).
  revert Hf Hid Hids. after_maybe_step_down c t s0 s1 Hrun. intros Hf Hid Hids.
  rewrite (bind_Ok _ _ _ _ _ Hrun).
  destruct Hf as (Hrole & Hterm & Hni & Hmi).
  unfold_monad. simpl. rewrite Hrole. simpl.
  destruct (frames s1 !! fr) as [[]|]; simpl; repeat split; assumption.
Qed.

Lemma handler_follower (c : clock) (fr : nat) (m : msg) (t : Z) (s : RaftNode) :
  body_term (mbody m) = Ok t -> current_term s < t ->
  let s' := snd (handler c fr m s) in
  follower_of t s' /\ node_id s' = node_id s /\ node_ids s' = node_ids s.
Proof.
  intros Hbody Hlt. simpl. unfold handler. rewrite Hbody.
  erewrite bind_Ok; [|reflexivity].
  destruct (maybe_step_down_higher c t s Hlt) as (Hf & _ & _ & Hid & Hids).
  revert Hf Hid Hids. after_maybe_step_down c t s s1 Hrun. intros Hf Hid Hids.
  rewrite (bind_Ok _ _ _ _ _ Hrun).
  destruct Hf as (Hrole & Hterm & Hni & Hmi).
  unfold_monad. simpl. rewrite Hrole. simpl.
  destruct (frames s1 !! fr) as [[? ?|[?|] [?|] [?|] ?]|]; simpl;
    repeat split; assumption.
Qed.

Lemma step_Receive (f : pyfile) (c : clock) (m : msg) (s : RaftNode) :
  step f s (Receive m c)
  = snd (match body_in_reply_to (mbody m) with
         | Some k =>
             match callbacks (net s) !! k with
             | None => (Raise KeyError, s)
             | Some h =>
                 let s0 := with_net (with_callbacks (delete k (callbacks (net s)))
                                       (net s)) s in
                 match h with
                 | request_votes_handle fr => handle f c fr m s0
                 | replicate_log_handler fr => handler c fr m s0
                 end
             end
         | None =>
             match mbody m with
             | Init id ids _ =>
                 match f with
                 | raft_py => raft_init f c m id ids s
                 | python_py => no_handler f s
                 end
             | RaftInit id ids _ =>
                 match f with
                 | raft_py => no_handler f s
                 | python_py => raft_init f c m id ids s
                 end
             | RequestVote term candidate_id last_log_index last_log_term _ =>
                 request_vote c m term candidate_id last_log_index last_log_term s
             | AppendEntries term leader_id prev_log_index prev_log_term entries
                             leader_commit _ =>
                 append_entries f c m term leader_id prev_log_index prev_log_term
                                entries leader_commit s
             | KVRequest o =>
                 if bool_decide (op_type o = "read") || bool_decide (op_type o = "write")
                    || bool_decide (op_type o = "cas")
                 then kv_req f m o s
                 else no_handler f s
             | _ => no_handler f s
             end
         end).
Proof.
  unfold step. simpl run. unfold process_msg. rewrite snd_then_ret.
  destruct (body_in_reply_to (mbody m)) as [k|].
  - unfold_monad. destruct (callbacks (net s) !! k) as [[fr|fr]|]; reflexivity.
  - destruct (mbody m); try reflexivity.
    + destruct f; reflexivity.
    + destruct f; reflexivity.
    + destruct (bool_decide (op_type o = "read") || bool_decide (op_type o = "write")
                || bool_decide (op_type o = "cas")); reflexivity.
Qed.

(** X10: a message that carries a term above the node's own leaves the
    node a follower of that term, whatever it was before, with the ids
    it had: a vote request, an append_entries request, or the response
    to a request of the node that is still pending. *)
Theorem higher_term_makes_follower (f : pyfile) (c : clock) (m : msg) (t : Z)
    (s : RaftNode) :
  body_term (mbody m) = Ok t ->
  current_term s < t ->
  (forall k, body_in_reply_to (mbody m) = Some k ->
             is_Some (callbacks (net s) !! k)) ->
  let s' := step f s (Receive m c) in
  follower_of t s' /\ node_id s' = node_id s /\ node_ids s' = node_ids s.
Proof.
  intros Hterm Hlt Hpending. simpl. rewrite step_Receive.
  destruct (body_in_reply_to (mbody m)) as [k|] eqn:Hreply.
  - destruct (Hpending k eq_refl) as [h Hh]. rewrite Hh. simpl.
    destruct h as [fr|fr].
    + exact (handle_follower f c fr m t
               (with_net (with_callbacks (delete k (callbacks (net s))) (net s)) s)
               Hterm Hlt).
    + exact (handler_follower c fr m t
               (with_net (with_callbacks (delete k (callbacks (net s))) (net s)) s)
               Hterm Hlt).
  - destruct (mbody m); try discriminate; simpl in Hterm; injection Hterm as ->.
    + apply request_vote_follower. exact Hlt.
    + apply append_entries_follower. exact Hlt.
Qed.

Lemma higher_term_makes_follower_witness :
  let m := Msg "n3" "n1" (RequestVote 7 (Some "n3") 5 3 1) in
  let s' := step raft_py leader_n1 (Receive m clock0) in
  state leader_n1 = Leader
  /\ follower_of 7 s' /\ node_id s' = node_id leader_n1
  /\ node_ids s' = node_ids leader_n1.
Proof.
  split; [vm_compute; reflexivity|].
  apply (higher_term_makes_follower raft_py clock0
           (Msg "n3" "n1" (RequestVote 7 (Some "n3") 5 3 1)) 7 leader_n1).
  - reflexivity.
  - vm_compute. reflexivity.
  - intros k Hk. discriminate Hk.
Defined.

(** ** Responses *)

Lemma same_net_refl (s : RaftNode) : same_net s s.
Proof. reflexivity. Qed.

Lemma same_net_trans (s1 s2 s3 : RaftNode) :
  same_net s1 s2 -> same_net s2 s3 -> same_net s1 s3.
Proof. unfold same_net. congruence. Qed.

Ltac same_net_auto :=
  unfold maybe_step_down, advance_term, become_follower, become_leader,
    other_nodes, reset_election_deadline, reset_step_down_deadline, assign;
  keeps_by same_net_refl same_net_trans ltac:(reflexivity).

Lemma same_net_handle (f : pyfile) (c : clock) (fr : nat) (m : msg) :
  keeps same_net (handle f c fr m).
Proof. unfold handle. same_net_auto. Qed.

Lemma same_net_handler (c : clock) (fr : nat) (m : msg) :
  keeps same_net (handler c fr m).
Proof. unfold handler. same_net_auto. Qed.

(** X11: a response is handled at most once and in silence.  Handling
    a message that carries an [in_reply_to] removes the callback stored
    under that id and does nothing else to the network side of the node:
    nothing is sent and no request is made.  A second response to the
    same request, like any response nobody waits for, raises a
    [KeyError] and leaves the node as it is. *)
Theorem response_handled_once (f : pyfile) (c c' : clock) (m m' : msg) (k : Z)
    (s : RaftNode) :
  body_in_reply_to (mbody m) = Some k ->
  body_in_reply_to (mbody m') = Some k ->
  let s' := step f s (Receive m c) in
  net s' = with_callbacks (delete k (callbacks (net s))) (net s)
  /\ run f (Receive m' c') s' = (Raise KeyError, s').
Proof.
  intros Hk Hk'. simpl.
  assert (Hnet : net (step f s (Receive m c))
                 = with_callbacks (delete k (callbacks (net s))) (net s)).
  { rewrite step_Receive, Hk.
    destruct (callbacks (net s) !! k) as [h|] eqn:Hh; simpl.
    - destruct h as [fr|fr].
      + apply (same_net_handle f c fr m).
      + apply (same_net_handler c fr m).
    - rewrite delete_id by exact Hh. destruct (net s); reflexivity. }
  split; [exact Hnet|].
  simpl run. unfold process_msg. rewrite Hk'.
  unfold_monad. rewrite Hnet. simpl. rewrite lookup_delete_eq. reflexivity.
Qed.

Lemma response_handled_once_witness :
  let m := Msg "n2" "n1" (AppendEntriesRes 1 true 2) in
  let s := exec raft_py RaftNode_init
             [init_n1; ElectionTick (Clock 100 0);
              Receive (Msg "n2" "n1" (RequestVoteRes 1 true 0)) clock0;
              Receive (Msg "c1" "n1"
                         (KVRequest (Op "write" (VInt 1) (Some (VInt 7)) None None 2 None)))
                      clock0;
              ReplicateTick (Clock 101 0)] in
  let s' := step raft_py s (Receive m clock0) in
  is_Some (callbacks (net s) !! 2)
  /\ net s' = with_callbacks (delete 2 (callbacks (net s))) (net s)
  /\ run raft_py (Receive m clock0) s' = (Raise KeyError, s').
Proof.
  split; [vm_compute; eexists; reflexivity|].
  apply (response_handled_once raft_py clock0 clock0
           (Msg "n2" "n1" (AppendEntriesRes 1 true 2))
           (Msg "n2" "n1" (AppendEntriesRes 1 true 2)) 2); reflexivity.
Defined.

(** ** The ids of the node *)

(** The rules of the section [kept], applied method by method: [side]
    proves what a relation asks of the assignments. *)
Ltac kept_goal side :=
  intros;
  try first
    [ solve [side]
    | first [ apply kept_process_msg | apply kept_handle | apply kept_handler
            | apply kept_request_vote | apply kept_append_entries
            | apply kept_kv_req | apply kept_step_down_on_timeout
            | apply kept_replicate_log | apply kept_election
            | apply kept_advance_commit_index | apply kept_advance_state_machine
            | apply kept_brpc_by_rpc | apply kept_become_leader_by_fields
            | apply kept_raft_init ];
      kept_goal side ].

Lemma settled_refl (s : RaftNode) : settled s s.
Proof. intros H. repeat split; [exact H|..]; reflexivity. Qed.

Lemma settled_trans (s1 s2 s3 : RaftNode) :
  settled s1 s2 -> settled s2 s3 -> settled s1 s3.
Proof.
  unfold settled. intros H12 H23 H1.
  destruct (H12 H1) as (H2 & Ha & Hb & Hc).
  destruct (H23 H2) as (H3 & Ha' & Hb' & Hc').
  repeat split; [exact H3|..]; congruence.
Qed.

Ltac settled_side :=
  first [ apply settled_refl
        | eapply settled_trans; eassumption
        | unfold settled; simpl; intros ?;
          repeat split; first [assumption|reflexivity|discriminate]
        | unfold rpc, new_msg_id, send, send_msg;
          keeps_by settled_refl settled_trans
            ltac:(unfold settled; simpl; intros ?;
                  repeat split; first [assumption|reflexivity]) ].

(** An init message to a node that is no longer nascent is refused. *)
Lemma raft_init_again (f : pyfile) (c : clock) (m : msg) (id : string)
    (ids : list string) (s : RaftNode) :
  state s <> Nascent -> raft_init f c m id ids s = (Raise RuntimeError, s).
Proof.
  intros Hs. unfold raft_init. unfold_monad.
  rewrite bool_decide_false by exact Hs. reflexivity.
Qed.

Lemma settled_raft_init (f : pyfile) (c : clock) (m : msg) (id : string)
    (ids : list string) :
  keeps settled (raft_init f c m id ids).
Proof.
  intros s Hs. rewrite raft_init_again by exact Hs. simpl.
  repeat split; [exact Hs|..]; reflexivity.
Qed.

Lemma settled_run (f : pyfile) (e : event) : keeps settled (run f e).
Proof.
  destruct e as [m c|c|c|c| |]; simpl run.
  all: kept_goal ltac:(first [apply settled_raft_init | settled_side]).
Qed.

Lemma settled_exec (f : pyfile) (es : list event) (s : RaftNode) :
  settled s (exec f s es).
Proof.
  revert s. induction es as [|e es IH]; intros s; simpl.
  - apply settled_refl.
  - eapply settled_trans; [apply (settled_run f e s)|apply IH].
Qed.

(** The first init message, on a node that is still nascent. *)
Lemma raft_init_first (f : pyfile) (c : clock) (m : msg) (id : string)
    (ids : list string) (msg_id : Z) (s : RaftNode) :
  state s = Nascent ->
  body_msg_id (mbody m) = Ok msg_id ->
  let s' := snd (raft_init f c m id ids s) in
  state s' = Follower /\ node_id s' = Some id /\ node_ids s' = Some ids
  /\ net_node_id (net s') = Some id
  /\ stdout (net s')
     = (stdout (net s)
        ++ [Packet (Some id) (src m)
              (match f with raft_py => InitOk | python_py => RaftInitOk end msg_id)])%list.
Proof.
  intros Hs Hid. simpl. unfold raft_init. unfold_monad.
  rewrite bool_decide_true by exact Hs. simpl.
  unfold reply, send, send_msg. unfold_monad. rewrite Hid. simpl.
  repeat split; reflexivity.
Qed.

(** X12: the first init message gives the node its id and the ids of
    the cluster, makes it a follower and is answered with the matching
    [init_ok]; whatever the node handles afterwards, later init messages
    included, it keeps these ids and never is nascent again. *)
Theorem init_fixes_the_ids (f : pyfile) (c : clock) (m : msg) (id : string)
    (ids : list string) (msg_id : Z) (es : list event) (s : RaftNode) :
  state s = Nascent ->
  mbody m = init_body f id ids msg_id ->
  let s1 := step f s (Receive m c) in
  let s' := exec f s1 es in
  state s1 = Follower
  /\ stdout (net s1)
     = (stdout (net s)
        ++ [Packet (Some id) (src m)
              (match f with raft_py => InitOk | python_py => RaftInitOk end msg_id)])%list
  /\ state s' <> Nascent /\ node_id s' = Some id /\ node_ids s' = Some ids
  /\ net_node_id (net s') = Some id.
Proof.
  intros Hs Hbody. simpl.
  assert (Hstep : step f s (Receive m c) = snd (raft_init f c m id ids s)).
  { rewrite step_Receive, Hbody. destruct f; reflexivity. }
  assert (Hid : body_msg_id (mbody m) = Ok msg_id).
  { rewrite Hbody. destruct f; reflexivity. }
  destruct (raft_init_first f c m id ids msg_id s Hs Hid)
    as (Hrole & Hnode & Hnodes & Hnet & Hout).
  rewrite Hstep. split; [exact Hrole|]. split; [exact Hout|].
  destruct (settled_exec f es (snd (raft_init f c m id ids s)))
    as (Hrole' & Hnode' & Hnodes' & Hnet').
  { rewrite Hrole. discriminate. }
  repeat split; [exact Hrole'|..]; congruence.
Qed.

Lemma init_fixes_the_ids_witness :
  let m := Msg "c0" "n1" (Init "n1" ["n1"; "n2"; "n3"] 1) in
  let s1 := step raft_py RaftNode_init (Receive m clock0) in
  let s' := exec raft_py s1
              [Receive (Msg "c0" "n1" (Init "n9" ["n9"] 2)) clock0;
               ElectionTick (Clock 100 0)] in
  state s1 = Follower
  /\ stdout (net s1)
     = (stdout (net RaftNode_init) ++ [Packet (Some "n1") "c0" (InitOk 1)])%list
  /\ state s' <> Nascent /\ node_id s' = Some "n1"
  /\ node_ids s' = Some ["n1"; "n2"; "n3"]
  /\ net_node_id (net s') = Some "n1".
Proof.
  apply (init_fixes_the_ids raft_py clock0
           (Msg "c0" "n1" (Init "n1" ["n1"; "n2"; "n3"] 1))
           "n1" ["n1"; "n2"; "n3"] 1); reflexivity.
Defined.

(** X13: a request of another node that reaches a node before its init
    message, with a term above the node's own, makes a follower of it;
    the node is then never initialised: every init message that follows
    is refused, and the node keeps the ids it had, which for a new node
    are none. *)
Theorem request_before_init_blocks_init (f : pyfile) (c : clock) (m : msg)
    (t : Z) (es : list event) (s : RaftNode) :
  body_term (mbody m) = Ok t ->
  body_in_reply_to (mbody m) = None ->
  current_term s < t ->
  let s' := exec f s (Receive m c :: es) in
  state s' <> Nascent /\ node_id s' = node_id s /\ node_ids s' = node_ids s.
Proof.
  intros Hterm Hreply Hlt. simpl.
  assert (Hfollower : follower_of t (step f s (Receive m c))
                      /\ node_id (step f s (Receive m c)) = node_id s
                      /\ node_ids (step f s (Receive m c)) = node_ids s).
  { rewrite step_Receive, Hreply.
    destruct (mbody m); try discriminate; simpl in Hterm; injection Hterm as ->.
    - apply request_vote_follower. exact Hlt.
    - apply append_entries_follower. exact Hlt. }
  destruct Hfollower as ((Hrole & _) & Hnode & Hnodes).
  destruct (settled_exec f es (step f s (Receive m c)))
    as (Hrole' & Hnode' & Hnodes' & _).
  { rewrite Hrole. discriminate. }
  repeat split; [exact Hrole'|..]; congruence.
Qed.

Lemma request_before_init_blocks_init_witness :
  let s' := exec raft_py RaftNode_init
              [Receive (Msg "n2" "n1" (RequestVote 1 (Some "n2") 1 0 0)) clock0;
               init_n1] in
  state s' <> Nascent /\ node_id s' = None /\ node_ids s' = None.
Proof.
  apply (request_before_init_blocks_init raft_py clock0
           (Msg "n2" "n1" (RequestVote 1 (Some "n2") 1 0 0)) 1 [init_n1]
           RaftNode_init); [reflexivity|reflexivity|vm_compute; reflexivity].
Defined.

(** ** One vote in a term *)

Lemma vote_stands_refl (s : RaftNode) : vote_stands s s.
Proof. split; [lia|auto]. Qed.

Lemma vote_stands_trans (s1 s2 s3 : RaftNode) :
  vote_stands s1 s2 -> vote_stands s2 s3 -> vote_stands s1 s3.
Proof.
  unfold vote_stands. intros (Hle1 & H1) (Hle2 & H2). split; [lia|].
  intros Heq v Hv. apply H2; [lia|]. apply H1; [lia|exact Hv].
Qed.

Lemma term_resets_vote_stands (s s' : RaftNode) :
  term_resets_vote s s' -> vote_stands s s'.
Proof.
  unfold term_resets_vote, vote_stands. intros (Hle & _ & Heq).
  split; [exact Hle|]. intros Hterm v Hv. rewrite Heq by lia. exact Hv.
Qed.

(** [request_vote] on a node that has voted in the term it ends in. *)
Lemma request_vote_voted (c : clock) (m : msg) (term : Z)
    (candidate_id : option string) (last_log_index last_log_term : Z)
    (s : RaftNode) :
  let s1 := snd (maybe_step_down c term s) in
  let s' := snd (request_vote c m term candidate_id last_log_index last_log_term s) in
  forall v, voted_for s1 = Some v -> voted_for s' = Some v.
Proof.
  intros s1 s' v. subst s'.
  assert (Hs1 : maybe_step_down c term s = (Ok tt, s1)).
  { subst s1. rewrite maybe_step_down_eq. reflexivity. }
  clearbody s1. intros Hv. unfold request_vote.
  rewrite (bind_Ok _ _ _ _ _ Hs1).
  unfold reply, send, send_msg, reset_election_deadline. unfold_monad. simpl.
  rewrite Hv. simpl.
  destruct (term <? current_term s1); simpl;
    destruct (body_msg_id (mbody m)); simpl; exact Hv.
Qed.

Lemma vote_stands_request_vote (c : clock) (m : msg) (term : Z)
    (candidate_id : option string) (last_log_index last_log_term : Z) :
  keeps vote_stands
    (request_vote c m term candidate_id last_log_index last_log_term).
Proof.
  intros s.
  destruct (request_vote_vote c m term candidate_id last_log_index
              last_log_term s) as (Hterm & _).
  pose proof (request_vote_voted c m term candidate_id last_log_index
                last_log_term s) as Hvoted.
  pose proof (keeps_maybe_step_down term_resets_vote
                ltac:(term_resets_vote_side) term_resets_vote_trans
                ltac:(term_resets_vote_side) term_resets_vote_advance_term
                c term s) as (Hle & _ & Hsame).
  simpl in *. split; [lia|].
  intros Heq v Hv. apply Hvoted. rewrite Hsame by lia. exact Hv.
Qed.

Lemma vote_stands_run (f : pyfile) (e : event) : keeps vote_stands (run f e).
Proof.
  pose proof (term_resets_vote_run f e) as Hrun.
  destruct e as [[sender receiver b] c|c|c|c| |].
  2,3,5,6: intros s; apply term_resets_vote_stands, Hrun.
  - destruct b; try (intros s; apply term_resets_vote_stands, Hrun).
    intros s. simpl run.
    change (process_msg f c _)
      with (request_vote c
              (Msg sender receiver
                 (RequestVote term candidate_id last_log_index
                    last_log_term msg_id))
              term candidate_id last_log_index last_log_term
            ≫= fun _ => mret true).
    rewrite snd_then_ret. apply vote_stands_request_vote.
  - intros s. destruct (election_vote f c s) as [Hsame|[Hterm _]].
    + destruct Hsame as (Hterm & Hvote & _). simpl run.
      split; [lia|]. intros _ v Hv. congruence.
    + simpl run. split; [lia|]. intros Heq. lia.
Qed.

(** X14: a node votes at most once in a term.  Once [voted_for] names
    a node, it names that node for as long as the term stays, whatever
    the node handles: later vote requests of the same term are refused,
    and the node's own candidacy moves to the next term first. *)
Theorem one_vote_in_a_term (f : pyfile) (es : list event) (s : RaftNode)
    (v : string) :
  voted_for s = Some v ->
  let s' := exec f s es in
  current_term s <= current_term s'
  /\ (current_term s' = current_term s -> voted_for s' = Some v).
Proof.
  intros Hv. simpl.
  assert (H : vote_stands s (exec f s es)).
  { clear Hv. revert s. induction es as [|e es IH]; intros s; simpl.
    - apply vote_stands_refl.
    - eapply vote_stands_trans; [apply (vote_stands_run f e s)|apply IH]. }
  destruct H as (Hle & Hstay). split; [exact Hle|].
  intros Heq. apply Hstay; assumption.
Qed.

Lemma one_vote_in_a_term_witness :
  let s := exec raft_py RaftNode_init
             [init_n1;
              Receive (Msg "n2" "n1" (RequestVote 1 (Some "n2") 1 0 0)) clock0] in
  let s' := exec raft_py s
              [Receive (Msg "n3" "n1" (RequestVote 1 (Some "n3") 5 1 0)) clock0] in
  voted_for s = Some "n2"
  /\ current_term s <= current_term s'
  /\ (current_term s' = current_term s -> voted_for s' = Some "n2").
Proof.
  split; [vm_compute; reflexivity|].
  apply (one_vote_in_a_term raft_py
           [Receive (Msg "n3" "n1" (RequestVote 1 (Some "n3") 5 1 0)) clock0]).
  vm_compute. reflexivity.
Defined.

(** ** Message ids *)

Lemma ids_kept_refl (s : RaftNode) : ids_kept s s.
Proof. split; [lia|auto]. Qed.

Lemma ids_kept_trans (s1 s2 s3 : RaftNode) :
  ids_kept s1 s2 -> ids_kept s2 s3 -> ids_kept s1 s3.
Proof. unfold ids_kept. intros (Hle1 & H1) (Hle2 & H2). split; [lia|auto]. Qed.

Lemma ids_kept_same_net (s s' : RaftNode) : net s' = net s -> ids_kept s s'.
Proof.
  intros Hnet. unfold ids_kept, ids_in_order. rewrite Hnet. split; [lia|auto].
Qed.

Lemma ids_kept_delete (k : Z) (s : RaftNode) :
  ids_kept s (with_net (with_callbacks (delete k (callbacks (net s))) (net s)) s).
Proof.
  split; [simpl; lia|]. intros Hs j h. simpl.
  rewrite lookup_delete_Some. intros (_ & Hj). exact (Hs j h Hj).
Qed.

Lemma ids_kept_send_msg (p : packet) : keeps ids_kept (send_msg p).
Proof. intros s. split; [simpl; lia|]. intros Hs j h. simpl. apply Hs. Qed.

(** [rpc] takes the next id, which no pending request has. *)
Lemma rpc_eq (d : string) (b : Z -> body) (h : callback) (s : RaftNode) :
  let k := next_msg_id (net s) in
  rpc d b h s
  = (Ok tt,
     with_net
       {| net_node_id := net_node_id (net s); next_msg_id := k + 1;
          callbacks := <[k := h]> (callbacks (net s));
          stdout := stdout (net s) ++ [Packet (net_node_id (net s)) d (b k)] |}
       s).
Proof. reflexivity. Qed.

Lemma ids_kept_rpc (d : string) (b : Z -> body) (h : callback) :
  keeps ids_kept (rpc d b h).
Proof.
  intros s. rewrite rpc_eq. split; [simpl; lia|]. intros Hs j x. simpl.
  rewrite lookup_insert_Some. intros [(<- & _)|(_ & Hj)]; [lia|].
  specialize (Hs j x Hj). lia.
Qed.

Ltac ids_kept_side :=
  first [ apply ids_kept_refl
        | eapply ids_kept_trans; eassumption
        | apply ids_kept_delete
        | apply ids_kept_send_msg
        | apply ids_kept_rpc
        | apply ids_kept_same_net; reflexivity
        | split; [simpl; lia|intros Hs j h; apply Hs] ].

Lemma ids_kept_run (f : pyfile) (e : event) : keeps ids_kept (run f e).
Proof.
  destruct e as [m c|c|c|c| |]; simpl run.
  all: kept_goal ids_kept_side.
Qed.

(** X15: message ids are not reused.  The next id to allocate never
    goes back, and when the ids of the pending requests are below it,
    as they are in a new node, they stay below it whatever the node
    handles; so every [rpc] stores its callback under an id no pending
    request has, and shadows none. *)
Theorem msg_ids_are_fresh (f : pyfile) (es : list event) (s : RaftNode) :
  ids_in_order s ->
  let s' := exec f s es in
  next_msg_id (net s) <= next_msg_id (net s')
  /\ ids_in_order s'
  /\ forall d b h,
       let k := next_msg_id (net s') in
       let s'' := snd (rpc d b h s') in
       callbacks (net s') !! k = None
       /\ callbacks (net s'') = <[k := h]> (callbacks (net s'))
       /\ next_msg_id (net s'') = k + 1
       /\ stdout (net s'')
          = (stdout (net s') ++ [Packet (net_node_id (net s')) d (b k)])%list.
Proof.
  intros Hs. cbv zeta.
  assert (H : ids_kept s (exec f s es)).
  { clear Hs. revert s. induction es as [|e es IH]; intros s; simpl.
    - apply ids_kept_refl.
    - eapply ids_kept_trans; [apply (ids_kept_run f e s)|apply IH]. }
  destruct H as (Hle & Hkept). specialize (Hkept Hs).
  split; [exact Hle|]. split; [exact Hkept|].
  intros d b h. rewrite rpc_eq. simpl. split; [|repeat split; reflexivity].
  destruct (callbacks (net (exec f s es)) !! next_msg_id (net (exec f s es)))
    as [x|] eqn:Hx; [|reflexivity].
  specialize (Hkept _ _ Hx). lia.
Qed.

Lemma msg_ids_are_fresh_witness :
  let s' := exec raft_py RaftNode_init [init_n1; ElectionTick (Clock 100 0)] in
  next_msg_id (net RaftNode_init) <= next_msg_id (net s')
  /\ ids_in_order s'
  /\ forall d b h,
       let k := next_msg_id (net s') in
       let s'' := snd (rpc d b h s') in
       callbacks (net s') !! k = None
       /\ callbacks (net s'') = <[k := h]> (callbacks (net s'))
       /\ next_msg_id (net s'') = k + 1
       /\ stdout (net s'')
          = (stdout (net s') ++ [Packet (net_node_id (net s')) d (b k)])%list.
Proof.
  apply (msg_ids_are_fresh raft_py [init_n1; ElectionTick (Clock 100 0)]
           RaftNode_init).
  intros k h Hk. vm_compute in Hk. discriminate Hk.
Defined.

(** ** Becoming leader *)

Lemma no_new_leader_refl (s : RaftNode) : no_new_leader s s.
Proof. intros H. exact H. Qed.

Lemma no_new_leader_trans (s1 s2 s3 : RaftNode) :
  no_new_leader s1 s2 -> no_new_leader s2 s3 -> no_new_leader s1 s3.
Proof. unfold no_new_leader. auto. Qed.

Ltac no_new_leader_side :=
  first [ apply no_new_leader_refl
        | eapply no_new_leader_trans; eassumption
        | unfold no_new_leader; simpl; intros; first [assumption|discriminate]
        | unfold rpc, new_msg_id, send, send_msg;
          keeps_by no_new_leader_refl no_new_leader_trans
            ltac:(unfold no_new_leader; simpl; intros; assumption) ].

Lemma no_new_leader_handler (c : clock) (fr : nat) (m : msg) :
  keeps no_new_leader (handler c fr m).
Proof. kept_goal no_new_leader_side. Qed.

(** [handle] makes a leader of none but a candidate whose election the
    granted vote at hand completes. *)
Lemma handle_leader (f : pyfile) (c : clock) (fr : nat) (m : msg) (s : RaftNode) :
  state (snd (handle f c fr m s)) = Leader ->
  state s <> Leader ->
  exists votes ids,
    state s = Candidate
    /\ body_term (mbody m) = Ok (current_term s)
    /\ body_vote_granted (mbody m) = Ok true
    /\ frames s !! fr = Some (request_votes_frame votes (current_term s))
    /\ node_ids s = Some ids
    /\ majority (Z.of_nat (length ids))
       <= Z.of_nat (size ({[ Some (src m) ]} ∪ votes)).
Proof.
  unfold handle, reset_step_down_deadline.
  erewrite bind_Ok; [|reflexivity].
  set (s0 := with_step_down_deadline _ s).
  destruct (body_term (mbody m)) as [t|x] eqn:Hterm.
  2:{ simpl. intros H1 H2. contradiction. }
  erewrite bind_Ok; [|reflexivity].
  destruct (Z.ltb_spec (current_term s0) t) as [Hlt|Hge].
  { destruct (handle_follower f c fr m t s Hterm Hlt) as ((Hrole & _) & _).
    unfold handle, reset_step_down_deadline in Hrole.
    erewrite bind_Ok in Hrole; [|reflexivity]. rewrite Hterm in Hrole.
    erewrite bind_Ok in Hrole; [|reflexivity].
    fold s0 in Hrole. intros H1. rewrite Hrole in H1. discriminate H1. }
  erewrite bind_Ok.
  2:{ rewrite maybe_step_down_eq.
      destruct (Z.ltb_spec (current_term s0) t); [lia|reflexivity]. }
  erewrite bind_Ok; [|reflexivity].
  change (frames s0) with (frames s). change (state s0) with (state s).
  change (current_term s0) with (current_term s) in *.
  change (node_ids s0) with (node_ids s).
  destruct (frames s !! fr) as [[votes term|? ? ? ?]|] eqn:Hframe;
    try (simpl; intros H1 H2; contradiction).
  destruct (bool_decide (state s = Candidate)) eqn:Hrole; simpl;
    [|intros H1 H2; contradiction].
  apply bool_decide_eq_true in Hrole.
  destruct (Z.eqb_spec (current_term s) term) as [<-|]; simpl;
    [|intros H1 H2; contradiction].
  destruct (Z.eqb_spec t (current_term s)) as [->|]; simpl;
    [|intros H1 H2; contradiction].
  destruct (body_vote_granted (mbody m)) as [[|]|x] eqn:Hgranted;
    try (simpl; intros H1 H2; contradiction).
  unfold_monad. cbv beta iota.
  destruct (node_ids s) as [ids|] eqn:Hids;
    [|simpl; intros H1 H2; contradiction].
  destruct (Z.leb_spec (majority (Z.of_nat (length ids)))
              (Z.of_nat (size ({[ Some (src m) ]} ∪ votes)))) as [Hmaj|];
    [|simpl; intros H1 H2; contradiction].
  intros _ _. exists votes, ids. repeat split; auto.
Qed.

Lemma no_new_leader_tick (f : pyfile) (e : event) :
  match e with
  | Receive _ _ => True
  | _ => keeps no_new_leader (run f e)
  end.
Proof.
  destruct e as [m c|c|c|c| |]; simpl run; [exact I|..].
  all: kept_goal no_new_leader_side.
Qed.

Lemma no_new_leader_request (f : pyfile) (c : clock) (m : msg) (s : RaftNode) :
  body_in_reply_to (mbody m) = None ->
  no_new_leader s (step f s (Receive m c)).
Proof.
  intros Hreply. rewrite step_Receive, Hreply. unfold no_handler.
  destruct (mbody m); try destruct f; try apply no_new_leader_refl.
  all: repeat match goal with
              | |- context [if ?b then _ else _] => destruct b
              end; try apply no_new_leader_refl.
  all: match goal with |- no_new_leader ?s (snd (?m ?s)) => revert s end.
  all: match goal with |- forall s, no_new_leader s (snd (?m s)) =>
         change (keeps no_new_leader m) end.
  all: kept_goal no_new_leader_side.
Qed.

(** X16: a node becomes leader in one way only.  Whatever the step, a
    node that is not leader before it and is leader after it was a
    candidate and handled the response to one of its own vote requests:
    a vote granted in the term of the candidacy, which brought the votes
    of that election, the candidate's own included, to a majority of the
    cluster. *)
Theorem leader_only_by_majority (f : pyfile) (e : event) (s : RaftNode) :
  state s <> Leader ->
  state (step f s e) = Leader ->
  exists m c k fr votes ids,
    e = Receive m c
    /\ body_in_reply_to (mbody m) = Some k
    /\ callbacks (net s) !! k = Some (request_votes_handle fr)
    /\ state s = Candidate
    /\ body_term (mbody m) = Ok (current_term s)
    /\ body_vote_granted (mbody m) = Ok true
    /\ frames s !! fr = Some (request_votes_frame votes (current_term s))
    /\ node_ids s = Some ids
    /\ majority (Z.of_nat (length ids))
       <= Z.of_nat (size ({[ Some (src m) ]} ∪ votes)).
Proof.
  intros Hs Hs'.
  pose proof (no_new_leader_tick f e) as Htick.
  destruct e as [m c|c|c|c| |];
    try (exfalso; apply Hs; exact (Htick s Hs')).
  clear Htick.
  destruct (body_in_reply_to (mbody m)) as [k|] eqn:Hreply.
  2:{ exfalso. apply Hs. exact (no_new_leader_request f c m s Hreply Hs'). }
  rewrite step_Receive, Hreply in Hs'.
  destruct (callbacks (net s) !! k) as [[fr|fr]|] eqn:Hk; simpl in Hs'.
  - destruct (handle_leader f c fr m _ Hs' Hs)
      as (votes & ids & Hrole & Hterm & Hgranted & Hframe & Hids & Hmaj).
    exists m, c, k, fr, votes, ids. repeat split; assumption.
  - exfalso. apply Hs. exact (no_new_leader_handler c fr m _ Hs').
  - contradiction.
Qed.

Lemma leader_only_by_majority_witness :
  let s := exec raft_py RaftNode_init [init_n1; ElectionTick (Clock 100 0)] in
  let e := Receive (Msg "n2" "n1" (RequestVoteRes 1 true 0)) clock0 in
  exists m c k fr votes ids,
    e = Receive m c
    /\ body_in_reply_to (mbody m) = Some k
    /\ callbacks (net s) !! k = Some (request_votes_handle fr)
    /\ state s = Candidate
    /\ body_term (mbody m) = Ok (current_term s)
    /\ body_vote_granted (mbody m) = Ok true
    /\ frames s !! fr = Some (request_votes_frame votes (current_term s))
    /\ node_ids s = Some ids
    /\ majority (Z.of_nat (length ids))
       <= Z.of_nat (size ({[ Some (src m) ]} ∪ votes)).
Proof.
  apply (leader_only_by_majority raft_py
           (Receive (Msg "n2" "n1" (RequestVoteRes 1 true 0)) clock0)
           (exec raft_py RaftNode_init [init_n1; ElectionTick (Clock 100 0)])).
  - vm_compute. discriminate.
  - vm_compute. reflexivity.
Defined.

(** ** A cluster of one node *)

Lemma stays_alone_refl (s : RaftNode) : stays_alone s s.
Proof. intros H. exact H. Qed.

Lemma stays_alone_trans (s1 s2 s3 : RaftNode) :
  stays_alone s1 s2 -> stays_alone s2 s3 -> stays_alone s1 s3.
Proof. unfold stays_alone. auto. Qed.

(** A node that is alone has nobody to send a request to. *)
Lemma brpc_alone (b : Z -> body) (h : callback) (s : RaftNode) :
  alone s -> snd (brpc b h s) = s.
Proof.
  intros (_ & _ & [Hids|(me & Hid & Hids)]); unfold brpc, other_nodes;
    unfold_monad.
  - rewrite Hids. reflexivity.
  - rewrite Hids, Hid. simpl. rewrite bool_decide_true by reflexivity.
    reflexivity.
Qed.

Lemma stays_alone_brpc (b : Z -> body) (h : callback) :
  keeps stays_alone (brpc b h).
Proof. intros s Hs. rewrite brpc_alone by exact Hs. exact Hs. Qed.

Ltac stays_alone_field :=
  unfold stays_alone, alone; simpl;
  intros (Hrole & Hcallbacks & Hids);
  split;
  [ first [assumption|discriminate]
  | split;
    [ first [assumption|rewrite Hcallbacks; apply delete_empty]
    | assumption ] ].

Ltac stays_alone_side :=
  first [ apply stays_alone_refl
        | eapply stays_alone_trans; eassumption
        | apply stays_alone_brpc
        | solve [stays_alone_field]
        | unfold send_msg;
          keeps_by stays_alone_refl stays_alone_trans ltac:(stays_alone_field) ].

Lemma stays_alone_replicate_log (f : pyfile) (c : clock) :
  keeps stays_alone (replicate_log f c).
Proof.
  intros s Hs. unfold replicate_log.
  erewrite bind_Ok; [|reflexivity].
  erewrite bind_Ok; [|reflexivity].
  destruct Hs as (Hrole & Hcallbacks & Hids).
  rewrite bool_decide_false by exact Hrole.
  cbn [andb]. erewrite bind_Ok; [|reflexivity].
  cbn. split; [assumption|split; assumption].
Qed.

Lemma stays_alone_raft_init (f : pyfile) (c : clock) (m : msg) (id : string) :
  keeps stays_alone (raft_init f c m id [id]).
Proof.
  intros s (Hrole & Hcallbacks & Hids).
  unfold raft_init, set_node_id, Net_set_node_id, become_follower,
    reset_election_deadline, reply, send, send_msg.
  unfold_monad.
  destruct (bool_decide (state s = Nascent)); simpl.
  - destruct (body_msg_id (mbody m)); simpl;
      (split; [discriminate|]); (split; [exact Hcallbacks|]);
      right; exists id; split; reflexivity.
  - split; [assumption|split; assumption].
Qed.

Lemma stays_alone_no_handler (f : pyfile) : keeps stays_alone (no_handler f).
Proof. intros s Hs. destruct f; exact Hs. Qed.

Lemma stays_alone_run (f : pyfile) (e : event) :
  init_alone e = true -> keeps stays_alone (run f e).
Proof.
  intros Hinit.
  destruct e as [m c|c|c|c| |]; simpl run.
  2-6: first [ apply stays_alone_replicate_log | kept_goal stays_alone_side ].
  intros s Hs. change (alone (step f s (Receive m c))).
  rewrite step_Receive.
  destruct (body_in_reply_to (mbody m)) as [k|] eqn:Hreply.
  { destruct Hs as (Hrole & Hcallbacks & Hids).
    rewrite Hcallbacks, lookup_empty. simpl.
    split; [assumption|split; assumption]. }
  revert s Hs.
  destruct m as [sender receiver b]. simpl in Hinit. simpl mbody in *.
  destruct b; try discriminate Hreply.
  - apply bool_decide_eq_true in Hinit. rewrite Hinit.
    destruct f; [apply stays_alone_raft_init|apply stays_alone_no_handler].
  - apply bool_decide_eq_true in Hinit. rewrite Hinit.
    destruct f; [apply stays_alone_no_handler|apply stays_alone_raft_init].
  - change (keeps stays_alone
              (request_vote c (Msg sender receiver
                                 (RequestVote term candidate_id last_log_index
                                    last_log_term msg_id))
                 term candidate_id last_log_index last_log_term)).
    kept_goal stays_alone_side.
  - change (keeps stays_alone
              (append_entries f c
                 (Msg sender receiver
                    (AppendEntries term leader_id prev_log_index prev_log_term
                       entries leader_commit msg_id))
                 term leader_id prev_log_index prev_log_term entries
                 leader_commit)).
    kept_goal stays_alone_side.
  - destruct (bool_decide (op_type o = "read") || bool_decide (op_type o = "write")
              || bool_decide (op_type o = "cas"));
      [|apply stays_alone_no_handler].
    change (keeps stays_alone (kv_req f (Msg sender receiver (KVRequest o)) o)).
    kept_goal stays_alone_side.
Qed.

(** X17: a node that is alone in its cluster never becomes leader.  A
    new node, or one initialised with itself as the only member, has no
    other node to ask for a vote, so no vote response ever reaches
    [handle], the only caller of [become_leader]; whatever it handles,
    it stays without pending requests and is never leader. *)
Theorem alone_never_leader (f : pyfile) (es : list event) (s : RaftNode) :
  alone s ->
  forallb init_alone es = true ->
  let s' := exec f s es in
  state s' <> Leader /\ callbacks (net s') = ∅.
Proof.
  intros Hs Hes. simpl.
  assert (H : alone (exec f s es)).
  { revert s Hs Hes. induction es as [|e es IH]; intros s Hs Hes; simpl.
    - exact Hs.
    - simpl in Hes. apply andb_prop in Hes as [He Hes].
      apply IH; [|exact Hes]. apply (stays_alone_run f e He s Hs). }
  destruct H as (Hrole & Hcallbacks & _). split; assumption.
Qed.

Lemma alone_never_leader_witness :
  let es := [Receive (Msg "c0" "n1" (Init "n1" ["n1"] 1)) clock0;
             ElectionTick (Clock 100 0);
             Receive (Msg "n1" "n1" (RequestVoteRes 1 true 0)) clock0;
             ElectionTick (Clock 200 0)] in
  let s' := exec raft_py RaftNode_init es in
  state s' <> Leader /\ callbacks (net s') = ∅.
Proof.
  apply (alone_never_leader raft_py
           [Receive (Msg "c0" "n1" (Init "n1" ["n1"] 1)) clock0;
            ElectionTick (Clock 100 0);
            Receive (Msg "n1" "n1" (RequestVoteRes 1 true 0)) clock0;
            ElectionTick (Clock 200 0)] RaftNode_init).
  - split; [discriminate|]. split; [reflexivity|]. left. reflexivity.
  - reflexivity.
Defined.

(** ** Replication *)

(** X18: what a leader sends for a follower that agrees with it up to
    index [ni - 1] brings the follower's log to the leader's.  The
    entries [from_index(ni)] returns and the term of [get(ni - 1)], as
    [replicate_log] puts them into an append_entries request, are
    accepted by a follower whose term is not ahead and whose first
    [ni - 1] entries are the leader's: it answers [success = True] with
    the term of the request, and its log is then the leader's log,
    whatever it held beyond index [ni - 1]. *)
Theorem append_entries_copies_the_log (f : pyfile) (c : clock)
    (sender receiver : string) (term : Z) (leader_id : option string)
    (leader_log : list entry) (ni leader_commit msg_id : Z) (s : RaftNode) :
  2 <= ni <= Log_size leader_log + 1 ->
  ni - 1 <= Log_size (log s) ->
  take (Z.to_nat (ni - 1)) (log s) = take (Z.to_nat (ni - 1)) leader_log ->
  current_term s <= term ->
  exists entries prev,
    Log_from_index leader_log ni = Ok entries
    /\ Log_get leader_log (ni - 1) = Ok prev
    /\ let m := Msg sender receiver
                  (AppendEntries term leader_id (ni - 1) (e_term prev) entries
                     leader_commit msg_id) in
       let s' := snd (append_entries f c m term leader_id (ni - 1) (e_term prev)
                        entries leader_commit s) in
       log s' = leader_log
       /\ current_term s' = term
       /\ last (stdout (net s'))
          = Some (Packet (net_node_id (net s)) sender
                    (AppendEntriesRes term true msg_id)).
Proof.
  intros Hni Hsize Hprefix Hterm.
  destruct (Log_get_in_range leader_log (ni - 1)) as (prev & Hget & Hlookup);
    [lia|].
  exists (drop (Z.to_nat (ni - 1)) leader_log), prev.
  split.
  { unfold Log_from_index. destruct (Z.leb_spec ni 0); [lia|].
    rewrite py_slice_from_drop by lia. reflexivity. }
  split; [exact Hget|]. cbv zeta.
  destruct (maybe_step_down_frame c term s)
    as (Hlog & _ & _ & Hnet & _).
  pose proof (maybe_step_down_term c term s) as Hterm'.
  assert (Hfollower : Log_get (log s) (ni - 1) = Ok prev).
  { unfold Log_get, Log_size in *. rewrite py_index_nonneg by lia.
    assert (Hl : log s !! Z.to_nat (ni - 1 - 1) = Some prev).
    { rewrite <- (lookup_take_lt (log s) (Z.to_nat (ni - 1))) by lia.
      rewrite Hprefix. rewrite lookup_take_lt by lia. exact Hlookup. }
    rewrite Hl. reflexivity. }
  rewrite (append_entries_accepts f c sender receiver term leader_id (ni - 1)
             (e_term prev) _ leader_commit msg_id s prev)
    by (rewrite ?Hlog; first [exact Hfollower|reflexivity|lia]).
  simpl. rewrite Hlog, Hnet, Hterm', Hprefix, take_drop.
  split; [reflexivity|]. split; [lia|].
  rewrite last_snoc. do 3 f_equal. lia.
Qed.

Lemma append_entries_copies_the_log_witness :
  let leader_log := [Entry 0 None; Entry 2 (Some (write_op 1 1 5));
                     Entry 2 (Some (write_op 3 3 6))] in
  exists entries prev,
    Log_from_index leader_log 2 = Ok entries
    /\ Log_get leader_log (2 - 1) = Ok prev
    /\ let m := Msg "n3" "n1"
                  (AppendEntries 2 (Some "n3") (2 - 1) (e_term prev) entries 0 4) in
       let s' := snd (append_entries raft_py clock0 m 2 (Some "n3") (2 - 1)
                        (e_term prev) entries 0 follower_behind) in
       log s' = leader_log
       /\ current_term s' = 2
       /\ last (stdout (net s'))
          = Some (Packet (net_node_id (net follower_behind)) "n3"
                    (AppendEntriesRes 2 true 4)).
Proof.
  apply (append_entries_copies_the_log raft_py clock0 "n3" "n1" 2 (Some "n3")
           [Entry 0 None; Entry 2 (Some (write_op 1 1 5));
            Entry 2 (Some (write_op 3 3 6))] 2 0 4 follower_behind).
  - vm_compute. split; discriminate.
  - vm_compute. discriminate.
  - vm_compute. reflexivity.
  - vm_compute. discriminate.
Defined.

(** ** Broadcasts *)

(** One [rpc] for each node of a list, in order. *)
Lemma for_each_rpc (b : Z -> body) (h : callback) (nodes : list string) :
  forall s,
    let k := next_msg_id (net s) in
    let s' := snd (for_each nodes tt (fun node _ => rpc node b h) s) in
    fst (for_each nodes tt (fun node _ => rpc node b h) s) = Ok tt
    /\ s' = with_net (net s') s
    /\ net_node_id (net s') = net_node_id (net s)
    /\ next_msg_id (net s') = k + Z.of_nat (length nodes)
    /\ stdout (net s')
       = (stdout (net s)
          ++ imap (fun i n => Packet (net_node_id (net s)) n (b (k + Z.of_nat i)))
               nodes)%list
    /\ forall j,
         callbacks (net s') !! j
         = if bool_decide (k <= j < k + Z.of_nat (length nodes))
           then Some h else callbacks (net s) !! j.
Proof.
  induction nodes as [|n nodes IH]; intros s; cbv zeta.
  - simpl. split; [reflexivity|]. split; [destruct s; reflexivity|].
    split; [reflexivity|]. split; [lia|]. split; [rewrite app_nil_r; reflexivity|].
    intros j. rewrite bool_decide_false by lia. reflexivity.
  - cbn [for_each]. erewrite bind_Ok; [|apply rpc_eq].
    match goal with
    | |- context [for_each nodes tt _ ?s1] =>
        destruct (IH s1) as (Hok & Hframe & Hid & Hnext & Hout & Hcb)
    end.
    cbn [net with_net net_node_id next_msg_id stdout callbacks] in *.
    split; [exact Hok|].
    split; [rewrite Hframe at 1; reflexivity|].
    split; [exact Hid|]. split; [rewrite Hnext; simpl length; lia|].
    split.
    + rewrite Hout, <- app_assoc. f_equal. simpl. f_equal.
      * do 2 f_equal. lia.
      * apply imap_ext. intros i x _. simpl. do 2 f_equal. lia.
    + intros j. rewrite Hcb. simpl length.
      destruct (decide (next_msg_id (net s) = j)) as [<-|Hne].
      * rewrite (bool_decide_false (_ + 1 <= _ < _)) by lia.
        rewrite lookup_insert_eq, bool_decide_true by lia. reflexivity.
      * rewrite lookup_insert_ne by exact Hne.
        repeat case_bool_decide; first [reflexivity|lia].
Qed.

(** X19: [brpc] sends one request to each of the other nodes, in the
    order of [node_ids] without the first occurrence of the node's own
    id, with consecutive msg_ids from the next id on, and stores the
    handler under each of these ids and under no other; the rest of the
    node is as before.  A node whose own id is not among [node_ids]
    sends nothing: [other_nodes] raises a [ValueError]. *)
Theorem brpc_asks_each_other_node (b : Z -> body) (h : callback) (s : RaftNode)
    (me : string) (ids : list string) :
  node_id s = Some me ->
  node_ids s = Some ids ->
  let k := next_msg_id (net s) in
  let s' := snd (brpc b h s) in
  match list_remove me ids with
  | Ok nodes =>
      fst (brpc b h s) = Ok tt
      /\ s' = with_net (net s') s
      /\ next_msg_id (net s') = k + Z.of_nat (length nodes)
      /\ stdout (net s')
         = (stdout (net s)
            ++ imap (fun i n => Packet (net_node_id (net s)) n (b (k + Z.of_nat i)))
                 nodes)%list
      /\ (forall j,
            callbacks (net s') !! j
            = if bool_decide (k <= j < k + Z.of_nat (length nodes))
              then Some h else callbacks (net s) !! j)
      /\ (me ∈ ids /\ length ids = S (length nodes))
  | Raise x => brpc b h s = (Raise ValueError, s) /\ me ∉ ids
  end.
Proof.
  intros Hme Hids. cbv zeta.
  assert (Hremove : match list_remove me ids with
                    | Ok nodes => me ∈ ids /\ length ids = S (length nodes)
                    | Raise x => x = ValueError /\ me ∉ ids
                    end).
  { clear. induction ids as [|y ids IH]; simpl.
    - split; [reflexivity|]. apply not_elem_of_nil.
    - case_bool_decide as Hy.
      + subst y. split; [apply list_elem_of_here|reflexivity].
      + destruct (list_remove me ids) as [r|x].
        * destruct IH as (Hin & Hlen). split.
          -- apply list_elem_of_further. exact Hin.
          -- simpl. rewrite Hlen. reflexivity.
        * destruct IH as (-> & Hnot). split; [reflexivity|].
          intros Hin. apply elem_of_cons in Hin as [->|Hin];
            [apply Hy; reflexivity|exact (Hnot Hin)]. }
  assert (Hother : other_nodes s = (list_remove me ids, s)).
  { unfold other_nodes. unfold_monad. rewrite Hids, Hme. reflexivity. }
  unfold brpc.
  destruct (list_remove me ids) as [nodes|x].
  - rewrite (bind_Ok _ _ _ _ _ Hother).
    destruct (for_each_rpc b h nodes s) as (Hok & Hframe & _ & Hnext & Hout & Hcb).
    repeat (split; [assumption|]). exact Hremove.
  - destruct Hremove as (-> & Hnot).
    rewrite (bind_Raise _ _ _ _ _ Hother). split; [reflexivity|exact Hnot].
Qed.

Lemma brpc_asks_each_other_node_witness :
  let s := exec raft_py RaftNode_init [init_n1] in
  let b := RequestVote 1 (Some "n1") 1 0 in
  let h := request_votes_handle 0 in
  let s' := snd (brpc b h s) in
  match list_remove "n1" ["n1"; "n2"; "n3"] with
  | Ok nodes =>
      fst (brpc b h s) = Ok tt
      /\ s' = with_net (net s') s
      /\ next_msg_id (net s') = next_msg_id (net s) + Z.of_nat (length nodes)
      /\ stdout (net s')
         = (stdout (net s)
            ++ imap (fun i n => Packet (net_node_id (net s)) n
                                  (b (next_msg_id (net s) + Z.of_nat i)))
                 nodes)%list
      /\ (forall j,
            callbacks (net s') !! j
            = if bool_decide (next_msg_id (net s) <= j
                              < next_msg_id (net s) + Z.of_nat (length nodes))
              then Some h else callbacks (net s) !! j)
      /\ ("n1" ∈ ["n1"; "n2"; "n3"]
          /\ length ["n1"; "n2"; "n3"] = S (length nodes))
  | Raise x => brpc b h s = (Raise ValueError, s) /\ "n1" ∉ ["n1"; "n2"; "n3"]
  end.
Proof.
  apply (brpc_asks_each_other_node (RequestVote 1 (Some "n1") 1 0)
           (request_votes_handle 0) (exec raft_py RaftNode_init [init_n1])
           "n1" ["n1"; "n2"; "n3"]); reflexivity.
Defined.

(** ** The main loop never rests *)

Lemma or_else_not_false (a b : M bool) :
  (forall s, fst (b s) <> Ok false) -> forall s, fst (or_else a b s) <> Ok false.
Proof.
  intros Hb s. unfold or_else. unfold_monad.
  destruct (a s) as [[[|]|x] s1]; simpl; [discriminate|apply Hb|discriminate].
Qed.

Lemma advance_state_machine_not_false (f : pyfile) (s : RaftNode) :
  fst (advance_state_machine f s) <> Ok false.
Proof.
  unfold advance_state_machine.
  rewrite (bind_Ok _ _ s s s) by reflexivity.
  unfold_monad.
  match goal with
  | |- context [match ?m s with _ => _ end] => destruct (m s) as [[[]|x] s1]
  end; simpl; discriminate.
Qed.

(** X20: a pass of the main loop never comes to its [time.sleep].  The
    last action of the chain, [advance_state_machine], returns [True]
    whether or not it applied an entry, so a pass returns [True] or
    raises, and the loop spins without a pause even when the node has
    nothing to do; and what a pass does to the node is what a sequence
    of steps does. *)
Theorem main_pass_never_sleeps (f : pyfile) (line : option msg) (c : clock)
    (s : RaftNode) :
  fst (main_pass f line c s) <> Ok false
  /\ (commit_index s <= last_applied s ->
      advance_state_machine f s = (Ok true, s))
  /\ exists es, snd (main_pass f line c s) = exec f s es.
Proof.
  split; [|split].
  - unfold main_pass. revert s. repeat apply or_else_not_false.
    apply advance_state_machine_not_false.
  - intros Hidle. unfold advance_state_machine. unfold_monad.
    destruct (Z.ltb_spec (last_applied s) (commit_index s)); [lia|reflexivity].
  - apply main_pass_exec.
Qed.

Lemma main_pass_never_sleeps_witness :
  let s := exec raft_py RaftNode_init [init_n1] in
  fst (main_pass raft_py None clock0 s) <> Ok false
  /\ (commit_index s <= last_applied s ->
      advance_state_machine raft_py s = (Ok true, s))
  /\ exists es, snd (main_pass raft_py None clock0 s) = exec raft_py s es.
Proof.
  apply (main_pass_never_sleeps raft_py None clock0
           (exec raft_py RaftNode_init [init_n1])).
Defined.
